(** * A verification development for the paper-reading pipeline

    The development embeds the resilience and sequencing layer of the
    repository: [main.py] (the three-stage pipeline), [src/scraper.py] (the
    acquisition coordinator), [src/analyzer.py] (the analyzers) and
    [run_ocr_robust.py] (the perpetual-restart wrapper).

    Files and directories are a tree, Python exceptions are an error monad,
    and every external collaborator (the network, the extraction engine run
    as a subprocess, the hosted or local model) is a [Variable] of the
    section that embeds its caller. *)

From Stdlib Require Import List String Ascii ZArith Lia Bool Arith Permutation.
From Stdlib Require Import DecimalString.
Import ListNotations.
Local Open Scope string_scope.
Local Open Scope list_scope.

(* ================================================================== *)
(** * Python values and exceptions *)
(* ================================================================== *)

Module Py.

(** The exception classes the sources name in an [except] clause, and one
    constructor for every other subclass of [Exception]. *)
Inductive exn_class :=
| ChunkedEncodingError
| ProtocolError
| IncompleteRead
| ConnectionError
| TimeoutExpired
| FileNotFoundError
| OSError
| OtherException.

Record exn := mk_exn { exn_cls : exn_class; exn_msg : string }.

Inductive result (A : Type) :=
| Ok (a : A)
| Raise (e : exn).
Arguments Ok {A} a.
Arguments Raise {A} e.

Definition bind {A B} (m : result A) (k : A -> result B) : result B :=
  match m with
  | Ok a => k a
  | Raise e => Raise e
  end.

Definition of_option {A} (o : option A) (e : exn) : result A :=
  match o with
  | Some a => Ok a
  | None => Raise e
  end.

(** [str] or [None]: what an analyzer may hand back as a report. *)
Inductive value :=
| PyNone
| PyStr (s : string).

(** Python truthiness of such a value: [None] and [''] are falsy. *)
Definition truthy (v : value) : bool :=
  match v with
  | PyNone => false
  | PyStr s => negb (String.length s =? 0)%nat
  end.

Definition nl : string := String (ascii_of_nat 10) EmptyString.

(** [str(n)] for an integer. *)
Definition str_of_Z (n : Z) : string := NilZero.string_of_int (Z.to_int n).

(** [s.endswith(suf)] *)
Definition endswith (s suf : string) : bool :=
  let n := String.length s in
  let m := String.length suf in
  (m <=? n)%nat && String.eqb (substring (n - m) m s) suf.

(** [l[:n]] for a Python integer [n]: a negative [n] counts from the end. *)
Definition slice_to {A} (n : Z) (l : list A) : list A :=
  if (0 <=? n)%Z then firstn (Z.to_nat n) l
  else firstn (Z.to_nat (Z.of_nat (List.length l) + n)) l.

(** [dict.get]-style lookup in a dictionary kept as an association list. *)
Fixpoint dict_get {A} (k : string) (d : list (string * A)) : option A :=
  match d with
  | [] => None
  | (k', v) :: d' => if String.eqb k k' then Some v else dict_get k d'
  end.

End Py.

Notation "x <- m ;; k" := (Py.bind m (fun x => k))
  (at level 61, m at next level, right associativity).

(* ================================================================== *)
(** * The file system *)
(* ================================================================== *)

Module FS.

#[local] Set Warnings "-register-all".

(** A path is the list of its components below the root.  A directory
    keeps its entries in the order the operating system enumerates them
    ([os.listdir] documents that order as arbitrary), and the size its
    [stat] reports. *)
Definition path := list string.

Inductive node :=
| File (data : string)
| Dir (st_size : Z) (entries : list (string * node)).

Fixpoint assoc {A} (k : string) (es : list (string * A)) : option A :=
  match es with
  | [] => None
  | (k', v) :: es' => if String.eqb k k' then Some v else assoc k es'
  end.

Fixpoint remove_key {A} (k : string) (es : list (string * A)) : list (string * A) :=
  match es with
  | [] => []
  | (k', v) :: es' =>
      if String.eqb k k' then remove_key k es' else (k', v) :: remove_key k es'
  end.

(** Apply [f] to the first entry named [k]. *)
Fixpoint map_first {A} (k : string) (f : A -> A) (es : list (string * A)) : list (string * A) :=
  match es with
  | [] => []
  | (k', v) :: es' =>
      if String.eqb k k' then (k', f v) :: es' else (k', v) :: map_first k f es'
  end.

(** Replace the first entry named [k], or add one at the end. *)
Fixpoint set_entry {A} (k : string) (v : A) (es : list (string * A)) : list (string * A) :=
  match es with
  | [] => [(k, v)]
  | (k', v') :: es' =>
      if String.eqb k k' then (k', v) :: es' else (k', v') :: set_entry k v es'
  end.

Fixpoint lookup (p : path) (n : node) : option node :=
  match p with
  | [] => Some n
  | c :: p' =>
      match n with
      | Dir _ es =>
          match assoc c es with
          | Some m => lookup p' m
          | None => None
          end
      | File _ => None
      end
  end.

(** [os.path.exists] *)
Definition exists_ (p : path) (fs : node) : bool :=
  match lookup p fs with
  | Some _ => true
  | None => false
  end.

(** [os.path.isdir] *)
Definition isdir (p : path) (fs : node) : bool :=
  match lookup p fs with
  | Some (Dir _ _) => true
  | _ => false
  end.

(** [os.path.getsize]; [None] where Python raises. *)
Definition getsize (p : path) (fs : node) : option Z :=
  match lookup p fs with
  | Some (File d) => Some (Z.of_nat (String.length d))
  | Some (Dir sz _) => Some sz
  | None => None
  end.

(** [os.listdir]; [None] where Python raises. *)
Definition listdir (p : path) (fs : node) : option (list string) :=
  match lookup p fs with
  | Some (Dir _ es) => Some (map fst es)
  | _ => None
  end.

(** The tree with the entry at [p] detached from its directory, and all
    below it gone with it: what [os.remove] and [shutil.rmtree] leave once
    they went through. *)
Fixpoint detach (p : path) (n : node) : node :=
  match p, n with
  | [c], Dir sz es => Dir sz (remove_key c es)
  | c :: p', Dir sz es => Dir sz (map_first c (detach p') es)
  | _, _ => n
  end.

(** [shutil.rmtree]: a directory only, with all below it; [None] where
    Python raises and removes nothing ([NotADirectoryError] on a regular
    file, [FileNotFoundError] on a missing path). *)
Definition rmtree (p : path) (fs : node) : option node :=
  match lookup p fs with
  | Some (Dir _ _) => Some (detach p fs)
  | _ => None
  end.

(** [os.remove]: a file only; [None] where Python raises. *)
Definition remove (p : path) (fs : node) : option node :=
  match lookup p fs with
  | Some (File _) => Some (detach p fs)
  | _ => None
  end.

(** Make the file at [p] hold [data], creating it when absent: the effect
    of [open(p, 'w')] followed by writes that add up to [data].  [None]
    where [open] raises: a missing parent directory, or a directory at
    [p]. *)
Fixpoint write_file (p : path) (data : string) (n : node) : option node :=
  match p, n with
  | [c], Dir sz es =>
      match assoc c es with
      | Some (Dir _ _) => None
      | _ => Some (Dir sz (set_entry c (File data) es))
      end
  | c :: p', Dir sz es =>
      match assoc c es with
      | Some m =>
          match write_file p' data m with
          | Some m' => Some (Dir sz (set_entry c m' es))
          | None => None
          end
      | None => None
      end
  | _, _ => None
  end.

(** One [f.write(chunk)] on a file opened for writing. *)
Definition append_file (p : path) (chunk : string) (fs : node) : option node :=
  match lookup p fs with
  | Some (File d) => write_file p (d ++ chunk) fs
  | _ => None
  end.

End FS.


(* ================================================================== *)
(** * Writing a file, step by step *)
(* ================================================================== *)

(** The primitive steps a writer goes through, for the states an
    interrupted run leaves behind. *)
Module Disk.
Import FS.

Inductive op :=
| OpenW (p : path)                  (* open(p, 'w'): create or truncate *)
| Write (p : path) (data : string)  (* f.write(data) *)
| Rename (src dst : path).          (* os.replace(src, dst) *)

Definition step (o : op) (fs : node) : option node :=
  match o with
  | OpenW p => write_file p "" fs
  | Write p d => append_file p d fs
  | Rename src dst =>
      match lookup src fs with
      | Some (File d) =>
          match write_file dst d fs with
          | Some fs' => Some (detach src fs')
          | None => None
          end
      | _ => None
      end
  end.

Fixpoint run (ops : list op) (fs : node) : option node :=
  match ops with
  | [] => Some fs
  | o :: ops' =>
      match step o fs with
      | Some fs' => run ops' fs'
      | None => None
      end
  end.

(** The proper prefixes of [d]: what a write of [d] that is cut short may
    have put on disk. *)
Definition proper_prefixes (d : string) : list string :=
  map (fun k => substring 0 k d) (seq 0 (String.length d)).

(** The states on disk when step [o] is interrupted. *)
Definition torn (o : op) (fs : node) : list node :=
  match o with
  | Write p d =>
      flat_map (fun d' => match append_file p d' fs with
                          | Some fs' => [fs']
                          | None => []
                          end) (proper_prefixes d)
  | _ => []
  end.

(** Every state a crash may leave: before a step, or in the middle of it. *)
Fixpoint crash_states (ops : list op) (fs : node) : list node :=
  fs :: match ops with
        | [] => []
        | o :: ops' =>
            torn o fs ++
            match step o fs with
            | Some fs' => crash_states ops' fs'
            | None => []
            end
        end.

Definition is_rename (o : op) : bool :=
  match o with
  | Rename _ _ => true
  | _ => false
  end.

(** The path a step opens or writes. *)
Definition target (o : op) : path :=
  match o with
  | OpenW p => p
  | Write p _ => p
  | Rename _ dst => dst
  end.

(** An interrupted run left the file at [p] valid: absent, empty, or
    holding the whole [report]. *)
Definition valid_marker (p : path) (report : string) (s : node) : Prop :=
  match lookup p s with
  | Some (File d) => d = "" \/ d = report
  | _ => True
  end.

(** No crash leaves a marker that is not empty and not the report. *)
Definition crash_safe (ops : list op) (p : path) (report : string) (fs : node) : Prop :=
  forall s, In s (crash_states ops fs) -> valid_marker p report s.

End Disk.

(* ================================================================== *)
(** * [src/scraper.py]: the acquisition coordinator *)
(* ================================================================== *)

Module Scraper.
Import Py.

(** A note of the catalog: [paper.id] and [paper.content], a dictionary of
    dictionaries ([content['title']['value']], ...). *)
Record note := mk_note {
  id : string;
  content : list (string * list (string * string))
}.

(** ** [get_session]: the transport-level retry policy *)

(** [get_session] only builds a [Retry] object and mounts it; the loop that
    retries is the transport library's ([urllib3], [util/retry.py] and
    [HTTPConnectionPool.urlopen]; [requests], [HTTPAdapter.send]), which is
    no code of this repository.  The definitions marked "library" below
    follow that code (urllib3 1.26), for a [GET], which is a method the
    library retries.  Redirects, which [requests] follows by itself, and a
    [Retry-After] header that does not parse are left out. *)

(** What one attempt on the wire ends in. *)
Inductive attempt :=
| ConnectFailed                 (* ConnectTimeoutError, NewConnectionError *)
| ReadFailed                    (* ReadTimeoutError, ProtocolError *)
| OtherFailed                   (* another exception urlopen retries: SSLError *)
| Status (code : Z) (retry_after : option Z).
                                (* a response, and the seconds its Retry-After
                                   header names, when it has one *)

(** Library: the fields of [Retry] that [get_session] sets, the default it
    leaves on that decides a retry as well, and the history of the request.
    The counters [redirect], [status] and [other] stay [None]. *)
Record Retry := mk_Retry {
  total : Z;
  read : Z;
  connect : Z;
  backoff_factor : Z;
  status_forcelist : list Z;
  respect_retry_after_header : bool;
  history : list attempt
}.

(** The [Retry] object [get_session] mounts on both schemes. *)
Definition get_session : Retry :=
  {| total := 5;
     read := 5;
     connect := 5;
     backoff_factor := 1;  (* the source's comment: 1s, 2s, 4s, 8s, 16s... *)
     status_forcelist := [429; 500; 502; 503; 504]%Z;
     respect_retry_after_header := true;     (* the default of the library *)
     history := [] |}.

(** Library: [Retry.RETRY_AFTER_STATUS_CODES] and [Retry.BACKOFF_MAX]. *)
Definition RETRY_AFTER_STATUS_CODES : list Z := [413; 429; 503]%Z.
Definition BACKOFF_MAX : Z := 120.

(** What the adapter hands to the caller in the end. *)
Inductive transport_result :=
| Response (code : Z)
| MaxRetryError (reason : attempt).

Inductive transport_event :=
| Sent (n : nat)                (* the n-th attempt went out *)
| Waited (seconds : Z).         (* the time slept before the next one; 0: none *)

(** [bool(response.headers.get('Retry-After'))] *)
Definition has_retry_after (retry_after : option Z) : bool :=
  match retry_after with
  | Some _ => true
  | None => false
  end.

(** Library: [Retry.is_retry(method, status_code, has_retry_after)]: a
    status of [status_forcelist], or, while [total] is not 0, a status of
    [RETRY_AFTER_STATUS_CODES] on a response with a [Retry-After] header. *)
Definition is_retry (r : Retry) (status_code : Z) (has_retry_after : bool) : bool :=
  existsb (Z.eqb status_code) (status_forcelist r)
  || (negb (total r =? 0)%Z && respect_retry_after_header r && has_retry_after
      && existsb (Z.eqb status_code) RETRY_AFTER_STATUS_CODES).

(** Library: [Retry.is_exhausted]: the least of the counters that are set
    and not 0 is below 0. *)
Definition is_exhausted (r : Retry) : bool :=
  existsb (fun c => (c <? 0)%Z) [total r; connect r; read r].

(** Library: [Retry.increment]: one is taken from [total], and from
    [connect] or [read] after a failure of that kind; the attempt goes to
    the history; [None] where it raises [MaxRetryError]. *)
Definition increment (r : Retry) (a : attempt) : option Retry :=
  let r' :=
    {| total := total r - 1;
       read := match a with
               | ReadFailed => read r - 1
               | _ => read r
               end;
       connect := match a with
                  | ConnectFailed => connect r - 1
                  | _ => connect r
                  end;
       backoff_factor := backoff_factor r;
       status_forcelist := status_forcelist r;
       respect_retry_after_header := respect_retry_after_header r;
       history := history r ++ [a] |}%Z in
  if is_exhausted r' then None else Some r'.

(** Library: the body of [Retry.get_backoff_time] once
    [consecutive_errors_len] attempts have failed: nothing after the first
    failure, then [backoff_factor * 2 ** (failures - 1)], at most
    [BACKOFF_MAX]. *)
Definition backoff_after (factor : Z) (consecutive_errors_len : nat) : Z :=
  if (consecutive_errors_len <=? 1)%nat then 0%Z
  else Z.min BACKOFF_MAX (factor * 2 ^ (Z.of_nat consecutive_errors_len - 1))%Z.

(** Library: [Retry.get_backoff_time]; every entry of the history counts,
    as none is a redirect. *)
Definition get_backoff_time (r : Retry) : Z :=
  backoff_after (backoff_factor r) (List.length (history r)).

(** Library: [Retry.sleep(response)]: the seconds of [Retry-After] when the
    response names some, else the backoff time. *)
Definition sleep (r : Retry) (a : attempt) : Z :=
  match a with
  | Status _ (Some seconds) =>
      if respect_retry_after_header r && (0 <? seconds)%Z then seconds
      else get_backoff_time r
  | _ => get_backoff_time r
  end.

(** Library: one request through [urlopen] with the policy [r], from
    attempt [n] on.  A failure of the connection is always counted and
    retried; a response is retried when [is_retry] says so, and else handed
    to the caller; the loop sleeps before each retry, and ends in
    [MaxRetryError] when [increment] finds a counter exhausted.  [wire n] is
    what attempt [n] ends in.  [fuel] bounds the attempts;
    [S (Z.to_nat (total r))] is enough. *)
Fixpoint urlopen (fuel : nat) (wire : nat -> attempt) (r : Retry) (n : nat)
  : option (transport_result * list transport_event) :=
  match fuel with
  | O => None
  | S fuel' =>
      let a := wire n in
      let again :=
        match increment r a with
        | None => Some (MaxRetryError a, [Sent n])
        | Some r' =>
            match urlopen fuel' wire r' (S n) with
            | Some (res, evs) => Some (res, Sent n :: Waited (sleep r' a) :: evs)
            | None => None
            end
        end in
      match a with
      | Status code retry_after =>
          if is_retry r code (has_retry_after retry_after) then again
          else Some (Response code, [Sent n])
      | _ => again
      end
  end.

(** One request on the session [get_session] returns. *)
Definition session_send (wire : nat -> attempt)
  : option (transport_result * list transport_event) :=
  urlopen (S (Z.to_nat (total get_session))) wire get_session 0.

Definition is_sent (e : transport_event) : bool :=
  match e with
  | Sent _ => true
  | Waited _ => false
  end.

Definition waits (evs : list transport_event) : list Z :=
  flat_map (fun e => match e with
                     | Waited s => [s]
                     | Sent _ => []
                     end) evs.

(** The statuses [get_session] lists. *)
Definition retryable_statuses : list Z := [429; 500; 502; 503; 504]%Z.

(** The policy in the words of the specification: on the session of
    [get_session] an attempt is followed by another one only when it ended
    in a failure of the connection or in a status of the list. *)
Definition retries_only_listed_statuses : Prop :=
  forall (wire : nat -> attempt) res evs (m : nat),
    session_send wire = Some (res, evs) ->
    In (Sent (S m)) evs ->
    match wire m with
    | Status code _ => In code retryable_statuses
    | _ => True
    end.

(** Library: [HTTPAdapter.send] turns [MaxRetryError] into an exception of
    [requests]: [RetryError], which is no [ConnectionError], when the
    retries ran out on responses, and [ConnectionError] or one of its
    subclasses when they ran out on failures. *)
Definition adapter_error (reason : attempt) : exn :=
  match reason with
  | Status _ _ => mk_exn OtherException "RetryError"
  | _ => mk_exn ConnectionError "Max retries exceeded"
  end.

(** ** [download_pdf] *)

Inductive dl_status := Success | Skipped | Error.

(** The dictionary [download_pdf] returns; [title] is only set on the
    error outcomes. *)
Record outcome := mk_outcome {
  status : dl_status;
  file : string;
  msg : string;
  title : option string
}.

(** [content.get('title', {}).get('value', 'Untitled')] *)
Definition title_of (p : note) : string :=
  match dict_get "title" (content p) with
  | Some d =>
      match dict_get "value" d with
      | Some v => v
      | None => "Untitled"
      end
  | None => "Untitled"
  end.

(** ['k' in content and 'value' in content['k']], with the value *)
Definition value_of (k : string) (p : note) : option string :=
  match dict_get k (content p) with
  | Some d => dict_get "value" d
  | None => None
  end.

Definition pdf_url_of (p : note) : string :=
  match value_of "pdf" p with
  | Some v => "https://openreview.net" ++ v
  | None =>
      match value_of "file" p with
      | Some v => "https://openreview.net" ++ v
      | None => "https://openreview.net/pdf?id=" ++ id p
      end
  end.

(** [c.isalpha() or c.isdigit() or c == ' '], for the ASCII range. *)
Definition keep_char (c : ascii) : bool :=
  let n := nat_of_ascii c in
  ((65 <=? n) && (n <=? 90) || (97 <=? n) && (n <=? 122)
   || (48 <=? n) && (n <=? 57) || (n =? 32))%nat.

Fixpoint filter_chars (f : ascii -> bool) (s : string) : string :=
  match s with
  | EmptyString => EmptyString
  | String c s' => if f c then String c (filter_chars f s') else filter_chars f s'
  end.

(** [rstrip()] on a string whose only blanks are spaces. *)
Fixpoint rstrip (s : string) : string :=
  match s with
  | EmptyString => EmptyString
  | String c s' =>
      match rstrip s' with
      | EmptyString => if Ascii.eqb c " " then EmptyString else String c EmptyString
      | r => String c r
      end
  end.

Fixpoint replace_char (a b : ascii) (s : string) : string :=
  match s with
  | EmptyString => EmptyString
  | String c s' => String (if Ascii.eqb c a then b else c) (replace_char a b s')
  end.

Definition safe_title (t : string) : string :=
  replace_char " " "_" (rstrip (filter_chars keep_char t)).

Definition filename_of (p : note) : string :=
  safe_title (title_of p) ++ "_" ++ id p ++ ".pdf".

(** What [session.get(url, stream=True)] and the iteration over
    [response.iter_content] deliver: the status, the chunks that arrive,
    and how the stream ends. *)
Inductive stream_end :=
| StreamDone
| StreamRaises (e : exn).

Record response := mk_response {
  status_code : Z;
  chunks : list string;
  fin : stream_end
}.

(** A server: what each attempt on a URL ends in, and the body that comes
    with the response handed to the caller. *)
Record server := mk_server {
  wire : string -> nat -> attempt;
  body : string -> list string * stream_end
}.

(** [session.get(url, stream=True, timeout=60)] on the session that
    [get_session] returns, against the server [srv]. *)
Definition session_get_of (srv : server) (url : string) : result response :=
  match session_send (wire srv url) with
  | Some (Response code, _) =>
      Ok {| status_code := code; chunks := fst (body srv url);
            fin := snd (body srv url) |}
  | Some (MaxRetryError reason, _) => Raise (adapter_error reason)
  | None => Raise (mk_exn OtherException "no answer")
  end.

(** The classes of the inner [except] clause. *)
Definition is_network_error (c : exn_class) : bool :=
  match c with
  | ChunkedEncodingError | ProtocolError | IncompleteRead | ConnectionError => true
  | _ => false
  end.

(** The minimum size, in bytes, a file must exceed to count as a PDF. *)
Definition min_pdf_size : Z := 1024.

Section Download.

(** [session.get(pdf_url, stream=True, timeout=60)] *)
Variable session_get : string -> result response.

Variable output_dir : FS.path.

(** [for chunk in ...: if chunk: f.write(chunk)] *)
Fixpoint write_chunks (filepath : FS.path) (cs : list string) (fs : FS.node)
  : option FS.node :=
  match cs with
  | [] => Some fs
  | c :: cs' =>
      if (String.length c =? 0)%nat then write_chunks filepath cs' fs
      else
        match FS.append_file filepath c fs with
        | Some fs' => write_chunks filepath cs' fs'
        | None => None
        end
  end.

(** The outer [except Exception as e]. *)
Definition outer_error (p : note) (e : exn) (fs : FS.node) : outcome * FS.node :=
  ({| status := Error; file := id p; msg := exn_msg e;
      title := Some (title_of p) |}, fs).

(** The inner [except (ChunkedEncodingError, ProtocolError, IncompleteRead,
    ConnectionError)]: delete the partial file; any other exception goes to
    the outer handler. *)
Definition on_exception (p : note) (e : exn) (fs : FS.node) : outcome * FS.node :=
  let filepath := output_dir ++ [filename_of p] in
  if is_network_error (exn_cls e) then
    if FS.exists_ filepath fs then
      match FS.remove filepath fs with
      | Some fs' =>
          ({| status := Error; file := filename_of p;
              msg := "Network Error: " ++ exn_msg e;
              title := Some (title_of p) |}, fs')
      | None => outer_error p (mk_exn OSError "remove") fs
      end
    else
      ({| status := Error; file := filename_of p;
          msg := "Network Error: " ++ exn_msg e;
          title := Some (title_of p) |}, fs)
  else outer_error p e fs.

(** A network-level exception: out of [session.get], or in the middle of
    the stream of a 200 response. *)
Definition network_failure (r : result response) : Prop :=
  match r with
  | Raise e => is_network_error (exn_cls e) = true
  | Ok resp =>
      status_code resp = 200%Z
      /\ match fin resp with
         | StreamRaises e => is_network_error (exn_cls e) = true
         | StreamDone => False
         end
  end.

(** From [session = get_session()] on. *)
Definition fetch (p : note) (fs : FS.node) : outcome * FS.node :=
  let filepath := output_dir ++ [filename_of p] in
  match session_get (pdf_url_of p) with
  | Raise e => on_exception p e fs
  | Ok resp =>
      if (status_code resp =? 200)%Z then
        match FS.write_file filepath "" fs with
        | None => outer_error p (mk_exn FileNotFoundError "open") fs
        | Some fs1 =>
            match write_chunks filepath (chunks resp) fs1 with
            | None => outer_error p (mk_exn OSError "write") fs1
            | Some fs2 =>
                match fin resp with
                | StreamDone =>
                    ({| status := Success; file := filename_of p;
                        msg := "Downloaded"; title := None |}, fs2)
                | StreamRaises e => on_exception p e fs2
                end
            end
        end
      else
        ({| status := Error; file := filename_of p;
            msg := "HTTP " ++ str_of_Z (status_code resp);
            title := Some (title_of p) |}, fs)
  end.

(** [download_pdf]: the outcome and the disk it leaves.  The random sleep
    before the request changes no state and is left out. *)
Definition download_pdf (p : note) (fs : FS.node) : outcome * FS.node :=
  let filepath := output_dir ++ [filename_of p] in
  if FS.exists_ filepath fs then
    match FS.getsize filepath fs with
    | Some sz =>
        if (sz >? min_pdf_size)%Z then
          ({| status := Skipped; file := filename_of p;
              msg := "Exists"; title := None |}, fs)
        else
          match FS.remove filepath fs with
          | Some fs' => fetch p fs'
          | None => outer_error p (mk_exn OSError "remove") fs
          end
    | None => outer_error p (mk_exn OSError "getsize") fs
    end
  else fetch p fs.

(** ** [process_downloads] *)

(** The order in which the futures of a batch complete.  The workers of
    the pool write different files; their downloads are run one after the
    other, in that order. *)
Variable as_completed : list note -> list note.

Fixpoint run_batch (ps : list note) (fs : FS.node)
  : list (note * outcome) * FS.node :=
  match ps with
  | [] => ([], fs)
  | p :: ps' =>
      let '(o, fs1) := download_pdf p fs in
      let '(rs, fs2) := run_batch ps' fs1 in
      ((p, o) :: rs, fs2)
  end.

Definition is_error (o : outcome) : bool :=
  match status o with
  | Error => true
  | _ => false
  end.

(** The papers whose result is an error, in completion order. *)
Definition process_downloads (papers : list note) (fs : FS.node)
  : list note * FS.node :=
  let '(rs, fs') := run_batch (as_completed papers) fs in
  (map fst (filter (fun r => is_error (snd r)) rs), fs').

End Download.

(** ** [main]: the retry loop and the failure ledger *)

Definition max_retries : nat := 3.

(** One line of [failed_downloads.txt]. *)
Definition ledger_line (p : note) : string :=
  id p ++ " - " ++ title_of p ++ nl.

(** One pass of the loop body: the batch it ran on, the disk it started
    from, and what failed. *)
Record round := mk_round {
  batch : list note;
  before : FS.node;
  failed : list note
}.

Record loop_state := mk_loop_state {
  current_batch : list note;
  retry_count : nat;
  disk : FS.node;
  rounds : list round         (* the rounds run so far, oldest first *)
}.

Section Main.

(** The network, round by round. *)
Variable net : nat -> string -> result response.
Variable output_dir : FS.path.
Variable as_completed : list note -> list note.

Definition is_empty {A} (l : list A) : bool :=
  match l with
  | [] => true
  | _ => false
  end.

(** [while current_batch and retry_count < max_retries: ...] *)
Fixpoint retry_loop (fuel : nat) (st : loop_state) : option loop_state :=
  if negb (is_empty (current_batch st)) && (retry_count st <? max_retries)%nat then
    match fuel with
    | O => None
    | S fuel' =>
        let '(failed_papers, fs') :=
          process_downloads (net (retry_count st)) output_dir as_completed
            (current_batch st) (disk st) in
        let r := {| batch := current_batch st; before := disk st;
                    failed := failed_papers |} in
        if is_empty failed_papers then
          (* break *)
          Some {| current_batch := current_batch st;
                  retry_count := retry_count st;
                  disk := fs';
                  rounds := rounds st ++ [r] |}
        else
          retry_loop fuel'
            {| current_batch := failed_papers;
               retry_count := S (retry_count st);
               disk := fs';
               rounds := rounds st ++ [r] |}
    end
  else Some st.

(** What a run of [main] leaves: the rounds it ran, the disk, and the
    lines written to [failed_downloads.txt] (when the file is written). *)
Record run := mk_run {
  run_rounds : list round;
  run_disk : FS.node;
  ledger : option (list string)
}.

(** The rounds follow one another: the first runs on [first], each later
    one on what failed in the round before it. *)
Fixpoint well_chained (first : list note) (rs : list round) : Prop :=
  match rs with
  | [] => True
  | r :: rs' => batch r = first /\ well_chained (failed r) rs'
  end.

Definition main (papers : list note) (fs : FS.node) : option run :=
  if is_empty papers then
    Some {| run_rounds := []; run_disk := fs; ledger := None |}
  else
    match retry_loop max_retries
            {| current_batch := papers; retry_count := 0;
               disk := fs; rounds := [] |} with
    | None => None
    | Some st =>
        Some {| run_rounds := rounds st;
                run_disk := disk st;
                ledger := if is_empty (current_batch st) then None
                          else Some (map ledger_line (current_batch st)) |}
    end.

End Main.

End Scraper.

(* ================================================================== *)
(** * [src/analyzer.py]: the analyzers *)
(* ================================================================== *)

Module Analyzer.
Import Py.

(** One entry of [PaperContent.pages]. *)
Record page := mk_page {
  page_num : string;
  text : string;
  images : list FS.path
}.

Record PaperContent := mk_content {
  paper_dir : FS.path;
  pages : list page
}.

(** The parts of a chat message. *)
Inductive part :=
| Text (s : string)                  (* {"type": "text", "text": s} *)
| ImageUrl (url detail : string)     (* {"type": "image_url", ...} *)
| Image (img : string).              (* {"type": "image", "image": img} *)

Inductive body :=
| Plain (s : string)
| Parts (ps : list part).

Record message := mk_message {
  role : string;
  msg_body : body
}.

(** The interface [BaseAnalyzer]: [analyze] returns the report, or raises.
    It reads the disk (the images of the pages). *)
Record analyzer := mk_analyzer {
  analyze : FS.node -> PaperContent -> result value
}.

(** [BaseAnalyzer._get_system_prompt] *)
Definition system_prompt : string :=
  "You are an expert Computer Science researcher and reviewer. " ++ nl ++
  "You are analyzing a NeurIPS paper. The input consists of text extracted from each page, followed immediately by any figure/table images found on that page." ++ nl ++
  "Use BOTH the text and the visual information to analyze the paper." ++ nl ++
  nl ++
  "Report Structure:" ++ nl ++
  "1. **Background**: Problem context." ++ nl ++
  "2. **Research Gap**: What is missing in literature?" ++ nl ++
  "3. **Method**: Technical approach (reference specific figures if relevant)." ++ nl ++
  "4. **Dataset**: Datasets used." ++ nl ++
  "5. **Evaluation**: Metrics and baselines." ++ nl ++
  "6. **Critical Thinking**: Strengths, weaknesses, and novelty judgment." ++ nl.

(** [BaseAnalyzer.analyze] *)
Definition BaseAnalyzer : analyzer :=
  {| analyze := fun _ _ => Raise (mk_exn OtherException "NotImplementedError") |}.

Section OpenAI.

Variable model_name : string.

(** [base64.b64encode(...).decode('utf-8')] *)
Variable b64encode : string -> string.

(** [client.chat.completions.create(model, messages, max_tokens)] followed
    by [response.choices[0].message.content]: the content, or an exception
    from either. *)
Variable chat_create : string -> list message -> Z -> result value.

(** [_encode_image] *)
Definition encode_image (fs : FS.node) (p : FS.path) : result string :=
  match FS.lookup p fs with
  | Some (FS.File d) => Ok (b64encode d)
  | Some (FS.Dir _ _) => Raise (mk_exn OSError "IsADirectoryError")
  | None => Raise (mk_exn FileNotFoundError "open")
  end.

Fixpoint image_parts (fs : FS.node) (imgs : list FS.path) : result (list part) :=
  match imgs with
  | [] => Ok []
  | p :: imgs' =>
      if FS.exists_ p fs then
        b <- encode_image fs p ;;
        rest <- image_parts fs imgs' ;;
        Ok (ImageUrl ("data:image/jpeg;base64," ++ b) "high" :: rest)
      else image_parts fs imgs'
  end.

Definition page_parts (fs : FS.node) (pg : page) : result (list part) :=
  let head := Text ("--- Page " ++ page_num pg ++ " Text ---" ++ nl ++ text pg ++ nl) in
  let tail := Text (nl ++ "[End of Page " ++ page_num pg ++ "]" ++ nl ++ nl) in
  match images pg with
  | [] => Ok [head; tail]
  | imgs =>
      ips <- image_parts fs imgs ;;
      Ok (head
          :: Text (nl ++ "[Figures/Tables found on Page " ++ page_num pg ++ "]:" ++ nl)
          :: ips ++ [Text nl; tail])
  end.

Fixpoint pages_parts (fs : FS.node) (pgs : list page) : result (list part) :=
  match pgs with
  | [] => Ok []
  | pg :: pgs' =>
      ps <- page_parts fs pg ;;
      rest <- pages_parts fs pgs' ;;
      Ok (ps ++ rest)
  end.

Definition build_messages (fs : FS.node) (c : PaperContent) : result (list message) :=
  ps <- pages_parts fs (pages c) ;;
  Ok [ {| role := "system"; msg_body := Plain system_prompt |};
       {| role := "user";
          msg_body := Parts (Text ("Please analyze this paper based on the following pages:" ++ nl ++ nl) :: ps) |} ].

(** [OpenAIAnalyzer.analyze] *)
Definition OpenAI_analyze (fs : FS.node) (c : PaperContent) : result value :=
  messages <- build_messages fs c ;;
  match chat_create model_name messages 2048 with
  | Ok v => Ok v
  | Raise e => Ok (PyStr ("Error calling OpenAI: " ++ exn_msg e))
  end.

Definition OpenAIAnalyzer : analyzer := {| analyze := OpenAI_analyze |}.

End OpenAI.

Section LocalVLM.

(** [transformers.image_utils.load_image] *)
Variable load_image : FS.node -> FS.path -> result string.

(** The chat template, the processor, [model.generate] and the decoding of
    its first output. *)
Variable generate : list part -> list string -> result string.

Fixpoint load_images (fs : FS.node) (imgs : list FS.path) : result (list string) :=
  match imgs with
  | [] => Ok []
  | p :: imgs' =>
      img <- load_image fs p ;;
      rest <- load_images fs imgs' ;;
      Ok (img :: rest)
  end.

Fixpoint local_parts (fs : FS.node) (pgs : list page)
  : result (list part * list string) :=
  match pgs with
  | [] => Ok ([], [])
  | pg :: pgs' =>
      let head := Text (nl ++ "--- Page " ++ page_num pg ++ " ---" ++ nl ++ text pg ++ nl) in
      this <- match images pg with
              | [] => Ok ([head], [])
              | imgs =>
                  loaded <- load_images fs imgs ;;
                  Ok (head
                      :: Text (nl ++ "[Figures for Page " ++ page_num pg ++ "]:" ++ nl)
                      :: map Image loaded ++ [Text nl], loaded)
              end ;;
      rest <- local_parts fs pgs' ;;
      Ok (fst this ++ fst rest, snd this ++ snd rest)
  end.

(** [LocalVLMAnalyzer.analyze] *)
Definition LocalVLM_analyze (fs : FS.node) (c : PaperContent) : result value :=
  pi <- local_parts fs (pages c) ;;
  out <- generate (Text (system_prompt ++ nl ++ nl) :: fst pi) (snd pi) ;;
  Ok (PyStr out).

Definition LocalVLMAnalyzer : analyzer := {| analyze := LocalVLM_analyze |}.

End LocalVLM.

End Analyzer.

(* ================================================================== *)
(** * [main.py]: the pipeline *)
(* ================================================================== *)

Module Pipeline.
Import Py.

(** The flags of the command line that steer the stages.  The analyzer
    flags ([provider], [model], [api_key]) only feed the construction of
    the analyzer, [init_analyzer] below. *)
Record args := mk_args {
  limit : option Z;
  skip_download : bool;
  skip_ocr : bool;
  skip_analysis : bool
}.

(** [if args.limit:] holds for a limit that is given and is not 0. *)
Definition limit_given (a : args) : option Z :=
  match limit a with
  | Some n => if (n =? 0)%Z then None else Some n
  | None => None
  end.

(** [subprocess.CompletedProcess] *)
Record CompletedProcess := mk_completed {
  returncode : Z;
  stdout : string;
  stderr : string
}.

(** How an extraction run can fail: a non-zero exit status, or an
    exception out of [subprocess.run] (the timeout, or one at launch). *)
Definition extraction_failed (r : result CompletedProcess) : Prop :=
  match r with
  | Ok result => returncode result <> 0%Z
  | Raise _ => True
  end.

(** What the loop prints, one constructor for each [print]. *)
Inductive line :=
| RunningOCR (paper_name : string)
| OCRFailed (paper_name out err : string)
| CleanedUp (paper_name : string)
| OCRTimedOut (paper_name : string)
| ErrorLaunching (paper_name msg : string)
| Analyzing (paper_name : string)
| ReportSaved (paper_name : string)
| CannotAnalyze (paper_name : string)
| NoPapersFound
| FailedToInitialize (msg : string)
| PipelineCompleted.

Record state := mk_state {
  disk : FS.node;
  printed : list line
}.

Definition print (l : line) (st : state) : state :=
  {| disk := disk st; printed := printed st ++ [l] |}.

Definition set_disk (fs : FS.node) (st : state) : state :=
  {| disk := fs; printed := printed st |}.

(** The position of the last ['.'] of [s], if any. *)
Fixpoint rfind_dot (s : string) : option nat :=
  match s with
  | EmptyString => None
  | String c s' =>
      match rfind_dot s' with
      | Some i => Some (S i)
      | None => if Ascii.eqb c "." then Some 0%nat else None
      end
  end.

Fixpoint all_dots (s : string) : bool :=
  match s with
  | EmptyString => true
  | String c s' => Ascii.eqb c "." && all_dots s'
  end.

(** [os.path.splitext(f)[0]] for a directory entry [f] (no separator): cut
    at the last dot, unless only dots come before it. *)
Definition splitext_root (f : string) : string :=
  match rfind_dot f with
  | Some i => if all_dots (substring 0 i f) then f else substring 0 i f
  | None => f
  end.

(** [with open(p, 'w') as f: f.write(report)] *)
Definition save_ops (p : FS.path) (report : string) : list Disk.op :=
  [Disk.OpenW p; Disk.Write p report].

Section Loop.

(** The directory of [main.py]. *)
Variable base_dir : FS.path.

(** [subprocess.run([sys.executable, 'src/ocr_engine.py', pdf_path,
    extracted_dir], capture_output=True, timeout=1200)]: what the call
    returns or raises, and the disk the engine leaves. *)
Variable subprocess_run :
  FS.path -> FS.path -> FS.node -> result CompletedProcess * FS.node.

(** [PaperContent(paper_extracted_path)]: the loader of the pages. *)
Variable load_content : FS.path -> FS.node -> result Analyzer.PaperContent.

Variable a : args.

(** The construction of the analyzer [args.provider] names:
    [OpenAIAnalyzer(...)] or [LocalVLMAnalyzer(...)], which loads the model
    and may raise. *)
Variable init_analyzer : result Analyzer.analyzer.

Definition original_dir : FS.path := base_dir ++ ["original_papers"].
Definition extracted_dir : FS.path := base_dir ++ ["extracted_papers"].

Definition paper_extracted_path (pdf_file : string) : FS.path :=
  extracted_dir ++ [splitext_root pdf_file].

Definition extraction_marker (pdf_file : string) : FS.path :=
  paper_extracted_path pdf_file ++ ["full_extracted.md"].

Definition analysis_marker (pdf_file : string) : FS.path :=
  paper_extracted_path pdf_file ++ ["analysis_report.md"].

(** [if os.path.exists(paper_extracted_path): shutil.rmtree(...)]: the
    disk without the paper's directory, or the exception of [rmtree] (the
    path is a regular file), which removes nothing. *)
Definition cleanup (pdf_file : string) (fs : FS.node) : result FS.node :=
  if FS.exists_ (paper_extracted_path pdf_file) fs
  then of_option (FS.rmtree (paper_extracted_path pdf_file) fs)
         (mk_exn OSError "NotADirectoryError")
  else Ok fs.

(** Check if already extracted (exists and not empty). *)
Definition already_extracted (pdf_file : string) (fs : FS.node) : bool :=
  if FS.exists_ (extraction_marker pdf_file) fs then
    match FS.getsize (extraction_marker pdf_file) fs with
    | Some sz => (sz >? 0)%Z
    | None => false
    end
  else false.

(** [except Exception as e:] of the OCR part, entered with [e]: the
    message, then the cleanup; an exception out of that cleanup is raised
    inside the handler and leaves the loop. *)
Definition on_launch_error (pdf_file : string) (e : exn) (st : state)
  : result unit * state :=
  let st1 := print (ErrorLaunching (splitext_root pdf_file) (exn_msg e)) st in
  match cleanup pdf_file (disk st1) with
  | Ok fs' => (Ok tt, set_disk fs' st1)
  | Raise e' => (Raise e', st1)
  end.

(** The OCR part of the loop body.  The cleanup after a non-zero exit runs
    inside the [try]: its exception is caught by [except Exception].  The
    cleanups of the two handlers run outside it. *)
Definition ocr_stage (pdf_file : string) (st : state) : result unit * state :=
  let paper_name := splitext_root pdf_file in
  if already_extracted pdf_file (disk st) then (Ok tt, st)
  else
    let st1 := print (RunningOCR paper_name) st in
    let '(r, fs) :=
      subprocess_run (original_dir ++ [pdf_file]) extracted_dir (disk st) in
    match r with
    | Ok result =>
        if negb (returncode result =? 0)%Z then
          let st2 :=
            print (OCRFailed paper_name (stdout result) (stderr result))
              (set_disk fs st1) in
          if FS.exists_ (paper_extracted_path pdf_file) fs then
            match FS.rmtree (paper_extracted_path pdf_file) fs with
            | Some fs' => (Ok tt, print (CleanedUp paper_name) (set_disk fs' st2))
            | None => on_launch_error pdf_file (mk_exn OSError "NotADirectoryError") st2
            end
          else (Ok tt, st2)
        else (Ok tt, set_disk fs st1)
    | Raise e =>
        match exn_cls e with
        | TimeoutExpired =>
            let st2 := print (OCRTimedOut paper_name) (set_disk fs st1) in
            match cleanup pdf_file fs with
            | Ok fs' => (Ok tt, set_disk fs' st2)
            | Raise e' => (Raise e', st2)
            end
        | _ => on_launch_error pdf_file e (set_disk fs st1)
        end
    end.

(** The analysis part of the loop body, under
    [if not args.skip_analysis and analyzer]. *)
Definition analysis_stage (an : Analyzer.analyzer) (pdf_file : string) (st : state)
  : result unit * state :=
  let paper_name := splitext_root pdf_file in
  if FS.exists_ (extraction_marker pdf_file) (disk st) then
    if negb (FS.exists_ (analysis_marker pdf_file) (disk st)) then
      let st1 := print (Analyzing paper_name) st in
      match load_content (paper_extracted_path pdf_file) (disk st) with
      | Raise e => (Raise e, st1)
      | Ok content =>
          match Analyzer.analyze an (disk st) content with
          | Raise e => (Raise e, st1)
          | Ok report =>
              if truthy report then
                match report with
                | PyStr r =>
                    match Disk.run (save_ops (analysis_marker pdf_file) r) (disk st) with
                    | Some fs' => (Ok tt, print (ReportSaved paper_name) (set_disk fs' st1))
                    | None => (Raise (mk_exn OSError "open"), st1)
                    end
                | PyNone => (Ok tt, st1)
                end
              else (Ok tt, st1)
          end
      end
    else (Ok tt, st)
  else (Ok tt, print (CannotAnalyze paper_name) st).

(** The body of [for pdf_file in pdf_files]; [analyzer] is [None] where
    [main] left it so. *)
Definition process_item (analyzer : option Analyzer.analyzer)
  (pdf_file : string) (st : state) : result unit * state :=
  match (if negb (skip_ocr a) then ocr_stage pdf_file st else (Ok tt, st)) with
  | (Raise e, st1) => (Raise e, st1)
  | (Ok _, st1) =>
      if negb (skip_analysis a) then
        match analyzer with
        | Some an => analysis_stage an pdf_file st1
        | None => (Ok tt, st1)
        end
      else (Ok tt, st1)
  end.

(** The loop: an exception out of the body ends it. *)
Fixpoint process_all (analyzer : option Analyzer.analyzer)
  (pdf_files : list string) (st : state) : result unit * state :=
  match pdf_files with
  | [] => (Ok tt, st)
  | f :: rest =>
      match process_item analyzer f st with
      | (Ok _, st') => process_all analyzer rest st'
      | (Raise e, st') => (Raise e, st')
      end
  end.

(** [pdf_files = [f for f in os.listdir(original_dir) if f.endswith('.pdf')]]
    and the cut at [args.limit]. *)
Definition select_pdfs (names : list string) : list string :=
  let pdf_files := filter (fun f => endswith f ".pdf") names in
  match limit_given a with
  | Some n => slice_to n pdf_files
  | None => pdf_files
  end.

Definition discover (fs : FS.node) : result (list string) :=
  names <- of_option (FS.listdir original_dir fs) (mk_exn FileNotFoundError "listdir") ;;
  Ok (select_pdfs names).

(** [papers = get_neurips_2025_papers()] and the cut at [args.limit]: the
    catalog hands the notes back as the service returned them. *)
Definition select_papers (submissions : list Scraper.note) : list Scraper.note :=
  match limit_given a with
  | Some n => slice_to n submissions
  | None => submissions
  end.

(** The loop and the last line of [main]. *)
Definition run_loop (analyzer : option Analyzer.analyzer)
  (pdf_files : list string) (st : state) : result unit * state :=
  match process_all analyzer pdf_files st with
  | (Ok _, st') => (Ok tt, print PipelineCompleted st')
  | (Raise e, st') => (Raise e, st')
  end.

(** [main], from [# 2. Process Papers] on (step 1 only adds files to
    [original_dir]). *)
Definition main (st : state) : result unit * state :=
  match discover (disk st) with
  | Raise e => (Raise e, st)
  | Ok pdf_files =>
      match pdf_files with
      | [] => (Ok tt, print NoPapersFound st)
      | _ =>
          if negb (skip_analysis a) then
            match init_analyzer with
            | Ok an => run_loop (Some an) pdf_files st
            | Raise e => (Ok tt, print (FailedToInitialize (exn_msg e)) st)
            end
          else run_loop None pdf_files st
      end
  end.

(** The papers an analysis was started for. *)
Definition analyzed (st : state) : list string :=
  flat_map (fun l => match l with
                     | Analyzing n => [n]
                     | _ => []
                     end) (printed st).

End Loop.

End Pipeline.

(* ================================================================== *)
(** * [run_ocr_robust.py]: the perpetual-restart wrapper *)
(* ================================================================== *)

Module RobustRunner.

Inductive event :=
| Started                       (* subprocess.Popen(cmd) *)
| Finished                      (* the engine finished successfully *)
| Crashed (exit_code : Z)       (* the engine crashed *)
| Slept (seconds : Z).          (* time.sleep *)

(** The entry point the wrapper launches. *)
Definition entry_point : FS.path := ["src"; "ocr_engine.py"].

Section Run.

(** [engine n]: the exit code of launch number [n] (from 0). *)
Variable engine : nat -> Z.

(** [run_ocr]: [while True], so the embedding takes fuel; [n] counts the
    launches so far.  [None]: still looping when the fuel ran out. *)
Fixpoint run_ocr (fuel : nat) (n : nat) : option (list event) :=
  match fuel with
  | O => None
  | S fuel' =>
      let exit_code := engine n in
      if (exit_code =? 0)%Z then Some [Started; Finished]
      else
        match run_ocr fuel' (S n) with
        | Some evs => Some (Started :: Crashed exit_code :: Slept 5 :: evs)
        | None => None
        end
  end.

(** The script: the exit status and what happened, from the working
    directory [cwd]. *)
Definition script (fuel : nat) (cwd : FS.node) : option (Z * list event) :=
  if negb (FS.exists_ entry_point cwd) then Some (1%Z, [])
  else
    match run_ocr fuel 0 with
    | Some evs => Some (0%Z, evs)
    | None => None
    end.

End Run.

(** What [k] crashes in a row, from launch [n] on, leave in the trace. *)
Definition crashes (engine : nat -> Z) (n k : nat) : list event :=
  flat_map (fun i => [Started; Crashed (engine i); Slept 5]) (seq n k).

(** The number of launches in a trace. *)
Definition launches (evs : list event) : nat :=
  List.length (filter (fun e => match e with Started => true | _ => false end) evs).

End RobustRunner.

(* ================================================================== *)
(** * Concrete worlds, for the examples *)
(* ================================================================== *)

Module Examples.
Import Py.

Definition base : FS.path := ["repo"].

(** A file of [n] bytes. *)
Fixpoint bytes (n : nat) : string :=
  match n with
  | O => EmptyString
  | S n' => String "x" (bytes n')
  end.

(** [repo/original_papers] holds [pdfs] (in that order) and
    [repo/extracted_papers] holds [extracted]. *)
Definition tree (pdfs : list string) (extracted : list (string * FS.node)) : FS.node :=
  FS.Dir 4096
    [("repo", FS.Dir 4096
       [("original_papers", FS.Dir 4096 (map (fun f => (f, FS.File "%PDF")) pdfs));
        ("extracted_papers", FS.Dir 4096 extracted)])].

(** The output directory of a paper whose extraction marker holds [md]. *)
Definition extracted_paper (md : string) : FS.node :=
  FS.Dir 4096 [("pages", FS.Dir 4096 []); ("full_extracted.md", FS.File md)].

Definition start (fs : FS.node) : Pipeline.state :=
  {| Pipeline.disk := fs; Pipeline.printed := [] |}.

(** The output directory of a paper of one page, whose text is [md] and
    whose page image holds [jpg]. *)
Definition extracted_page (md jpg : string) : FS.node :=
  FS.Dir 4096
    [("pages", FS.Dir 4096
       [("page_0", FS.Dir 4096 [("original.jpg", FS.File jpg);
                                ("result.mmd", FS.File md)])]);
     ("full_extracted.md", FS.File md)].

(** A loader for such papers. *)
Definition one_page (p : FS.path) (fs : FS.node) : result Analyzer.PaperContent :=
  match FS.lookup (p ++ ["pages"; "page_0"; "result.mmd"]) fs with
  | Some (FS.File t) =>
      Ok {| Analyzer.paper_dir := p;
            Analyzer.pages :=
              [{| Analyzer.page_num := "0"; Analyzer.text := t;
                  Analyzer.images := [p ++ ["pages"; "page_0"; "original.jpg"]] |}] |}
  | _ => Ok {| Analyzer.paper_dir := p; Analyzer.pages := [] |}
  end.

(** An image library that cannot read an empty file. *)
Definition load_nonempty (fs : FS.node) (p : FS.path) : result string :=
  match FS.lookup p fs with
  | Some (FS.File EmptyString) =>
      Raise (mk_exn OtherException "cannot identify image file")
  | Some (FS.File d) => Ok d
  | _ => Raise (mk_exn FileNotFoundError "No such file or directory")
  end.

(** A local model that always produces the same report. *)
Definition generates (r : string) (ps : list Analyzer.part) (imgs : list string)
  : result string := Ok r.

(** A loader that finds no pages. *)
Definition no_pages (p : FS.path) (fs : FS.node) : result Analyzer.PaperContent :=
  Ok {| Analyzer.paper_dir := p; Analyzer.pages := [] |}.

(** An engine that is never launched in the example at hand. *)
Definition engine_exit (code : Z) (pdf out : FS.path) (fs : FS.node)
  : result Pipeline.CompletedProcess * FS.node :=
  (Ok {| Pipeline.returncode := code; Pipeline.stdout := ""; Pipeline.stderr := "" |}, fs).

(** An engine that writes a partial output directory for [name] and then
    ends as [r] says. *)
Definition engine_partial (name : string) (r : result Pipeline.CompletedProcess)
  (pdf out : FS.path) (fs : FS.node) : result Pipeline.CompletedProcess * FS.node :=
  (r, match fs with
      | FS.Dir sz [("repo", FS.Dir sz' [o; ("extracted_papers", FS.Dir sz'' es)])] =>
          FS.Dir sz [("repo", FS.Dir sz' [o; ("extracted_papers",
            FS.Dir sz'' (es ++ [(name, FS.Dir 4096 [("pages", FS.Dir 4096 [])])]))])]
      | _ => fs
      end).

(** An analyzer that always answers [v]. *)
Definition answers (v : result value) : Analyzer.analyzer :=
  {| Analyzer.analyze := fun _ _ => v |}.

Definition run_all : Pipeline.args :=
  {| Pipeline.limit := None; Pipeline.skip_download := true;
     Pipeline.skip_ocr := false; Pipeline.skip_analysis := false |}.

Definition analysis_only : Pipeline.args :=
  {| Pipeline.limit := None; Pipeline.skip_download := true;
     Pipeline.skip_ocr := true; Pipeline.skip_analysis := false |}.

Definition limit_zero : Pipeline.args :=
  {| Pipeline.limit := Some 0%Z; Pipeline.skip_download := true;
     Pipeline.skip_ocr := true; Pipeline.skip_analysis := true |}.

Definition first_only : Pipeline.args :=
  {| Pipeline.limit := Some 1%Z; Pipeline.skip_download := true;
     Pipeline.skip_ocr := true; Pipeline.skip_analysis := true |}.

(** Two notes of the catalog. *)
Definition paper1 : Scraper.note :=
  {| Scraper.id := "abc1";
     Scraper.content := [("title", [("value", "Deep Nets ")]);
                         ("pdf", [("value", "/pdf/abc1.pdf")])] |}.

Definition paper2 : Scraper.note :=
  {| Scraper.id := "xyz2";
     Scraper.content := [("title", [("value", "A/B tests")])] |}.

Definition downloads : FS.path := ["original_papers"].

(** A download directory holding [files]. *)
Definition download_tree (files : list (string * FS.node)) : FS.node :=
  FS.Dir 4096 [("original_papers", FS.Dir 4096 files)].

(** A server that sends 200, two chunks, and then breaks the stream. *)
Definition broken_stream (url : string) : result Scraper.response :=
  Ok {| Scraper.status_code := 200;
        Scraper.chunks := ["%PDF-1.7"; "partial"];
        Scraper.fin := Scraper.StreamRaises (mk_exn ChunkedEncodingError "Connection broken") |}.

(** A server that sends a whole file of 2000 bytes. *)
Definition serves_pdf (round : nat) (url : string) : result Scraper.response :=
  Ok {| Scraper.status_code := 200;
        Scraper.chunks := [bytes 2000];
        Scraper.fin := Scraper.StreamDone |}.

(** A server that always answers 503 once the transport gave up. *)
Definition always_503 (round : nat) (url : string) : result Scraper.response :=
  Ok {| Scraper.status_code := 503; Scraper.chunks := []; Scraper.fin := Scraper.StreamDone |}.

Definition in_order (l : list Scraper.note) : list Scraper.note := l.

(** An engine that crashes twice and then finishes. *)
Definition crashes_twice (n : nat) : Z :=
  match n with
  | 0%nat => 139
  | 1%nat => 1
  | _ => 0
  end%Z.

Definition with_entry_point : FS.node :=
  FS.Dir 4096 [("src", FS.Dir 4096 [("ocr_engine.py", FS.File "import os")])].

(** A client whose call always fails. *)
Definition failing_client (model : string) (ms : list Analyzer.message) (max_tokens : Z)
  : result value :=
  Raise (mk_exn OtherException "Connection error.").

Definition no_b64 (s : string) : string := s.

(** A server that answers the first attempt with 413 and the header
    [Retry-After: 7], and the next with 200 and a file of 2000 bytes. *)
Definition entity_too_large : Scraper.server :=
  {| Scraper.wire := fun _ n => match n with
                                | O => Scraper.Status 413 (Some 7%Z)
                                | _ => Scraper.Status 200 None
                                end;
     Scraper.body := fun _ => ([bytes 2000], Scraper.StreamDone) |}.

(** A server that answers 503 twice, with no such header, and then 200. *)
Definition busy_twice : Scraper.server :=
  {| Scraper.wire := fun _ n => match n with
                                | 0%nat | 1%nat => Scraper.Status 503 None
                                | _ => Scraper.Status 200 None
                                end;
     Scraper.body := fun _ => ([bytes 2000], Scraper.StreamDone) |}.

(** A server that cannot be reached. *)
Definition down : Scraper.server :=
  {| Scraper.wire := fun _ _ => Scraper.ConnectFailed;
     Scraper.body := fun _ => ([], Scraper.StreamDone) |}.

End Examples.
From Stdlib Require Import Sorted.

(* ================================================================== *)
(** * Strings, character by character *)
(* ================================================================== *)

Module Chars.

(** Every character of [s] passes [f]. *)
Fixpoint all (f : ascii -> bool) (s : string) : bool :=
  match s with
  | EmptyString => true
  | String c s' => f c && all f s'
  end.

(** The last character of [s], if any. *)
Fixpoint last_char (s : string) : option ascii :=
  match s with
  | EmptyString => None
  | String c EmptyString => Some c
  | String _ s' => last_char s'
  end.

(** The chunks of a stream, one after the other. *)
Fixpoint cat (l : list string) : string :=
  match l with
  | [] => EmptyString
  | c :: l' => (c ++ cat l')%string
  end.

(** [s] holds characters of the ASCII range only, the range for which the
    character classes of the models ([isalpha], [isdigit], [lower], [int])
    are written. *)
Definition ascii_only (s : string) : bool :=
  all (fun c => (nat_of_ascii c <? 128)%nat) s.

(** A letter or a digit of the ASCII range, or an underscore. *)
Definition word_char (c : ascii) : bool :=
  (Scraper.keep_char c && negb (Ascii.eqb c " ")) || Ascii.eqb c "_".

End Chars.

(* ================================================================== *)
(** * More concrete worlds *)
(* ================================================================== *)

Module Worlds.
Import Py.

(** A server whose stream of 2000 bytes ends in an exception of no network
    class (the disk is full). *)
Definition disk_full (url : string) : result Scraper.response :=
  Ok {| Scraper.status_code := 200;
        Scraper.chunks := [Examples.bytes 2000];
        Scraper.fin := Scraper.StreamRaises (mk_exn OSError "No space left on device") |}.

(** A server that is never asked. *)
Definition unreachable (url : string) : result Scraper.response :=
  Raise (mk_exn ConnectionError "unreachable").

(** The output directory of a paper that is extracted and analyzed. *)
Definition analyzed_paper (md report : string) : FS.node :=
  FS.Dir 4096 [("pages", FS.Dir 4096 []);
               ("full_extracted.md", FS.File md);
               ("analysis_report.md", FS.File report)].

(** A paper [p] with the pages 10, 2 and 1 (listed in that order), a
    directory that is no page and a file named like a page. *)
Definition three_pages : FS.node :=
  FS.Dir 4096 [("p", FS.Dir 4096 [("pages", FS.Dir 4096
    [("page_10", FS.Dir 4096 [("result.mmd", FS.File "ten");
                              ("original.jpg", FS.File "JPEG")]);
     ("page_2", FS.Dir 4096
        [("result.mmd", FS.File "two");
         ("images", FS.Dir 4096 [("b.png", FS.File "PNG"); ("a.JPG", FS.File "JPEG");
                                 ("n.txt", FS.File "notes")]);
         ("original.jpg", FS.File "JPEG")]);
     ("page_1", FS.Dir 4096 [("result.mmd", FS.File "one")]);
     ("notes", FS.Dir 4096 []);
     ("page_x", FS.File "not a directory")])])].

End Worlds.

(* ================================================================== *)
(** * [src/analyzer.py]: loading the pages of a paper *)
(* ================================================================== *)

Module Loader.
Import Py.

(** [s.split(sep)] with an explicit separator. *)
Fixpoint split (sep : ascii) (s : string) : list string :=
  match s with
  | EmptyString => [EmptyString]
  | String c s' =>
      if Ascii.eqb c sep then EmptyString :: split sep s'
      else
        match split sep s' with
        | h :: t => String c h :: t
        | [] => [String c EmptyString]
        end
  end.

(** [l[1]]; [None] where Python raises [IndexError]. *)
Definition second (l : list string) : option string := nth_error l 1.

(** The blanks [int] skips: tab to carriage return, and the space. *)
Definition is_space (c : ascii) : bool :=
  let n := nat_of_ascii c in
  ((9 <=? n) && (n <=? 13) || (n =? 32))%nat.

Fixpoint lstrip (s : string) : string :=
  match s with
  | EmptyString => EmptyString
  | String c s' => if is_space c then lstrip s' else s
  end.

Fixpoint rstrip (s : string) : string :=
  match s with
  | EmptyString => EmptyString
  | String c s' =>
      match rstrip s' with
      | EmptyString => if is_space c then EmptyString else String c EmptyString
      | r => String c r
      end
  end.

Definition digit (c : ascii) : option Z :=
  let n := nat_of_ascii c in
  if ((48 <=? n) && (n <=? 57))%nat then Some (Z.of_nat (n - 48)) else None.

(** The value of a string of decimal digits, after the digits [acc]. *)
Fixpoint digits (acc : Z) (s : string) : option Z :=
  match s with
  | EmptyString => Some acc
  | String c s' =>
      match digit c with
      | Some d => digits (10 * acc + d) s'
      | None => None
      end
  end.

Definition number (s : string) : option Z :=
  match s with
  | EmptyString => None
  | _ => digits 0 s
  end.

(** [int(s)] for a piece of a name cut at the underscores (it holds no
    underscore), in the ASCII range: blanks around, an optional sign,
    decimal digits.  [None] where Python raises [ValueError]. *)
Definition int (s : string) : option Z :=
  match lstrip (rstrip s) with
  | String "+" r => number r
  | String "-" r => option_map Z.opp (number r)
  | r => number r
  end.

(** [c.lower()] in the ASCII range. *)
Definition lower_char (c : ascii) : ascii :=
  let n := nat_of_ascii c in
  if ((65 <=? n) && (n <=? 90))%nat then ascii_of_nat (n + 32) else c.

Fixpoint lower (s : string) : string :=
  match s with
  | EmptyString => EmptyString
  | String c s' => String (lower_char c) (lower s')
  end.

(** [img_file.lower().endswith(('.png', '.jpg', '.jpeg'))] *)
Definition is_image (img_file : string) : bool :=
  let l := lower img_file in
  endswith l ".png" || endswith l ".jpg" || endswith l ".jpeg".

(** [sorted(l)] on strings, and [sorted(l, key=...)] on names paired with
    their keys: insertion sorts that keep equal keys in their order. *)
Fixpoint insert_name (x : string) (l : list string) : list string :=
  match l with
  | [] => [x]
  | y :: l' => if String.leb x y then x :: l else y :: insert_name x l'
  end.

Definition sorted_names (l : list string) : list string :=
  fold_right insert_name [] l.

Fixpoint insert_keyed (x : Z * string) (l : list (Z * string)) : list (Z * string) :=
  match l with
  | [] => [x]
  | y :: l' => if (fst x <=? fst y)%Z then x :: l else y :: insert_keyed x l'
  end.

Definition sorted_keyed (l : list (Z * string)) : list (Z * string) :=
  fold_right insert_keyed [] l.

(** The key of each folder, [int(x.split('_')[1])]; the first folder whose
    key cannot be computed raises. *)
Fixpoint keyed (folders : list string) : result (list (Z * string)) :=
  match folders with
  | [] => Ok []
  | d :: rest =>
      match second (split "_" d) with
      | None => Raise (mk_exn OtherException "IndexError")
      | Some piece =>
          match int piece with
          | None => Raise (mk_exn OtherException "ValueError")
          | Some k =>
              ks <- keyed rest ;;
              Ok ((k, d) :: ks)
          end
      end
  end.

(** The page folders of a listing: [d.startswith('page_') and
    os.path.isdir(os.path.join(pages_dir, d))]. *)
Definition page_folders (pages_dir : FS.path) (fs : FS.node) (names : list string)
  : list string :=
  filter (fun d => String.prefix "page_" d && FS.isdir (pages_dir ++ [d]) fs) names.

(** The text of a page: [result.mmd] when it exists. *)
Definition page_text (folder_path : FS.path) (fs : FS.node) : result string :=
  match FS.lookup (folder_path ++ ["result.mmd"]) fs with
  | None => Ok EmptyString
  | Some (FS.File d) => Ok d
  | Some (FS.Dir _ _) => Raise (mk_exn OSError "IsADirectoryError")
  end.

(** The crops of a page: the image files of [images/], sorted. *)
Definition page_crops (folder_path : FS.path) (fs : FS.node) : result (list FS.path) :=
  let images_dir := folder_path ++ ["images"] in
  if FS.exists_ images_dir fs then
    match FS.listdir images_dir fs with
    | None => Raise (mk_exn OSError "NotADirectoryError")
    | Some names =>
        Ok (map (fun n => images_dir ++ [n]) (filter is_image (sorted_names names)))
    end
  else Ok [].

(** The images of a page: the crops, or else the whole page. *)
Definition page_images (folder_path : FS.path) (fs : FS.node) : result (list FS.path) :=
  crops <- page_crops folder_path fs ;;
  match crops with
  | [] =>
      if FS.exists_ (folder_path ++ ["original.jpg"]) fs
      then Ok [folder_path ++ ["original.jpg"]]
      else Ok []
  | _ => Ok crops
  end.

(** The body of [for folder in page_folders]. *)
Definition load_page (pages_dir : FS.path) (fs : FS.node) (folder : string)
  : result Analyzer.page :=
  let folder_path := pages_dir ++ [folder] in
  match second (split "_" folder) with
  | None => Raise (mk_exn OtherException "IndexError")
  | Some page_num =>
      text_content <- page_text folder_path fs ;;
      images_to_load <- page_images folder_path fs ;;
      Ok {| Analyzer.page_num := page_num;
            Analyzer.text := text_content;
            Analyzer.images := images_to_load |}
  end.

Fixpoint load_folders (pages_dir : FS.path) (fs : FS.node) (folders : list string)
  : result (list Analyzer.page) :=
  match folders with
  | [] => Ok []
  | d :: rest =>
      pg <- load_page pages_dir fs d ;;
      pgs <- load_folders pages_dir fs rest ;;
      Ok (pg :: pgs)
  end.

(** [PaperContent(paper_dir)]: [__init__] and [_load_pages]. *)
Definition PaperContent (paper_dir : FS.path) (fs : FS.node)
  : result Analyzer.PaperContent :=
  let pages_dir := paper_dir ++ ["pages"] in
  if negb (FS.exists_ pages_dir fs) then
    Ok {| Analyzer.paper_dir := paper_dir; Analyzer.pages := [] |}
  else
    names <- of_option (FS.listdir pages_dir fs)
               (mk_exn OSError "NotADirectoryError") ;;
    ks <- keyed (page_folders pages_dir fs names) ;;
    pgs <- load_folders pages_dir fs (map snd (sorted_keyed ks)) ;;
    Ok {| Analyzer.paper_dir := paper_dir; Analyzer.pages := pgs |}.

(** The number of a loaded page, as the sort read it. *)
Definition page_number (pg : Analyzer.page) : option Z := int (Analyzer.page_num pg).

(** The piece of a folder name that holds the page number. *)
Definition piece (folder : string) : string :=
  match second (split "_" folder) with
  | Some p => p
  | None => EmptyString
  end.

(** Where an image of a page in [folder_path] may lie: the whole page, or
    a crop with an image extension. *)
Definition image_of (folder_path img : FS.path) : Prop :=
  img = folder_path ++ ["original.jpg"]
  \/ exists n, img = folder_path ++ ["images"; n] /\ is_image n = true.

End Loader.

(* ================================================================== *)
(** * [src/analyzer.py]: the single-paper command *)
(* ================================================================== *)

Module AnalyzerCLI.
Import Py.

(** The parts of a request that carry an image. *)
Definition is_image_part (p : Analyzer.part) : bool :=
  match p with
  | Analyzer.Text _ => false
  | Analyzer.ImageUrl _ _ => true
  | Analyzer.Image _ => true
  end.

(** The images of all the pages, in page order. *)
Definition all_images (c : Analyzer.PaperContent) : list FS.path :=
  flat_map Analyzer.images (Analyzer.pages c).

(** The parts of the user message of a request. *)
Definition user_parts (ms : list Analyzer.message) : list Analyzer.part :=
  match ms with
  | [_; {| Analyzer.msg_body := Analyzer.Parts ps |}] => ps
  | _ => []
  end.

Section Main.

(** The construction of the analyzer [--provider] names. *)
Variable init_analyzer : result Analyzer.analyzer.

Definition report_path (paper_folder : FS.path) : FS.path :=
  paper_folder ++ ["analysis_report.md"].

(** [with open(report_path, 'w') as f: f.write(report)]: the file is
    opened, and so created or emptied, before [write] looks at the report;
    [write] raises [TypeError] on [None]. *)
Definition write_report (p : FS.path) (report : value) (fs : FS.node)
  : result unit * FS.node :=
  match FS.write_file p "" fs with
  | None => (Raise (mk_exn OSError "open"), fs)
  | Some fs1 =>
      match report with
      | PyStr r =>
          match FS.append_file p r fs1 with
          | Some fs2 => (Ok tt, fs2)
          | None => (Raise (mk_exn OSError "write"), fs1)
          end
      | PyNone => (Raise (mk_exn OtherException "TypeError"), fs1)
      end
  end.

(** [main] of [analyzer.py]. *)
Definition main (paper_folder : FS.path) (fs : FS.node) : result unit * FS.node :=
  if negb (FS.exists_ paper_folder fs) then (Ok tt, fs)
  else
    match Loader.PaperContent paper_folder fs with
    | Raise e => (Raise e, fs)
    | Ok content =>
        match init_analyzer with
        | Raise e => (Raise e, fs)
        | Ok analyzer =>
            match Analyzer.analyze analyzer fs content with
            | Raise e => (Raise e, fs)
            | Ok report => write_report (report_path paper_folder) report fs
            end
        end
    end.

End Main.

End AnalyzerCLI.

(* ================================================================== *)
(** * [src/ocr_engine.py]: the extraction engine *)
(* ================================================================== *)

Module Engine.
Import Py.

(** A directory as [os.makedirs] creates it. *)
Definition fresh_dir : FS.node := FS.Dir 4096 [].

(** [os.makedirs(p, exist_ok=True)]; [None] where Python raises (a file is
    in the way). *)
Fixpoint makedirs (p : FS.path) (n : FS.node) : option FS.node :=
  match n with
  | FS.File _ => None
  | FS.Dir sz es =>
      match p with
      | [] => Some n
      | c :: p' =>
          match makedirs p' (match FS.assoc c es with
                             | Some m => m
                             | None => fresh_dir
                             end) with
          | Some m' => Some (FS.Dir sz (FS.set_entry c m' es))
          | None => None
          end
      end
  end.

(** Put the entries [new] into the directory at [p], over entries of the
    same name; [None] when there is no directory at [p]. *)
Fixpoint put_entries (p : FS.path) (new : list (string * FS.node)) (n : FS.node)
  : option FS.node :=
  match n with
  | FS.File _ => None
  | FS.Dir sz es =>
      match p with
      | [] => Some (FS.Dir sz (fold_left (fun es kv => FS.set_entry (fst kv) (snd kv) es)
                                 new es))
      | c :: p' =>
          match FS.assoc c es with
          | Some m =>
              match put_entries p' new m with
              | Some m' => Some (FS.Dir sz (FS.set_entry c m' es))
              | None => None
              end
          | None => None
          end
      end
  end.

(** [os.path.basename] of a path. *)
Definition basename (p : FS.path) : string := last p EmptyString.

(** The heading and the text of page [i] in [full_extracted.md]. *)
Definition section (i : nat) (extracted_text : string) : string :=
  nl ++ nl ++ "## Page " ++ str_of_Z (Z.of_nat i) ++ nl ++ nl ++ extracted_text.

(** The sections of the pages [i], [i+1], ... with the texts [texts]. *)
Fixpoint sections_from (i : nat) (texts : list string) : string :=
  match texts with
  | [] => EmptyString
  | t :: rest => (section i t ++ sections_from (S i) rest)%string
  end.

(** [str(res)] *)
Definition str (res : value) : string :=
  match res with
  | PyStr s => s
  | PyNone => "None"
  end.

Definition os_error (what : string) : exn := mk_exn OSError what.

Section Engine.

(** [pdf2image.convert_from_path(pdf_path, timeout=60)]: the pages, as the
    bytes [image.save] writes for each. *)
Variable convert_from_path : FS.path -> FS.node -> result (list string).

(** [self.model.infer(..., image_file, output_path, save_results=True)] on
    a page image: what it returns or raises, and the entries it saved under
    [output_path] before that. *)
Variable infer : string -> result value * list (string * FS.node).

(** The text of a page after [infer] returned [res]. *)
Definition extracted_text (page_output_path : FS.path) (res : value) (fs : FS.node)
  : string :=
  match FS.lookup (page_output_path ++ ["result.mmd"]) fs with
  | Some (FS.File d) => d
  | Some (FS.Dir _ _) => EmptyString     (* the read fails and is reported *)
  | None => str res
  end.

(** The body of [for i, image in enumerate(images)], from page [i] on:
    the text gathered, or the exception that ends [process_pdf]. *)
Fixpoint process_pages (pages_dir : FS.path) (i : nat) (images : list string)
  (full_text : string) (fs : FS.node) : result string * FS.node :=
  match images with
  | [] => (Ok full_text, fs)
  | image :: rest =>
      let page_output_path := pages_dir ++ [("page_" ++ str_of_Z (Z.of_nat i))%string] in
      match makedirs page_output_path fs with
      | None => (Raise (os_error "FileExistsError"), fs)
      | Some fs1 =>
          match FS.write_file (page_output_path ++ ["original.jpg"]) image fs1 with
          | None => (Raise (os_error "IsADirectoryError"), fs1)
          | Some fs2 =>
              let '(r, saved) := infer image in
              match put_entries page_output_path saved fs2 with
              | None => (Raise (os_error "NotADirectoryError"), fs2)
              | Some fs3 =>
                  match r with
                  | Raise e => (Raise e, fs3)        (* print, then raise e *)
                  | Ok res =>
                      process_pages pages_dir (S i) rest
                        (full_text ++ section i (extracted_text page_output_path res fs3))%string
                        fs3
                  end
              end
          end
      end
  end.

Definition paper_output_dir (pdf_path output_dir : FS.path) : FS.path :=
  output_dir ++ [Pipeline.splitext_root (basename pdf_path)].

Definition marker (pdf_path output_dir : FS.path) : FS.path :=
  paper_output_dir pdf_path output_dir ++ ["full_extracted.md"].

(** [OCREngine.process_pdf]: [True], [False], or an exception. *)
Definition process_pdf (pdf_path output_dir : FS.path) (fs : FS.node)
  : result bool * FS.node :=
  let out := paper_output_dir pdf_path output_dir in
  match makedirs out fs with
  | None => (Raise (os_error "FileExistsError"), fs)
  | Some fs1 =>
      match convert_from_path pdf_path fs1 with
      | Raise _ => (Ok false, fs1)
      | Ok images =>
          match makedirs (out ++ ["pages"]) fs1 with
          | None => (Raise (os_error "FileExistsError"), fs1)
          | Some fs2 =>
              match process_pages (out ++ ["pages"]) 0 images EmptyString fs2 with
              | (Raise e, fs3) => (Raise e, fs3)
              | (Ok full_text, fs3) =>
                  match FS.write_file (out ++ ["full_extracted.md"]) full_text fs3 with
                  | None => (Raise (os_error "IsADirectoryError"), fs3)
                  | Some fs4 => (Ok true, fs4)
                  end
              end
          end
      end
  end.

(** [OCREngine()]: loading the model may raise. *)
Variable load_model : result unit.

(** The script with both arguments, and [main] of [single_paper_ocr.py]:
    the exit status and the disk. *)
Definition single_paper (pdf_path output_dir : FS.path) (fs : FS.node)
  : Z * FS.node :=
  match load_model with
  | Raise _ => (1%Z, fs)
  | Ok _ =>
      match process_pdf pdf_path output_dir fs with
      | (Ok true, fs') => (0%Z, fs')
      | (Ok false, fs') => (1%Z, fs')
      | (Raise _, fs') => (1%Z, fs')
      end
  end.

(** The engine as the pipeline launches it, when the launch succeeds and
    the run ends before the timeout (what it prints is left out). *)
Definition as_subprocess (pdf_path output_dir : FS.path) (fs : FS.node)
  : result Pipeline.CompletedProcess * FS.node :=
  let '(code, fs') := single_paper pdf_path output_dir fs in
  (Ok {| Pipeline.returncode := code; Pipeline.stdout := ""; Pipeline.stderr := "" |},
   fs').

(** The loop of the batch mode over the sorted files. *)
Fixpoint batch_loop (input_dir output_dir : FS.path) (files : list string)
  (fs : FS.node) : FS.node :=
  match files with
  | [] => fs
  | pdf_file :: rest =>
      let existing_output := output_dir ++ [Pipeline.splitext_root pdf_file] in
      if FS.exists_ existing_output fs
         && FS.exists_ (existing_output ++ ["full_extracted.md"]) fs
      then batch_loop input_dir output_dir rest fs
      else
        (* try: process_pdf(...) except Exception: continue *)
        batch_loop input_dir output_dir rest
          (snd (process_pdf (input_dir ++ [pdf_file]) output_dir fs))
  end.

(** The script without arguments (batch mode): the exit status and the
    disk.  [base_dir] is the directory above [src]. *)
Definition batch (base_dir : FS.path) (fs : FS.node) : Z * FS.node :=
  let input_dir := base_dir ++ ["original_papers"] in
  let output_dir := base_dir ++ ["extracted_papers"] in
  if negb (FS.exists_ input_dir fs) then (1%Z, fs)
  else
    match FS.listdir input_dir fs with
    | None => (1%Z, fs)                  (* os.listdir raises *)
    | Some names =>
        match Loader.sorted_names (filter (fun f => endswith f ".pdf") names) with
        | [] => (0%Z, fs)
        | files =>
            match load_model with
            | Raise _ => (1%Z, fs)       (* the exception ends the script *)
            | Ok _ => (0%Z, batch_loop input_dir output_dir files fs)
            end
        end
    end.

End Engine.

End Engine.

(* ================================================================== *)
(** * Concrete engines *)
(* ================================================================== *)

Module EngineWorlds.
Import Py.

(** A PDF of one page. *)
Definition one_page_pdf (pdf_path : FS.path) (fs : FS.node) : result (list string) :=
  Ok ["JPEG"].

(** A PDF without pages. *)
Definition no_page_pdf (pdf_path : FS.path) (fs : FS.node) : result (list string) :=
  Ok [].

(** A model that saves the text of the page and returns [None]. *)
Definition saves_text (image : string) : result value * list (string * FS.node) :=
  (Ok PyNone, [("result.mmd", FS.File "text of the page")]).

(** The pipeline's disk with the downloaded paper [p.pdf] and nothing
    extracted. *)
Definition downloaded : Pipeline.state :=
  Examples.start (Examples.tree ["p.pdf"] []).

(** The loaded content of the paper with three pages. *)
Definition three_pages_content : Analyzer.PaperContent :=
  match Loader.PaperContent ["p"] Worlds.three_pages with
  | Ok c => c
  | Raise _ => Analyzer.mk_content [] []
  end.

End EngineWorlds.

(* ================================================================== *)
(** * Facts about the file system *)
(* ================================================================== *)

Module FSFacts.
Import FS.

Lemma assoc_remove_key {A} (k : string) (es : list (string * A)) :
  assoc k (remove_key k es) = None.
Proof.
  induction es as [|[k' v] es IH]; simpl; auto.
  destruct (String.eqb k k') eqn:E; simpl; auto.
  rewrite E. exact IH.
Qed.

Lemma assoc_map_first {A} (k : string) (f : A -> A) (es : list (string * A)) :
  assoc k (map_first k f es) = option_map f (assoc k es).
Proof.
  induction es as [|[k' v] es IH]; simpl; auto.
  destruct (String.eqb k k') eqn:E; simpl; rewrite E; auto.
Qed.

Lemma assoc_set_entry {A} (k : string) (v : A) (es : list (string * A)) :
  assoc k (set_entry k v es) = Some v.
Proof.
  induction es as [|[k' v'] es IH]; simpl.
  - now rewrite String.eqb_refl.
  - destruct (String.eqb k k') eqn:E; simpl; rewrite E; auto.
Qed.

Lemma lookup_app (p q : path) (n : node) :
  lookup (p ++ q) n =
  match lookup p n with
  | Some m => lookup q m
  | None => None
  end.
Proof.
  revert n. induction p as [|c p IH]; intros n; simpl; auto.
  destruct n as [d|sz es]; auto.
  destruct (assoc c es); auto.
Qed.

(** After [detach p] nothing is left at [p]. *)
Lemma lookup_detach (p : path) (n : node) :
  p <> [] -> lookup p (detach p n) = None.
Proof.
  revert n. induction p as [|c p IH]; intros n Hp; [congruence|].
  destruct p as [|c' p].
  - destruct n as [d|sz es]; simpl; auto.
    now rewrite assoc_remove_key.
  - destruct n as [d|sz es]; [reflexivity|].
    change (detach (c :: c' :: p) (Dir sz es))
      with (Dir sz (map_first c (detach (c' :: p)) es)).
    change (lookup (c :: c' :: p) (Dir sz (map_first c (detach (c' :: p)) es)))
      with (match assoc c (map_first c (detach (c' :: p)) es) with
            | Some m => lookup (c' :: p) m
            | None => None
            end).
    rewrite assoc_map_first.
    destruct (assoc c es) as [m|]; simpl; auto.
    apply IH. discriminate.
Qed.

(** ... nor anywhere below [p]: the whole tree is gone. *)
Lemma lookup_detach_below (p q : path) (n : node) :
  p <> [] -> lookup (p ++ q) (detach p n) = None.
Proof.
  intros Hp. rewrite lookup_app, lookup_detach; auto.
Qed.

Lemma exists_detach_below (p q : path) (n : node) :
  p <> [] -> exists_ (p ++ q) (detach p n) = false.
Proof.
  intros Hp. unfold exists_. now rewrite lookup_detach_below.
Qed.

(** A successful write leaves exactly the data at the path. *)
Lemma lookup_write_file (p : path) (d : string) (n n' : node) :
  write_file p d n = Some n' -> lookup p n' = Some (File d).
Proof.
  revert n n'. induction p as [|c p IH]; intros n n' H.
  - destruct n; discriminate.
  - destruct p as [|c' p].
    + destruct n as [d0|sz es]; [discriminate|]. simpl in H.
      destruct (assoc c es) as [[d1|sz1 es1]|]; inversion H; subst;
        simpl; now rewrite assoc_set_entry.
    + destruct n as [d0|sz es]; [discriminate|].
      change (write_file (c :: c' :: p) d (Dir sz es))
        with (match assoc c es with
              | Some m =>
                  match write_file (c' :: p) d m with
                  | Some m' => Some (Dir sz (set_entry c m' es))
                  | None => None
                  end
              | None => None
              end) in H.
      destruct (assoc c es) as [m|]; [|discriminate].
      destruct (write_file (c' :: p) d m) as [m'|] eqn:E; [|discriminate].
      inversion H; subst.
      change (lookup (c :: c' :: p) (Dir sz (set_entry c m' es)))
        with (match assoc c (set_entry c m' es) with
              | Some m => lookup (c' :: p) m
              | None => None
              end).
      rewrite assoc_set_entry. eapply IH; eauto.
Qed.

(** Writing over an existing file always succeeds. *)
Lemma write_file_over_file (p : path) (d d0 : string) (n : node) :
  p <> [] -> lookup p n = Some (File d0) ->
  exists n', write_file p d n = Some n'.
Proof.
  revert n. induction p as [|c p IH]; intros n Hp H; [congruence|].
  destruct n as [d1|sz es]; [discriminate|].
  destruct p as [|c' p].
  - simpl in *. destruct (assoc c es) as [[d2|sz2 es2]|]; try discriminate.
    eauto.
  - change (lookup (c :: c' :: p) (Dir sz es))
      with (match assoc c es with
            | Some m => lookup (c' :: p) m
            | None => None
            end) in H.
    change (write_file (c :: c' :: p) d (Dir sz es))
      with (match assoc c es with
            | Some m =>
                match write_file (c' :: p) d m with
                | Some m' => Some (Dir sz (set_entry c m' es))
                | None => None
                end
            | None => None
            end).
    destruct (assoc c es) as [m|]; [|discriminate].
    destruct (IH m) as [m' Hm']; [discriminate|assumption|].
    rewrite Hm'. eauto.
Qed.

(** A file can be created in any existing directory that has no
    directory of that name. *)
Lemma write_file_sibling (p : path) (c c0 : string) (d : string) (n m : node) :
  lookup (p ++ [c0]) n = Some m ->
  isdir (p ++ [c]) n = false ->
  exists n', write_file (p ++ [c]) d n = Some n'.
Proof.
  revert n. induction p as [|k p IH]; intros n H Hd.
  - simpl in *. destruct n as [d1|sz es]; [discriminate|].
    unfold isdir in Hd. simpl in Hd.
    destruct (assoc c es) as [[d2|sz2 es2]|]; try discriminate; eauto.
  - destruct n as [d1|sz es]; [discriminate|].
    assert (Hw : write_file ((k :: p) ++ [c]) d (Dir sz es) =
                 match assoc k es with
                 | Some m0 =>
                     match write_file (p ++ [c]) d m0 with
                     | Some m' => Some (Dir sz (set_entry k m' es))
                     | None => None
                     end
                 | None => None
                 end).
    { simpl. destruct p; reflexivity. }
    rewrite Hw. simpl in H. unfold isdir in Hd. simpl in Hd.
    destruct (assoc k es) as [m0|]; [|discriminate].
    destruct (IH m0) as [m' Hm']; auto.
    rewrite Hm'. eauto.
Qed.

End FSFacts.

(* ================================================================== *)
(** * Facts about writing a file step by step *)
(* ================================================================== *)

Module DiskFacts.
Import FS FSFacts.

Lemma substring_all (s : string) : substring 0 (String.length s) s = s.
Proof.
  induction s as [|c s IH]; simpl; auto. now rewrite IH.
Qed.

Lemma exists_false_isdir (p : path) (fs : node) :
  exists_ p fs = false -> isdir p fs = false.
Proof.
  unfold exists_, isdir. destruct (lookup p fs) as [[d|sz es]|]; auto; discriminate.
Qed.

Lemma append_after_open (p : path) (d : string) (fs fs1 : node) :
  write_file p "" fs = Some fs1 ->
  append_file p d fs1 = write_file p d fs1.
Proof.
  intros H. unfold append_file. now rewrite (lookup_write_file _ _ _ _ H).
Qed.

(** A save that runs to its end leaves the report in the file. *)
Lemma save_run (p : path) (r : string) (fs fs' : node) :
  Disk.run (Pipeline.save_ops p r) fs = Some fs' ->
  lookup p fs' = Some (File r).
Proof.
  unfold Pipeline.save_ops. simpl.
  destruct (write_file p "" fs) as [fs1|] eqn:E1; [|discriminate].
  rewrite (append_after_open _ _ _ _ E1).
  destruct (write_file p r fs1) as [fs2|] eqn:E2; [|discriminate].
  intros H. inversion H; subst. eapply lookup_write_file; eauto.
Qed.

(** A save next to an existing entry succeeds when nothing is at its path. *)
Lemma save_succeeds (dir : path) (c0 c : string) (m : node) (r : string) (fs : node) :
  lookup (dir ++ [c0]) fs = Some m ->
  exists_ (dir ++ [c]) fs = false ->
  exists fs', Disk.run (Pipeline.save_ops (dir ++ [c]) r) fs = Some fs'
              /\ lookup (dir ++ [c]) fs' = Some (File r).
Proof.
  intros Hm He.
  destruct (write_file_sibling dir c c0 "" fs m Hm (exists_false_isdir _ _ He))
    as [fs1 H1].
  assert (Hne : dir ++ [c] <> []) by (destruct dir; discriminate).
  destruct (write_file_over_file (dir ++ [c]) r "" fs1 Hne
              (lookup_write_file _ _ _ _ H1)) as [fs2 H2].
  assert (Hrun : Disk.run (Pipeline.save_ops (dir ++ [c]) r) fs = Some fs2).
  { unfold Pipeline.save_ops. simpl. rewrite H1.
    rewrite (append_after_open _ _ _ _ H1). now rewrite H2. }
  exists fs2. split; auto. eapply save_run; eauto.
Qed.

(** What the file holds in each state an interrupted save leaves. *)
Lemma save_crash_states (p : path) (r : string) (fs s : node) :
  In s (Disk.crash_states (Pipeline.save_ops p r) fs) ->
  lookup p s = lookup p fs
  \/ exists k, (k <= String.length r)%nat /\ lookup p s = Some (File (substring 0 k r)).
Proof.
  unfold Pipeline.save_ops. simpl.
  intros [H|H]; [subst; auto|].
  destruct (write_file p "" fs) as [fs1|] eqn:E1; [|contradiction].
  destruct H as [H|H].
  - subst. right. exists 0%nat. split; [lia|].
    rewrite (lookup_write_file _ _ _ _ E1). now destruct r.
  - apply in_app_or in H. destruct H as [H|H].
    + apply in_flat_map in H. destruct H as [d' [Hd' Hs]].
      unfold Disk.proper_prefixes in Hd'. apply in_map_iff in Hd'.
      destruct Hd' as [k [Hk Hin]]. apply in_seq in Hin. subst d'.
      rewrite (append_after_open _ _ _ _ E1) in Hs.
      destruct (write_file p (substring 0 k r) fs1) as [fs2|] eqn:E2;
        [|contradiction].
      destruct Hs as [Hs|[]]. subst. right. exists k. split; [lia|].
      eapply lookup_write_file; eauto.
    + rewrite (append_after_open _ _ _ _ E1) in H.
      destruct (write_file p r fs1) as [fs2|] eqn:E2; [|contradiction].
      destruct H as [H|[]]; subst.
      right. exists (String.length r). split; [lia|].
      rewrite substring_all. eapply lookup_write_file; eauto.
Qed.

End DiskFacts.

(* ================================================================== *)
(** * The pipeline of [main.py] *)
(* ================================================================== *)

Module PipelineFacts.
Import Py FS FSFacts DiskFacts Pipeline.

Section Loop.

Variable base_dir : FS.path.
Variable subprocess_run :
  FS.path -> FS.path -> FS.node -> result CompletedProcess * FS.node.
Variable load_content : FS.path -> FS.node -> result Analyzer.PaperContent.
Variable a : args.
Variable the_analyzer : option Analyzer.analyzer.

Local Abbreviation ocr_stage := (ocr_stage base_dir subprocess_run).
Local Abbreviation analysis_stage := (analysis_stage base_dir load_content).
Local Abbreviation process_item :=
  (process_item base_dir subprocess_run load_content a the_analyzer).
Local Abbreviation process_all :=
  (process_all base_dir subprocess_run load_content a the_analyzer).
Local Abbreviation paper_dir := (paper_extracted_path base_dir).
Local Abbreviation ex_marker := (extraction_marker base_dir).
Local Abbreviation an_marker := (analysis_marker base_dir).

Lemma paper_dir_not_root (f : string) : paper_dir f <> [].
Proof.
  unfold paper_extracted_path, extracted_dir.
  destruct base_dir; discriminate.
Qed.

(** After the guarded [rmtree] nothing is left below the paper's directory. *)
Lemma lookup_cleanup (f : string) (q : FS.path) (fs fs' : node) :
  cleanup base_dir f fs = Ok fs' ->
  lookup (paper_dir f ++ q) fs' = None.
Proof.
  unfold cleanup, rmtree. destruct (exists_ (paper_dir f) fs) eqn:E.
  - destruct (lookup (paper_dir f) fs) as [[d|sz es]|]; try discriminate.
    intros H. inversion H; subst.
    apply lookup_detach_below, paper_dir_not_root.
  - intros H. inversion H; subst. rewrite lookup_app. unfold exists_ in E.
    destruct (lookup (paper_dir f) fs'); [discriminate|reflexivity].
Qed.

(** The guarded [rmtree] goes through unless a regular file is in its way. *)
Lemma cleanup_ok (f : string) (fs : node) :
  (forall d, lookup (paper_dir f) fs <> Some (File d)) ->
  exists fs', cleanup base_dir f fs = Ok fs'.
Proof.
  intros Hdir. unfold cleanup, rmtree, exists_.
  destruct (lookup (paper_dir f) fs) as [[d|sz es]|] eqn:E; simpl; eauto.
  now elim (Hdir d).
Qed.

(** What it leaves is the disk as it was, or with the directory detached. *)
Lemma cleanup_cases (f : string) (fs fs' : node) :
  cleanup base_dir f fs = Ok fs' ->
  fs' = fs \/ fs' = detach (paper_dir f) fs.
Proof.
  unfold cleanup, rmtree. destruct (exists_ (paper_dir f) fs).
  - destruct (lookup (paper_dir f) fs) as [[d|sz es]|]; try discriminate.
    intros H. inversion H. now right.
  - intros H. inversion H. now left.
Qed.

(** ... and raises, removing nothing, when one is. *)
Lemma cleanup_regular_file (f : string) (fs : node) (d : string) :
  lookup (paper_dir f) fs = Some (File d) ->
  cleanup base_dir f fs = Raise (mk_exn OSError "NotADirectoryError").
Proof.
  intros E. unfold cleanup, rmtree, exists_. now rewrite E.
Qed.

Lemma analyzed_print (l : line) (st : state) :
  (forall n, l <> Analyzing n) -> analyzed (print l st) = analyzed st.
Proof.
  intros H. unfold analyzed. simpl. rewrite flat_map_app. simpl.
  destruct l; try (now rewrite app_nil_r). now elim (H paper_name).
Qed.

Lemma analyzed_set_disk (fs : node) (st : state) :
  analyzed (set_disk fs st) = analyzed st.
Proof. reflexivity. Qed.

Ltac rewrite_analyzed :=
  repeat (rewrite analyzed_set_disk || rewrite analyzed_print by discriminate).

(** Whatever the failure, when the cleanup goes through the OCR stage ends
    normally on the engine's disk with the paper's directory removed. *)
Lemma ocr_stage_failed (f : string) (st : state) (r : result CompletedProcess)
  (fs fs' : node) :
  already_extracted base_dir f (disk st) = false ->
  subprocess_run (original_dir base_dir ++ [f]) (extracted_dir base_dir) (disk st)
    = (r, fs) ->
  extraction_failed r ->
  cleanup base_dir f fs = Ok fs' ->
  exists st',
    ocr_stage f st = (Ok tt, st')
    /\ disk st' = fs'
    /\ analyzed st' = analyzed st.
Proof.
  intros Hnot Hrun Hfail Hc. unfold Pipeline.ocr_stage. rewrite Hnot, Hrun.
  destruct r as [result|e]; simpl in Hfail.
  - destruct (returncode result =? 0)%Z eqn:E; [apply Z.eqb_eq in E; contradiction|].
    simpl negb. cbv iota. unfold cleanup in Hc.
    destruct (exists_ (paper_dir f) fs).
    + destruct (rmtree (paper_dir f) fs) as [fs1|]; [|discriminate].
      inversion Hc; subst. eexists. split; [reflexivity|]. split; [reflexivity|].
      now rewrite_analyzed.
    + inversion Hc; subst. eexists. split; [reflexivity|]. split; [reflexivity|].
      now rewrite_analyzed.
  - assert (Hl : on_launch_error base_dir f e (set_disk fs (print (RunningOCR (splitext_root f)) st))
                 = (Ok tt, set_disk fs' (print (ErrorLaunching (splitext_root f) (exn_msg e))
                                           (set_disk fs (print (RunningOCR (splitext_root f)) st))))).
    { unfold on_launch_error. simpl disk. now rewrite Hc. }
    destruct (exn_cls e); rewrite ?Hl, ?Hc;
      (eexists; split; [reflexivity|]; split; [reflexivity|];
       now rewrite_analyzed).
Qed.

(** With a regular file where the paper's directory should be, the
    exception of [rmtree] leaves the stage, and the file stays. *)
Lemma ocr_stage_regular_file (f : string) (st : state) (r : result CompletedProcess)
  (fs : node) (d : string) :
  already_extracted base_dir f (disk st) = false ->
  subprocess_run (original_dir base_dir ++ [f]) (extracted_dir base_dir) (disk st)
    = (r, fs) ->
  extraction_failed r ->
  lookup (paper_dir f) fs = Some (File d) ->
  fst (ocr_stage f st) = Raise (mk_exn OSError "NotADirectoryError")
  /\ disk (snd (ocr_stage f st)) = fs.
Proof.
  intros Hnot Hrun Hfail Hd. unfold Pipeline.ocr_stage. rewrite Hnot, Hrun.
  pose proof (cleanup_regular_file f fs d Hd) as Hc.
  destruct r as [result|e]; simpl in Hfail.
  - destruct (returncode result =? 0)%Z eqn:E; [apply Z.eqb_eq in E; contradiction|].
    simpl negb. cbv iota. unfold exists_, rmtree. rewrite Hd.
    unfold on_launch_error. simpl disk. now rewrite Hc.
  - destruct (exn_cls e); unfold on_launch_error; simpl disk; now rewrite Hc.
Qed.

(** Without an extraction marker the analysis stage only reports it. *)
Lemma analysis_stage_no_marker (an : Analyzer.analyzer) (f : string) (st : state) :
  exists_ (ex_marker f) (disk st) = false ->
  analysis_stage an f st = (Ok tt, print (CannotAnalyze (splitext_root f)) st).
Proof.
  intros H. unfold Pipeline.analysis_stage. now rewrite H.
Qed.

(** The analysis stage never changes the disk unless it saves a report. *)
Lemma analysis_stage_raise (an : Analyzer.analyzer) (f : string) (st : state)
  (c : Analyzer.PaperContent) (e : exn) :
  exists_ (ex_marker f) (disk st) = true ->
  exists_ (an_marker f) (disk st) = false ->
  load_content (paper_dir f) (disk st) = Ok c ->
  Analyzer.analyze an (disk st) c = Raise e ->
  analysis_stage an f st = (Raise e, print (Analyzing (splitext_root f)) st).
Proof.
  intros H1 H2 H3 H4. unfold Pipeline.analysis_stage.
  now rewrite H1, H2, H3, H4.
Qed.

(** A falsy report: nothing is written and the stage ends normally. *)
Lemma analysis_stage_falsy (an : Analyzer.analyzer) (f : string) (st : state)
  (c : Analyzer.PaperContent) (v : value) :
  exists_ (ex_marker f) (disk st) = true ->
  exists_ (an_marker f) (disk st) = false ->
  load_content (paper_dir f) (disk st) = Ok c ->
  Analyzer.analyze an (disk st) c = Ok v ->
  truthy v = false ->
  analysis_stage an f st = (Ok tt, print (Analyzing (splitext_root f)) st).
Proof.
  intros H1 H2 H3 H4 H5. unfold Pipeline.analysis_stage.
  now rewrite H1, H2, H3, H4, H5.
Qed.

(** A truthy report is saved with [save_ops]. *)
Lemma analysis_stage_truthy (an : Analyzer.analyzer) (f : string) (st : state)
  (c : Analyzer.PaperContent) (r : string) (fs' : node) :
  exists_ (ex_marker f) (disk st) = true ->
  exists_ (an_marker f) (disk st) = false ->
  load_content (paper_dir f) (disk st) = Ok c ->
  Analyzer.analyze an (disk st) c = Ok (PyStr r) ->
  truthy (PyStr r) = true ->
  Disk.run (save_ops (an_marker f) r) (disk st) = Some fs' ->
  analysis_stage an f st =
    (Ok tt, print (ReportSaved (splitext_root f))
              (set_disk fs' (print (Analyzing (splitext_root f)) st))).
Proof.
  intros H1 H2 H3 H4 H5 H6. unfold Pipeline.analysis_stage.
  rewrite H1, H2, H3, H4, H5. simpl disk. now rewrite H6.
Qed.

(** Under the gate the save cannot fail: the marker's directory is there. *)
Lemma gate_save_succeeds (f : string) (r : string) (fs : node) :
  exists_ (ex_marker f) fs = true ->
  exists_ (an_marker f) fs = false ->
  exists fs', Disk.run (save_ops (an_marker f) r) fs = Some fs'
              /\ lookup (an_marker f) fs' = Some (File r).
Proof.
  intros H1 H2. unfold exists_ in H1.
  destruct (lookup (ex_marker f) fs) as [m|] eqn:E; [|discriminate].
  eapply save_succeeds; eauto.
Qed.

(** An exception out of the loop body ends the loop, whatever follows. *)
Lemma process_all_raise (f : string) (rest : list string) (st st' : state) (e : exn) :
  process_item f st = (Raise e, st') ->
  process_all (f :: rest) st = (Raise e, st').
Proof.
  intros H. simpl. now rewrite H.
Qed.

Lemma process_all_ok (f : string) (rest : list string) (st st' : state) (u : unit) :
  process_item f st = (Ok u, st') ->
  process_all (f :: rest) st = process_all rest st'.
Proof.
  intros H. simpl. now rewrite H.
Qed.

(** C3.  When the extraction subprocess of an item ends in a non-zero exit
    status, in the timeout or in an exception at launch, and what the
    engine left at the item's output path is a directory or nothing, the
    OCR stage ends normally and the disk after it is the disk the engine
    left with the item's output directory removed (the same for the three
    kinds of failure), nothing is left at or below that directory, the item
    is skipped (no analysis is started for it) and the loop goes on with
    the next item. *)
Theorem C3_failed_extraction_is_cleaned_up
  (f : string) (rest : list string) (st : state)
  (r : result CompletedProcess) (fs : node) :
  skip_ocr a = false ->
  already_extracted base_dir f (disk st) = false ->
  subprocess_run (original_dir base_dir ++ [f]) (extracted_dir base_dir) (disk st)
    = (r, fs) ->
  extraction_failed r ->
  (forall d, lookup (paper_dir f) fs <> Some (File d)) ->
  fst (ocr_stage f st) = Ok tt
  /\ cleanup base_dir f fs = Ok (disk (snd (ocr_stage f st)))
  /\ (forall q, lookup (paper_dir f ++ q) (disk (snd (ocr_stage f st))) = None)
  /\ exists st',
       process_item f st = (Ok tt, st')
       /\ cleanup base_dir f fs = Ok (disk st')
       /\ analyzed st' = analyzed st
       /\ process_all (f :: rest) st = process_all rest st'.
Proof.
  intros Hskip Hnot Hrun Hfail Hdir.
  destruct (cleanup_ok f fs Hdir) as [fs' Hc].
  destruct (ocr_stage_failed f st r fs fs' Hnot Hrun Hfail Hc) as [st1 [Hst [Hd1 Ha1]]].
  rewrite Hst. simpl fst. simpl snd. rewrite Hd1.
  split; [reflexivity|]. split; [exact Hc|]. split.
  { intros q. exact (lookup_cleanup f q fs fs' Hc). }
  assert (Hno : exists_ (ex_marker f) (disk st1) = false).
  { unfold exists_, extraction_marker. rewrite Hd1.
    now rewrite (lookup_cleanup f _ fs fs' Hc). }
  assert (Hitem : exists st',
             process_item f st = (Ok tt, st')
             /\ disk st' = fs'
             /\ analyzed st' = analyzed st).
  { unfold Pipeline.process_item. rewrite Hskip. simpl negb. cbv iota.
    rewrite Hst. destruct (negb (skip_analysis a)).
    - destruct the_analyzer as [an|].
      + exists (print (CannotAnalyze (splitext_root f)) st1).
        rewrite (analysis_stage_no_marker an f _ Hno).
        repeat split; auto.
        rewrite analyzed_print by discriminate. exact Ha1.
      + exists st1. repeat split; auto.
    - exists st1. repeat split; auto. }
  destruct Hitem as [st' [Hi [Hd Ha]]].
  exists st'. rewrite Hd. repeat split; auto.
  now apply process_all_ok with (u := tt).
Qed.

(** A regular file at the item's output path after a failed run is not
    removed: the exception of [rmtree] ends the loop. *)
Lemma regular_file_ends_the_loop
  (f : string) (rest : list string) (st : state)
  (r : result CompletedProcess) (fs : node) (d : string) :
  skip_ocr a = false ->
  already_extracted base_dir f (disk st) = false ->
  subprocess_run (original_dir base_dir ++ [f]) (extracted_dir base_dir) (disk st)
    = (r, fs) ->
  extraction_failed r ->
  lookup (paper_dir f) fs = Some (File d) ->
  fst (process_all (f :: rest) st) = Raise (mk_exn OSError "NotADirectoryError")
  /\ disk (snd (process_all (f :: rest) st)) = fs.
Proof.
  intros Hskip Hnot Hrun Hfail Hd.
  destruct (ocr_stage_regular_file f st r fs d Hnot Hrun Hfail Hd) as [H1 H2].
  simpl. unfold Pipeline.process_item. rewrite Hskip. simpl negb. cbv iota.
  destruct (ocr_stage f st) as [[u|e] st1]; simpl in H1, H2; [discriminate|].
  inversion H1; subst. split; reflexivity.
Qed.

(** C5, amended.  A truthy report is written in place: the analysis stage
    opens the analysis marker itself for writing and writes the report to
    it, with no temporary path and no rename.  A save that runs to its end
    leaves exactly the report in the marker; one that is interrupted leaves
    the marker as it was or holding a prefix of the report. *)
Theorem C5_report_is_written_in_place
  (an : Analyzer.analyzer) (f : string) (st : state)
  (c : Analyzer.PaperContent) (r : string) :
  exists_ (ex_marker f) (disk st) = true ->
  exists_ (an_marker f) (disk st) = false ->
  load_content (paper_dir f) (disk st) = Ok c ->
  Analyzer.analyze an (disk st) c = Ok (PyStr r) ->
  truthy (PyStr r) = true ->
  existsb Disk.is_rename (save_ops (an_marker f) r) = false
  /\ Forall (fun o => Disk.target o = an_marker f) (save_ops (an_marker f) r)
  /\ (exists fs',
        Disk.run (save_ops (an_marker f) r) (disk st) = Some fs'
        /\ disk (snd (analysis_stage an f st)) = fs'
        /\ fst (analysis_stage an f st) = Ok tt
        /\ lookup (an_marker f) fs' = Some (File r))
  /\ forall s, In s (Disk.crash_states (save_ops (an_marker f) r) (disk st)) ->
       lookup (an_marker f) s = lookup (an_marker f) (disk st)
       \/ exists k, (k <= String.length r)%nat
                    /\ lookup (an_marker f) s = Some (File (substring 0 k r)).
Proof.
  intros H1 H2 H3 H4 H5.
  split; [reflexivity|]. split; [repeat constructor|]. split.
  - destruct (gate_save_succeeds f r (disk st) H1 H2) as [fs' [Hrun Hl]].
    exists fs'. rewrite (analysis_stage_truthy an f st c r fs' H1 H2 H3 H4 H5 Hrun).
    auto.
  - intros s Hs. now apply save_crash_states.
Qed.

End Loop.

Section OpenAI.

Variable model_name : string.
Variable b64encode : string -> string.
Variable chat_create : string -> list Analyzer.message -> Z -> result value.

(** C10.  For every content, when the chat-completion call raises,
    [OpenAIAnalyzer.analyze] does not raise: it returns the string
    ['Error calling OpenAI: '] followed by the error text.  That string is
    truthy, so the analysis stage of the pipeline writes it to the analysis
    marker, after which the item counts as analyzed. *)
Theorem C10_api_error_is_saved_as_the_report
  (fs : node) (c : Analyzer.PaperContent) (msgs : list Analyzer.message) (e : exn) :
  Analyzer.build_messages b64encode fs c = Ok msgs ->
  chat_create model_name msgs 2048 = Raise e ->
  Analyzer.OpenAI_analyze model_name b64encode chat_create fs c
    = Ok (PyStr ("Error calling OpenAI: " ++ exn_msg e))
  /\ truthy (PyStr ("Error calling OpenAI: " ++ exn_msg e)) = true
  /\ forall base_dir load_content f st,
       disk st = fs ->
       exists_ (extraction_marker base_dir f) fs = true ->
       exists_ (analysis_marker base_dir f) fs = false ->
       load_content (paper_extracted_path base_dir f) fs = Ok c ->
       exists st',
         analysis_stage base_dir load_content
           (Analyzer.OpenAIAnalyzer model_name b64encode chat_create) f st
           = (Ok tt, st')
         /\ lookup (analysis_marker base_dir f) (disk st')
            = Some (File ("Error calling OpenAI: " ++ exn_msg e))
         /\ exists_ (analysis_marker base_dir f) (disk st') = true.
Proof.
  intros Hb Hc.
  assert (Ha : Analyzer.OpenAI_analyze model_name b64encode chat_create fs c
               = Ok (PyStr ("Error calling OpenAI: " ++ exn_msg e))).
  { unfold Analyzer.OpenAI_analyze. rewrite Hb. simpl. now rewrite Hc. }
  split; [exact Ha|]. split; [reflexivity|].
  intros base_dir load_content f st Hd H1 H2 H3. subst fs.
  destruct (gate_save_succeeds base_dir f ("Error calling OpenAI: " ++ exn_msg e)
              (disk st) H1 H2) as [fs' [Hrun Hl]].
  eexists. split.
  - eapply analysis_stage_truthy; eauto.
  - simpl. split; [exact Hl|]. unfold exists_. now rewrite Hl.
Qed.

End OpenAI.

(** ** The pipeline on concrete disks *)

Import Examples.

(** C1.  The analysis gate looks only at the existence of
    [full_extracted.md]: with the OCR stage skipped, a paper whose
    extraction marker exists with size zero, and which has no analysis
    marker, is analyzed and gets a report. *)
Theorem C1_zero_size_marker_is_analyzed :
  let fs := tree ["p.pdf"] [("p", extracted_paper "")] in
  let run := Pipeline.main base (engine_exit 0) no_pages analysis_only
               (Ok (answers (Ok (PyStr "report")))) (start fs) in
  getsize (extraction_marker base "p.pdf") fs = Some 0%Z
  /\ exists_ (analysis_marker base "p.pdf") fs = false
  /\ fst run = Ok tt
  /\ analyzed (snd run) = ["p"]
  /\ lookup (analysis_marker base "p.pdf") (disk (snd run)) = Some (File "report").
Proof.
  vm_compute. repeat split; reflexivity.
Qed.

(** C2.  An exception out of the analyzer is not caught in the loop body:
    with two extracted papers and a local analyzer that raises on the first
    (its page image cannot be read), the loop ends with that exception, no
    marker is written for the first paper, and the second paper is never
    reached although the analyzer answers on it. *)
Theorem C2_analyzer_exception_ends_the_loop :
  let fs := tree ["a.pdf"; "b.pdf"]
              [("a", extracted_page "text a" ""); ("b", extracted_page "text b" "JPEG")] in
  let an := Analyzer.LocalVLMAnalyzer load_nonempty (generates "report") in
  let run := Pipeline.main base (engine_exit 0) one_page analysis_only (Ok an)
               (start fs) in
  fst run = Raise (mk_exn OtherException "cannot identify image file")
  /\ exists_ (analysis_marker base "a.pdf") (disk (snd run)) = false
  /\ analyzed (snd run) = ["a"]
  /\ exists_ (analysis_marker base "b.pdf") (disk (snd run)) = false
  /\ (c <- one_page (paper_extracted_path base "b.pdf") fs ;;
      Analyzer.analyze an fs c) = Ok (PyStr "report").
Proof.
  vm_compute. repeat split; reflexivity.
Qed.

(** C9.  Discovery applies no ordering of its own: it keeps the order in
    which the directory is enumerated (and the catalog's notes in the order
    the service sent them).  Two directories with the same entries,
    enumerated in different orders, give different sequences, and a limit
    of 1 selects different papers.  (A limit of 0 cuts nothing.) *)
Theorem C9_discovery_keeps_the_enumeration_order :
  let fs1 := tree ["b.pdf"; "a.pdf"] [] in
  let fs2 := tree ["a.pdf"; "b.pdf"] [] in
  (forall f, lookup (original_dir base ++ [f]) fs1
             = lookup (original_dir base ++ [f]) fs2)
  /\ (exists l1 l2, listdir (original_dir base) fs1 = Some l1
                    /\ listdir (original_dir base) fs2 = Some l2
                    /\ Permutation l1 l2)
  /\ discover base run_all fs1 = Ok ["b.pdf"; "a.pdf"]
  /\ discover base run_all fs2 = Ok ["a.pdf"; "b.pdf"]
  /\ discover base first_only fs1 = Ok ["b.pdf"]
  /\ discover base first_only fs2 = Ok ["a.pdf"]
  /\ select_papers first_only [paper2; paper1] = [paper2]
  /\ select_papers first_only [paper1; paper2] = [paper1]
  /\ discover base limit_zero fs2 = Ok ["a.pdf"; "b.pdf"].
Proof.
  simpl. split; [|split; [|repeat split; reflexivity]].
  - intros f. unfold lookup, original_dir, base, tree. simpl.
    destruct (String.eqb f "b.pdf") eqn:Eb; destruct (String.eqb f "a.pdf") eqn:Ea;
      reflexivity.
  - exists ["b.pdf"; "a.pdf"], ["a.pdf"; "b.pdf"].
    repeat split; try reflexivity. apply perm_swap.
Qed.

(** The C3 theorem at an engine that writes a partial directory and exits
    with status 1. *)
Lemma C3_witness :
  fst (Pipeline.ocr_stage base
         (engine_partial "p" (Ok {| returncode := 1; stdout := ""; stderr := "" |}))
         "p.pdf" (start (tree ["p.pdf"] []))) = Ok tt
  /\ cleanup base "p.pdf"
       (snd (engine_partial "p" (Ok {| returncode := 1; stdout := ""; stderr := "" |})
               [] [] (tree ["p.pdf"] [])))
     = Ok (disk (snd (Pipeline.ocr_stage base
                        (engine_partial "p"
                           (Ok {| returncode := 1; stdout := ""; stderr := "" |}))
                        "p.pdf" (start (tree ["p.pdf"] [])))))
  /\ disk (snd (Pipeline.ocr_stage base
                  (engine_partial "p" (Ok {| returncode := 1; stdout := ""; stderr := "" |}))
                  "p.pdf" (start (tree ["p.pdf"] []))))
     = tree ["p.pdf"] [].
Proof.
  assert (H : forall d,
             lookup (paper_extracted_path base "p.pdf")
               (snd (engine_partial "p"
                       (Ok {| returncode := 1; stdout := ""; stderr := "" |})
                       [] [] (tree ["p.pdf"] [])))
             <> Some (File d)).
  { intros d E. vm_compute in E. discriminate. }
  destruct (C3_failed_extraction_is_cleaned_up base
              (engine_partial "p" (Ok {| returncode := 1; stdout := ""; stderr := "" |}))
              no_pages run_all (Some (answers (Ok PyNone)))
              "p.pdf" [] (start (tree ["p.pdf"] []))
              (Ok {| returncode := 1; stdout := ""; stderr := "" |})
              (snd (engine_partial "p" (Ok {| returncode := 1; stdout := ""; stderr := "" |})
                      [] [] (tree ["p.pdf"] [])))
              eq_refl eq_refl eq_refl ltac:(simpl; discriminate) H)
    as [H1 [H2 _]].
  split; [exact H1|]. split; [exact H2|]. vm_compute. reflexivity.
Defined.

(** The C5 theorem at a paper with an extraction marker and the report
    ["report"]. *)
Lemma C5_witness :
  exists fs',
    Disk.run (save_ops (analysis_marker base "p.pdf") "report")
      (tree ["p.pdf"] [("p", extracted_paper "text")]) = Some fs'
    /\ disk (snd (Pipeline.analysis_stage base no_pages (answers (Ok (PyStr "report")))
                    "p.pdf" (start (tree ["p.pdf"] [("p", extracted_paper "text")]))))
       = fs'
    /\ fst (Pipeline.analysis_stage base no_pages (answers (Ok (PyStr "report")))
              "p.pdf" (start (tree ["p.pdf"] [("p", extracted_paper "text")])))
       = Ok tt
    /\ lookup (analysis_marker base "p.pdf") fs' = Some (File "report").
Proof.
  refine (proj1 (proj2 (proj2 (C5_report_is_written_in_place base no_pages
            (answers (Ok (PyStr "report"))) "p.pdf"
            (start (tree ["p.pdf"] [("p", extracted_paper "text")]))
            {| Analyzer.paper_dir := paper_extracted_path base "p.pdf";
               Analyzer.pages := [] |}
            "report" _ _ _ _ _)))); reflexivity.
Defined.

(** C5, as stated, fails: the save of the report ["ab"] can be interrupted
    in a state where the analysis marker holds ["a"], which is neither
    empty nor the report. *)
Lemma C5_counterexample :
  ~ Disk.crash_safe (save_ops (analysis_marker base "p.pdf") "ab")
      (analysis_marker base "p.pdf") "ab"
      (tree ["p.pdf"] [("p", extracted_paper "text")]).
Proof.
  intros H.
  pose (s := match Disk.run (save_ops (analysis_marker base "p.pdf") "a")
                     (tree ["p.pdf"] [("p", extracted_paper "text")]) with
             | Some s => s
             | None => File ""
             end).
  specialize (H s).
  assert (Hin : In s (Disk.crash_states (save_ops (analysis_marker base "p.pdf") "ab")
                        (tree ["p.pdf"] [("p", extracted_paper "text")]))).
  { vm_compute. do 3 right. left. reflexivity. }
  specialize (H Hin). vm_compute in H.
  destruct H as [H|H]; discriminate.
Qed.

(** The C10 theorem at a client whose call always fails. *)
Lemma C10_witness :
  Analyzer.OpenAI_analyze "gpt-5" no_b64 failing_client
    (tree ["p.pdf"] [("p", extracted_paper "text")])
    {| Analyzer.paper_dir := paper_extracted_path base "p.pdf"; Analyzer.pages := [] |}
  = Ok (PyStr "Error calling OpenAI: Connection error.").
Proof.
  refine (proj1 (C10_api_error_is_saved_as_the_report "gpt-5" no_b64 failing_client
            (tree ["p.pdf"] [("p", extracted_paper "text")])
            {| Analyzer.paper_dir := paper_extracted_path base "p.pdf";
               Analyzer.pages := [] |}
            _ (mk_exn OtherException "Connection error.") _ _)); reflexivity.
Defined.

End PipelineFacts.

(* ================================================================== *)
(** * The acquisition coordinator of [src/scraper.py] *)
(* ================================================================== *)

Module ScraperFacts.
Import Py FS FSFacts Scraper.

(** ** The transport-level retry *)

Lemma in_existsb_eqb (c : Z) (l : list Z) :
  existsb (Z.eqb c) l = true <-> In c l.
Proof.
  rewrite existsb_exists. split.
  - intros [x [Hin Hx]]. apply Z.eqb_eq in Hx. now subst.
  - intros H. exists c. split; auto. apply Z.eqb_refl.
Qed.

(** What [is_retry] asks of a response. *)
Lemma is_retry_true (r : Retry) (c : Z) (ra : option Z) :
  is_retry r c (has_retry_after ra) = true ->
  In c (status_forcelist r)
  \/ (ra <> None /\ In c RETRY_AFTER_STATUS_CODES).
Proof.
  unfold is_retry. intros H. apply orb_true_iff in H. destruct H as [H|H].
  - left. now apply in_existsb_eqb.
  - right. repeat (apply andb_true_iff in H; destruct H as [H ?]).
    split; [destruct ra; [discriminate|discriminate]|now apply in_existsb_eqb].
Qed.

Lemma is_retry_forcelist (r : Retry) (c : Z) (h : bool) :
  is_retry r c h = false -> ~ In c (status_forcelist r).
Proof.
  unfold is_retry. intros H Hin. apply orb_false_iff in H. destruct H as [H _].
  apply in_existsb_eqb in Hin. congruence.
Qed.

(** A retry that is granted: the policy it goes on with. *)
Lemma increment_some (r r' : Retry) (a : attempt) :
  increment r a = Some r' ->
  (total r' = total r - 1)%Z
  /\ (0 <= total r')%Z
  /\ (read r - 1 <= read r')%Z
  /\ (connect r - 1 <= connect r')%Z
  /\ backoff_factor r' = backoff_factor r
  /\ status_forcelist r' = status_forcelist r
  /\ respect_retry_after_header r' = respect_retry_after_header r
  /\ List.length (history r') = S (List.length (history r)).
Proof.
  unfold increment.
  match goal with |- context [is_exhausted ?x] => set (r1 := x) end.
  destruct (is_exhausted r1) eqn:E; [discriminate|].
  intros H. inversion H; subst r'. unfold is_exhausted in E. simpl in E.
  apply orb_false_iff in E. destruct E as [E _]. apply Z.ltb_ge in E.
  unfold r1. simpl. rewrite length_app. simpl.
  repeat split; try lia; destruct a; lia.
Qed.

(** A retry that is refused: [total] was used up. *)
Lemma increment_none (r : Retry) (a : attempt) :
  (0 <= total r)%Z -> (total r <= read r)%Z -> (total r <= connect r)%Z ->
  increment r a = None -> total r = 0%Z.
Proof.
  unfold increment.
  match goal with |- context [is_exhausted ?x] => set (r1 := x) end.
  intros H0 Hr Hc. destruct (is_exhausted r1) eqn:E; [|discriminate].
  intros _. unfold is_exhausted, r1 in E. simpl in E.
  repeat (apply orb_true_iff in E; destruct E as [E|E]);
    try discriminate; apply Z.ltb_lt in E; destruct a; lia.
Qed.

Lemma waits_cons (n : nat) (s : Z) (evs : list transport_event) :
  waits (Sent n :: Waited s :: evs) = s :: waits evs.
Proof. reflexivity. Qed.

(** One turn of the loop: retry, or hand the response to the caller. *)
Lemma urlopen_unfold (wire : nat -> attempt) (fuel : nat) (r : Retry) (n : nat) :
  urlopen (S fuel) wire r n
  = if match wire n with
       | Status c ra => is_retry r c (has_retry_after ra)
       | _ => true
       end
    then
      match increment r (wire n) with
      | Some r' =>
          match urlopen fuel wire r' (S n) with
          | Some (res, evs) => Some (res, Sent n :: Waited (sleep r' (wire n)) :: evs)
          | None => None
          end
      | None => Some (MaxRetryError (wire n), [Sent n])
      end
    else
      match wire n with
      | Status c _ => Some (Response c, [Sent n])
      | _ => None
      end.
Proof.
  cbn [urlopen]. destruct (wire n) as [| | |c ra]; reflexivity.
Qed.

(** What one request through [urlopen] does, for a policy whose [total]
    is the binding counter and whose history holds the attempts so far. *)
Lemma urlopen_spec (wire : nat -> attempt) (fuel : nat) :
  forall (r : Retry) (n : nat),
    (0 <= total r)%Z -> (total r <= read r)%Z -> (total r <= connect r)%Z ->
    fuel = S (Z.to_nat (total r)) ->
    List.length (history r) = n ->
    exists res evs,
      urlopen fuel wire r n = Some (res, evs)
      /\ (List.length (filter is_sent evs) <= fuel)%nat
      /\ (forall m, In (Sent (S m)) evs -> (n <= m)%nat ->
            match wire m with
            | Status c ra =>
                In c (status_forcelist r)
                \/ (ra <> None /\ In c RETRY_AFTER_STATUS_CODES)
            | _ => True
            end)
      /\ (forall m, In (Sent m) evs -> (n <= m)%nat)
      /\ (forall c, res = Response c -> ~ In c (status_forcelist r))
      /\ (forall c ra, wire n = Status c ra ->
            is_retry r c (has_retry_after ra) = false ->
            res = Response c /\ evs = [Sent n])
      /\ (forall j s, nth_error (waits evs) j = Some s ->
            s = match wire (n + j)%nat with
                | Status _ (Some seconds) =>
                    if respect_retry_after_header r && (0 <? seconds)%Z then seconds
                    else backoff_after (backoff_factor r) (S (n + j))
                | _ => backoff_after (backoff_factor r) (S (n + j))
                end)
      /\ List.length (filter is_sent evs) = S (List.length (waits evs))
      /\ (forall a, res = MaxRetryError a ->
            List.length (filter is_sent evs) = fuel).
Proof.
  induction fuel as [|fuel IH]; intros r n H0 Hr Hc Hf Hh; [discriminate|].
  rewrite urlopen_unfold.
  match goal with |- context [if ?b then _ else _] => destruct b eqn:Er end.
  - assert (Hwhy : match wire n with
                   | Status c ra =>
                       In c (status_forcelist r)
                       \/ (ra <> None /\ In c RETRY_AFTER_STATUS_CODES)
                   | _ => True
                   end).
    { destruct (wire n) as [| | |c ra]; auto. now apply is_retry_true. }
    assert (Hyes : forall c ra, wire n = Status c ra ->
                     is_retry r c (has_retry_after ra) = false -> False).
    { intros c ra Hw Hno. rewrite Hw, Hno in Er. discriminate. }
    destruct (increment r (wire n)) as [r'|] eqn:Ei.
    + destruct (increment_some r r' (wire n) Ei)
        as [Ht [Ht0 [Hrd [Hcn [Hbf [Hsf [Hra Hhl]]]]]]].
      destruct (IH r' (S n)) as [res [evs [Hs [Hl [Hm [Hn [Hres [_ [Hw [Hsw Hmax]]]]]]]]]];
        try lia.
      rewrite Hs. exists res, (Sent n :: Waited (sleep r' (wire n)) :: evs).
      split; [reflexivity|]. rewrite waits_cons. simpl filter. simpl List.length.
      split; [lia|]. split.
      { intros m Hin Hle. destruct Hin as [H|[H|H]]; try discriminate.
        - inversion H; subst. lia.
        - destruct (Nat.eq_dec m n) as [->|Hne]; [exact Hwhy|].
          rewrite <- Hsf. apply Hm; auto. lia. }
      split.
      { intros m Hin. destruct Hin as [H|[H|H]]; try discriminate.
        - inversion H; subst. lia.
        - apply Hn in H. lia. }
      split; [intros c Hc'; rewrite <- Hsf; now apply Hres|].
      split; [intros c ra Hw0 Hno; now elim (Hyes c ra Hw0 Hno)|].
      split.
      { intros j s Hj. destruct j as [|j]; simpl in Hj.
        - inversion Hj; subst s. rewrite Nat.add_0_r.
          unfold sleep, get_backoff_time. rewrite Hra, Hbf, Hhl, Hh. reflexivity.
        - specialize (Hw j s Hj). rewrite Hra, Hbf in Hw.
          now replace (n + S j)%nat with (S n + j)%nat by lia. }
      split; [now rewrite Hsw|].
      intros a0 Ha0. rewrite (Hmax a0 Ha0). lia.
    + pose proof (increment_none r (wire n) H0 Hr Hc Ei) as Ht.
      exists (MaxRetryError (wire n)), [Sent n]. simpl.
      split; [reflexivity|]. split; [lia|]. split.
      { intros m [H|[]] Hle. inversion H; subst. lia. }
      split; [intros m [H|[]]; inversion H; subst; lia|].
      split; [discriminate|].
      split; [intros c ra Hw0 Hno; now elim (Hyes c ra Hw0 Hno)|].
      split; [intros j s H; destruct j; discriminate|].
      split; [reflexivity|].
      intros a0 _. rewrite Hf, Ht. reflexivity.
  - destruct (wire n) as [| | |c ra] eqn:Ew; try discriminate.
    exists (Response c), [Sent n]. simpl.
    split; [reflexivity|]. split; [lia|]. split.
    { intros m [H|[]] Hle. inversion H; subst. lia. }
    split; [intros m [H|[]]; inversion H; subst; lia|].
    split.
    { intros c0 H. inversion H; subst. exact (is_retry_forcelist r c0 _ Er). }
    split; [intros c0 ra0 H _; now inversion H; subst|].
    split; [intros j s H; destruct j; discriminate|].
    split; [reflexivity|discriminate].
Qed.

(** On the session of [get_session] a response is handed over at once when
    its status is not listed and it carries no [Retry-After] header, or is
    none of 413, 429, 503. *)
Lemma is_retry_get_session (c : Z) (ra : option Z) :
  ~ In c retryable_statuses ->
  ra = None \/ ~ In c RETRY_AFTER_STATUS_CODES ->
  is_retry get_session c (has_retry_after ra) = false.
Proof.
  intros Hc Hra. unfold is_retry. apply orb_false_iff. split.
  - destruct (existsb (Z.eqb c) (status_forcelist get_session)) eqn:E; auto.
    apply in_existsb_eqb in E. contradiction.
  - destruct Hra as [->|Hra]; [reflexivity|].
    destruct (existsb (Z.eqb c) RETRY_AFTER_STATUS_CODES) eqn:E;
      [|now rewrite andb_false_r].
    apply in_existsb_eqb in E. contradiction.
Qed.

(** The backoff times of [get_session] before the retries 1 to 5. *)
Lemma backoff_after_get_session (k : nat) :
  (k < 5)%nat ->
  backoff_after (backoff_factor get_session) (S k) = nth k [0; 2; 4; 8; 16]%Z 0%Z.
Proof.
  intros H. do 5 (destruct k as [|k]; [reflexivity|]). lia.
Qed.

(** C8, amended.  A request through the session of [get_session] always
    ends, after at most 6 attempts (5 retries), and what [session.get]
    gives the fetch is the response the loop ends on, or [RetryError] when
    the retries ran out on responses and a [ConnectionError] when they ran
    out on failures, after 6 attempts.  An attempt is followed by another
    one only when it ended in a failure of the connection, in one of the
    statuses 429, 500, 502, 503, 504, or in a status 413, 429 or 503 whose
    response carries a [Retry-After] header, which the library honours by
    default.  A response with a listed status is never handed to the
    caller; a response with another status that carries no [Retry-After]
    header, or is none of 413, 429 and 503, is handed over at once, without
    a retry.  Before a retry the adapter waits the seconds that
    [Retry-After] names when the response has some, and else the backoff
    time: nothing before the first retry, then 2, 4, 8 and 16 seconds. *)
Theorem C8_transport_retry_policy (srv : server) (url : string) :
  total get_session = 5%Z
  /\ exists res evs,
       session_send (wire srv url) = Some (res, evs)
       /\ session_get_of srv url
          = match res with
            | Response code =>
                Ok {| status_code := code; chunks := fst (body srv url);
                      fin := snd (body srv url) |}
            | MaxRetryError reason => Raise (adapter_error reason)
            end
       /\ (List.length (filter is_sent evs) <= 6)%nat
       /\ (forall m, In (Sent (S m)) evs ->
             match wire srv url m with
             | Status c ra =>
                 In c retryable_statuses
                 \/ (ra <> None /\ In c [413; 429; 503]%Z)
             | _ => True
             end)
       /\ (forall c, res = Response c -> ~ In c retryable_statuses)
       /\ (forall c ra,
             wire srv url 0%nat = Status c ra ->
             ~ In c retryable_statuses ->
             ra = None \/ ~ In c [413; 429; 503]%Z ->
             res = Response c /\ evs = [Sent 0%nat])
       /\ (forall k s,
             nth_error (waits evs) k = Some s ->
             s = match wire srv url k with
                 | Status _ (Some seconds) =>
                     if (0 <? seconds)%Z then seconds
                     else nth k [0; 2; 4; 8; 16]%Z 0%Z
                 | _ => nth k [0; 2; 4; 8; 16]%Z 0%Z
                 end)
       /\ (List.length (waits evs) <= 5)%nat
       /\ (forall a, res = MaxRetryError a ->
             List.length (filter is_sent evs) = 6%nat).
Proof.
  split; [reflexivity|].
  destruct (urlopen_spec (wire srv url) (S (Z.to_nat (total get_session))) get_session
              0%nat)
    as [res [evs [Hs [Hl [Hm [_ [Hres [Hone [Hw [Hsw Hmax]]]]]]]]]];
    try (simpl; lia); try reflexivity.
  change (urlopen (S (Z.to_nat (total get_session))) (wire srv url) get_session 0)
    with (session_send (wire srv url)) in Hs.
  exists res, evs. split; [exact Hs|].
  assert (Hw5 : (List.length (waits evs) <= 5)%nat).
  { simpl in Hl. lia. }
  split; [unfold session_get_of; rewrite Hs; now destruct res|].
  split; [exact Hl|]. split; [intros m Hin; exact (Hm m Hin (Nat.le_0_l m))|].
  split; [exact Hres|]. split.
  { intros c ra H0 Hc Hra. apply (Hone c ra H0).
    now apply is_retry_get_session. }
  split.
  { intros k s Hk.
    assert (Hk5 : (k < 5)%nat).
    { assert (Hlt : (k < List.length (waits evs))%nat)
        by (apply nth_error_Some; rewrite Hk; discriminate).
      lia. }
    rewrite (Hw k s Hk). simpl Nat.add.
    rewrite (backoff_after_get_session k Hk5). reflexivity. }
  split; [exact Hw5|exact Hmax].
Qed.

(** The request that refutes the claim as stated. *)
Lemma entity_too_large_is_retried :
  session_send (wire Examples.entity_too_large "https://openreview.net/pdf?id=abc1")
  = Some (Response 200, [Sent 0; Waited 7; Sent 1]).
Proof. reflexivity. Qed.

(** C8, as stated, fails: the first attempt on [Examples.entity_too_large]
    ends in the status 413, which is not listed, with [Retry-After: 7]; the
    adapter waits 7 seconds and sends a second attempt. *)
Lemma C8_counterexample : ~ retries_only_listed_statuses.
Proof.
  intros H.
  specialize (H (wire Examples.entity_too_large "https://openreview.net/pdf?id=abc1")
                (Response 200) [Sent 0%nat; Waited 7%Z; Sent 1%nat] 0%nat eq_refl).
  simpl in H. unfold retryable_statuses in H.
  destruct H as [H|[H|[H|[H|[H|[]]]]]]; try discriminate.
  right. right. left. reflexivity.
Qed.

(** The requests of the other servers: two retries, the first at once and
    the second after 2 seconds; and six attempts on a server that is
    down, with the waits 0, 2, 4, 8, 16. *)
Lemma busy_twice_is_retried :
  session_send (wire Examples.busy_twice "u")
  = Some (Response 200, [Sent 0; Waited 0; Sent 1; Waited 2; Sent 2]).
Proof. reflexivity. Qed.

Lemma down_runs_out :
  session_send (wire Examples.down "u")
  = Some (MaxRetryError ConnectFailed,
          [Sent 0; Waited 0; Sent 1; Waited 2; Sent 2; Waited 4; Sent 3; Waited 8;
           Sent 4; Waited 16; Sent 5]).
Proof. reflexivity. Qed.

(** The fetch goes through that session: [download_pdf] on the busy server
    writes the file after the two retries, and on the server that is down
    it reports a network error and leaves no file. *)
Lemma download_through_the_session :
  fst (Scraper.download_pdf (session_get_of Examples.busy_twice) Examples.downloads
         Examples.paper1 (Examples.download_tree []))
  = {| status := Success; file := filename_of Examples.paper1;
       msg := "Downloaded"; title := None |}
  /\ status (fst (Scraper.download_pdf (session_get_of Examples.down)
                    Examples.downloads Examples.paper1 (Examples.download_tree [])))
     = Error
  /\ lookup (Examples.downloads ++ [filename_of Examples.paper1])
       (snd (Scraper.download_pdf (session_get_of Examples.down)
               Examples.downloads Examples.paper1 (Examples.download_tree [])))
     = None.
Proof. vm_compute. repeat split; reflexivity. Qed.

(** ** [download_pdf] *)

Section Download.

Variable session_get : string -> result response.
Variable output_dir : FS.path.

Local Abbreviation filepath := (fun p : note => output_dir ++ [filename_of p]).
Local Abbreviation fetch := (Scraper.fetch session_get output_dir).
Local Abbreviation download_pdf := (Scraper.download_pdf session_get output_dir).
Local Abbreviation on_exception := (Scraper.on_exception output_dir).

Lemma filepath_not_root (p : note) : filepath p <> [].
Proof. destruct output_dir; discriminate. Qed.

Lemma exists_remove (q : FS.path) (fs fs' : node) :
  q <> [] -> remove q fs = Some fs' -> exists_ q fs' = false.
Proof.
  intros Hq. unfold remove.
  destruct (lookup q fs) as [[d|sz es]|]; try discriminate.
  intros H. inversion H; subst. unfold exists_. now rewrite lookup_detach.
Qed.

Lemma remove_file (q : FS.path) (d : string) (fs : node) :
  lookup q fs = Some (File d) -> remove q fs = Some (detach q fs).
Proof. intros H. unfold remove. now rewrite H. Qed.

(** The chunks go to a file that stays a file. *)
Lemma write_chunks_file (q : FS.path) (cs : list string) :
  forall (fs fs' : node) (d : string),
    lookup q fs = Some (File d) ->
    write_chunks q cs fs = Some fs' ->
    exists d', lookup q fs' = Some (File d').
Proof.
  induction cs as [|c cs IH]; intros fs fs' d Hl Hw; simpl in Hw.
  - inversion Hw; subst. eauto.
  - destruct (String.length c =? 0)%nat; [eapply IH; eauto|].
    destruct (append_file q c fs) as [fs1|] eqn:E; [|discriminate].
    unfold append_file in E. rewrite Hl in E.
    eapply IH; [|exact Hw]. eapply lookup_write_file; eauto.
Qed.

(** The inner handler, on a network-level exception, returns an error and
    leaves no file, provided what is at the path is not a directory. *)
Lemma on_exception_network (p : note) (e : exn) (fs : node) :
  is_network_error (exn_cls e) = true ->
  isdir (filepath p) fs = false ->
  status (fst (on_exception p e fs)) = Error
  /\ exists_ (filepath p) (snd (on_exception p e fs)) = false.
Proof.
  intros He Hd. unfold Scraper.on_exception. rewrite He.
  destruct (exists_ (filepath p) fs) eqn:Ex; [|split; [reflexivity|exact Ex]].
  unfold exists_, isdir in *.
  destruct (lookup (filepath p) fs) as [[d|sz es]|] eqn:El; try discriminate.
  rewrite (remove_file _ _ _ El). simpl. split; [reflexivity|].
  rewrite lookup_detach; [reflexivity|apply filepath_not_root].
Qed.

(** A fetch never reports [Skipped]. *)
Lemma fetch_not_skipped (p : note) (fs : node) :
  status (fst (fetch p fs)) <> Skipped.
Proof.
  assert (Hon : forall e fs0, status (fst (on_exception p e fs0)) <> Skipped).
  { intros e fs0. unfold Scraper.on_exception.
    destruct (is_network_error (exn_cls e)); [|discriminate].
    destruct (exists_ (filepath p) fs0); [|discriminate].
    destruct (remove (filepath p) fs0); discriminate. }
  unfold Scraper.fetch.
  destruct (session_get (pdf_url_of p)) as [resp|e]; [|apply Hon].
  destruct (status_code resp =? 200)%Z; [|discriminate].
  destruct (write_file (filepath p) "" fs) as [fs1|]; [|discriminate].
  destruct (write_chunks (filepath p) (chunks resp) fs1) as [fs2|]; [|discriminate].
  destruct (fin resp); [discriminate|apply Hon].
Qed.

(** A fetch that starts with nothing at the path and meets a network-level
    exception returns an error and leaves nothing at the path. *)
Lemma fetch_network_failure (p : note) (fs : node) :
  exists_ (filepath p) fs = false ->
  network_failure (session_get (pdf_url_of p)) ->
  status (fst (fetch p fs)) = Error
  /\ exists_ (filepath p) (snd (fetch p fs)) = false.
Proof.
  intros Ex Hn. unfold Scraper.fetch.
  destruct (session_get (pdf_url_of p)) as [resp|e]; simpl in Hn.
  - destruct Hn as [H200 Hfin]. rewrite H200. simpl.
    destruct (write_file (filepath p) "" fs) as [fs1|] eqn:E1;
      [|split; [reflexivity|exact Ex]].
    pose proof (lookup_write_file _ _ _ _ E1) as Hl1.
    destruct (write_chunks (filepath p) (chunks resp) fs1) as [fs2|] eqn:E2.
    + destruct (write_chunks_file _ _ _ _ _ Hl1 E2) as [d' Hl2].
      destruct (fin resp) as [|e]; [contradiction|].
      apply on_exception_network; auto.
      unfold isdir. now rewrite Hl2.
    + (* the chunks of an opened file are always written *)
      exfalso. clear - Hl1 E2. revert fs1 Hl1 E2.
      generalize (@EmptyString). induction (chunks resp) as [|c cs IH];
        intros d fs1 Hl1 E2; simpl in E2; [discriminate|].
      destruct (String.length c =? 0)%nat; [eapply IH; eauto|].
      unfold append_file in E2. rewrite Hl1 in E2.
      destruct (write_file_over_file (filepath p) (d ++ c) d fs1
                  (filepath_not_root p) Hl1) as [fs' Hw].
      rewrite Hw in E2. eapply IH; [|exact E2].
      eapply lookup_write_file; eauto.
  - apply on_exception_network; auto.
    unfold isdir, exists_ in *.
    destruct (lookup (filepath p) fs); [discriminate|reflexivity].
Qed.

(** C4.  In [download_pdf]: a file that is already at the target path with
    a size at or below the threshold of 1024 bytes is deleted and the fetch
    runs on the disk without it; the outcome is [Skipped] exactly when
    something of a size strictly above the threshold is at the path, and
    then nothing is touched; and when a network-level exception
    (chunked-encoding error, protocol error, incomplete read, connection
    error) comes out of the request or out of the stream, the outcome is
    an error and no file, partial or other, is left at the path. *)
Theorem C4_download_pdf_leaves_no_partial_file (p : note) (fs : node) :
  (forall d,
      lookup (filepath p) fs = Some (File d) ->
      (Z.of_nat (String.length d) <= min_pdf_size)%Z ->
      exists fs1,
        remove (filepath p) fs = Some fs1
        /\ exists_ (filepath p) fs1 = false
        /\ download_pdf p fs = fetch p fs1)
  /\ (status (fst (download_pdf p fs)) = Skipped
      <-> exists sz, getsize (filepath p) fs = Some sz /\ (sz > min_pdf_size)%Z)
  /\ (status (fst (download_pdf p fs)) = Skipped -> snd (download_pdf p fs) = fs)
  /\ (isdir (filepath p) fs = false ->
      status (fst (download_pdf p fs)) <> Skipped ->
      network_failure (session_get (pdf_url_of p)) ->
      status (fst (download_pdf p fs)) = Error
      /\ exists_ (filepath p) (snd (download_pdf p fs)) = false).
Proof.
  split; [|split; [|split]].
  - intros d Hl Hsz. exists (detach (filepath p) fs).
    rewrite (remove_file _ _ _ Hl). split; [reflexivity|]. split.
    + unfold exists_. rewrite lookup_detach; [reflexivity|apply filepath_not_root].
    + unfold Scraper.download_pdf, exists_, getsize. rewrite Hl.
      destruct (Z.of_nat (String.length d) >? min_pdf_size)%Z eqn:E.
      * apply Z.gtb_lt in E. lia.
      * now rewrite (remove_file _ _ _ Hl).
  - unfold Scraper.download_pdf, exists_, getsize.
    destruct (lookup (filepath p) fs) as [[d|sz es]|] eqn:El.
    + destruct (Z.of_nat (String.length d) >? min_pdf_size)%Z eqn:E.
      * simpl. split; auto. intros _. eexists. split; eauto.
        apply Z.gtb_lt in E. lia.
      * rewrite (remove_file _ _ _ El). split.
        -- intros H. now apply fetch_not_skipped in H.
        -- intros [sz [Hs Hgt]]. inversion Hs; subst.
           rewrite Z.gtb_ltb in E. apply Z.ltb_ge in E. lia.
    + destruct (sz >? min_pdf_size)%Z eqn:E.
      * simpl. split; auto. intros _. eexists. split; eauto.
        apply Z.gtb_lt in E. lia.
      * unfold remove. rewrite El. simpl. split; [discriminate|].
        intros [sz' [Hs Hgt]]. inversion Hs; subst.
        rewrite Z.gtb_ltb in E. apply Z.ltb_ge in E. lia.
    + split.
      * intros H. now apply fetch_not_skipped in H.
      * intros [sz [Hs _]]. discriminate.
  - unfold Scraper.download_pdf, exists_, getsize.
    destruct (lookup (filepath p) fs) as [[d|sz es]|] eqn:El.
    + destruct (Z.of_nat (String.length d) >? min_pdf_size)%Z; [reflexivity|].
      rewrite (remove_file _ _ _ El). intros H. now apply fetch_not_skipped in H.
    + destruct (sz >? min_pdf_size)%Z; [reflexivity|].
      unfold remove. rewrite El. discriminate.
    + intros H. now apply fetch_not_skipped in H.
  - intros Hd. unfold Scraper.download_pdf, exists_, getsize, isdir in *.
    destruct (lookup (filepath p) fs) as [[d|sz es]|] eqn:El; try discriminate.
    + destruct (Z.of_nat (String.length d) >? min_pdf_size)%Z.
      * intros H. now elim H.
      * rewrite (remove_file _ _ _ El). intros _ Hn.
        apply fetch_network_failure; auto.
        unfold exists_. rewrite lookup_detach; [reflexivity|apply filepath_not_root].
    + intros _ Hn. apply fetch_network_failure; auto.
      unfold exists_. now rewrite El.
Qed.

End Download.

(** The C4 theorem at a paper whose file is there with 4 bytes, on a
    server that breaks the stream after two chunks. *)
Lemma C4_witness :
  status (fst (Scraper.download_pdf Examples.broken_stream Examples.downloads
                 Examples.paper1
                 (Examples.download_tree
                    [(filename_of Examples.paper1, File "tiny")]))) = Error
  /\ exists_ (Examples.downloads ++ [filename_of Examples.paper1])
       (snd (Scraper.download_pdf Examples.broken_stream Examples.downloads
               Examples.paper1
               (Examples.download_tree
                  [(filename_of Examples.paper1, File "tiny")]))) = false.
Proof.
  refine (proj2 (proj2 (proj2 (C4_download_pdf_leaves_no_partial_file
            Examples.broken_stream Examples.downloads Examples.paper1
            (Examples.download_tree [(filename_of Examples.paper1, File "tiny")]))))
            _ _ _).
  - reflexivity.
  - vm_compute. discriminate.
  - vm_compute. split; reflexivity.
Defined.

(** ** The retry loop of [main] *)

Section Main.
Variable net : nat -> string -> result response.
Variable output_dir : FS.path.
Variable as_completed : list note -> list note.
Hypothesis as_completed_perm : forall l, Permutation (as_completed l) l.

Local Abbreviation process_downloads i :=
  (Scraper.process_downloads (net i) output_dir as_completed).

Lemma run_batch_fst (get : string -> result response) (ps : list note) :
  forall fs, map fst (fst (run_batch get output_dir ps fs)) = ps.
Proof.
  induction ps as [|p ps IH]; intros fs; simpl; auto.
  destruct (Scraper.download_pdf get output_dir p fs) as [o fs1].
  specialize (IH fs1).
  destruct (run_batch get output_dir ps fs1) as [rs fs2]. simpl in *.
  now rewrite IH.
Qed.

Lemma in_map_fst_filter {A B} (f : A * B -> bool) (l : list (A * B)) (x : A) :
  In x (map fst (filter f l)) -> In x (map fst l).
Proof.
  induction l as [|y l IH]; simpl; auto.
  destruct (f y); simpl; intuition.
Qed.

Lemma NoDup_map_fst_filter {A B} (f : A * B -> bool) (l : list (A * B)) :
  NoDup (map fst l) -> NoDup (map fst (filter f l)).
Proof.
  induction l as [|y l IH]; simpl; intros H; auto.
  inversion H; subst. destruct (f y); simpl; auto.
  constructor; auto. intros Hin. now apply in_map_fst_filter in Hin.
Qed.

Lemma process_downloads_incl (i : nat) (ps : list note) (fs : node) :
  incl (fst (process_downloads i ps fs)) ps.
Proof.
  unfold Scraper.process_downloads.
  pose proof (run_batch_fst (net i) (as_completed ps) fs) as H.
  destruct (run_batch (net i) output_dir (as_completed ps) fs) as [rs fs'].
  simpl in *. intros p Hp. apply in_map_fst_filter in Hp. rewrite H in Hp.
  eapply Permutation_in; [apply as_completed_perm|exact Hp].
Qed.

Lemma process_downloads_NoDup (i : nat) (ps : list note) (fs : node) :
  NoDup ps -> NoDup (fst (process_downloads i ps fs)).
Proof.
  intros Hnd. unfold Scraper.process_downloads.
  pose proof (run_batch_fst (net i) (as_completed ps) fs) as H.
  destruct (run_batch (net i) output_dir (as_completed ps) fs) as [rs fs'].
  simpl in *. apply NoDup_map_fst_filter. rewrite H.
  eapply Permutation_NoDup; [apply Permutation_sym, as_completed_perm|exact Hnd].
Qed.

(** Find which round an index names. *)
Ltac pick_round H :=
  repeat match type of H with
         | nth_error _ ?i = Some _ => destruct i; simpl in H
         end;
  try discriminate; inversion H; subst; clear H.

(** C6.  In the retry loop of [main]: the first round runs on all the
    papers and every later round on exactly the papers whose fetch ended in
    an error in the round before it; a round is followed by another one
    only when it left failures, and there are at least one and at most 3
    rounds, the last of which either left no failure or is the third; and
    when the last round left failures, each of them (none is repeated) has
    its line, made of its identifier and its title, in
    [failed_downloads.txt]. *)
Theorem C6_retry_rounds_and_ledger (papers : list note) (fs : node) :
  papers <> [] ->
  NoDup papers ->
  exists r,
    Scraper.main net output_dir as_completed papers fs = Some r
    /\ well_chained papers (run_rounds r)
    /\ (forall i rd,
          nth_error (run_rounds r) i = Some rd ->
          failed rd = fst (process_downloads i (batch rd) (before rd))
          /\ incl (failed rd) (batch rd)
          /\ (S i < List.length (run_rounds r) -> failed rd <> [])%nat)
    /\ (1 <= List.length (run_rounds r) <= max_retries)%nat
    /\ (failed (last (run_rounds r) (mk_round [] fs [])) = []
        \/ List.length (run_rounds r) = max_retries)
    /\ (failed (last (run_rounds r) (mk_round [] fs [])) <> [] ->
        ledger r = Some (map ledger_line (failed (last (run_rounds r) (mk_round [] fs []))))
        /\ NoDup (failed (last (run_rounds r) (mk_round [] fs [])))
        /\ forall p, ledger_line p = (id p ++ " - " ++ title_of p ++ nl)%string).
Proof.
  intros Hne Hnd. unfold Scraper.main.
  assert (Hemp : is_empty papers = false) by (destruct papers; [now elim Hne|reflexivity]).
  rewrite Hemp. unfold max_retries.
  cbn [retry_loop current_batch retry_count disk rounds].
  rewrite Hemp. cbn [negb andb Nat.ltb Nat.leb app].
  pose proof (process_downloads_incl 0 papers fs) as I0.
  pose proof (process_downloads_NoDup 0 papers fs Hnd) as N0.
  destruct (Scraper.process_downloads (net 0) output_dir as_completed papers fs)
    as [f0 fs0] eqn:E0.
  cbn [fst] in I0, N0.
  destruct f0 as [|a0 f0'] eqn:F0; cbn [is_empty negb andb].
  { eexists. split; [reflexivity|].
    cbn [run_rounds ledger current_batch rounds last failed].
    split; [simpl; auto|]. split.
    { intros i rd Hi. pick_round Hi. cbn [failed batch before].
      rewrite E0. repeat split; auto. simpl. lia. }
    split; [simpl; lia|]. split; [now left|]. intros H. now elim H. }
  rewrite <- F0 in *.
  assert (Z0 : f0 <> []) by (subst; discriminate).
  pose proof (process_downloads_incl 1 f0 fs0) as I1.
  pose proof (process_downloads_NoDup 1 f0 fs0 N0) as N1.
  destruct (Scraper.process_downloads (net 1) output_dir as_completed f0 fs0)
    as [f1 fs1] eqn:E1.
  cbn [fst] in I1, N1.
  destruct f1 as [|a1 f1'] eqn:F1; cbn [is_empty negb andb].
  { eexists. split; [reflexivity|].
    cbn [run_rounds ledger current_batch rounds last failed].
    split; [simpl; auto|]. split.
    { intros i rd Hi. pick_round Hi; cbn [failed batch before].
      - rewrite E0. repeat split; auto.
      - rewrite E1. repeat split; auto. simpl. lia. }
    split; [simpl; lia|]. split; [now left|]. intros H. now elim H. }
  rewrite <- F1 in *.
  assert (Z1 : f1 <> []) by (subst; discriminate).
  pose proof (process_downloads_incl 2 f1 fs1) as I2.
  pose proof (process_downloads_NoDup 2 f1 fs1 N1) as N2.
  destruct (Scraper.process_downloads (net 2) output_dir as_completed f1 fs1)
    as [f2 fs2] eqn:E2.
  cbn [fst] in I2, N2.
  destruct f2 as [|a2 f2'] eqn:F2; cbn [is_empty negb andb].
  { eexists. split; [reflexivity|].
    cbn [run_rounds ledger current_batch rounds last failed].
    split; [simpl; auto|]. split.
    { intros i rd Hi. pick_round Hi; cbn [failed batch before].
      - rewrite E0. repeat split; auto.
      - rewrite E1. repeat split; auto.
      - rewrite E2. repeat split; auto. simpl. lia. }
    split; [simpl; lia|]. split; [now left|]. intros H. now elim H. }
  rewrite <- F2 in *.
  assert (Z2 : f2 <> []) by (subst; discriminate).
  eexists. split; [reflexivity|].
  cbn [run_rounds ledger current_batch rounds last failed].
  split; [simpl; auto|]. split.
  { intros i rd Hi. pick_round Hi; cbn [failed batch before].
    - rewrite E0. repeat split; auto.
    - rewrite E1. repeat split; auto.
    - rewrite E2. repeat split; auto. }
  split; [simpl; lia|]. split; [now right|]. intros _.
  split; [|split; [exact N2|reflexivity]].
  destruct f2; [now elim Z2|reflexivity].
Qed.
End Main.

(** A round without failures ends the loop with [current_batch] still
    holding the batch of that round: the ledger then lists the papers of
    that batch, which were all fetched. *)
Lemma ledger_after_a_clean_round :
  exists r,
    Scraper.main Examples.serves_pdf Examples.downloads Examples.in_order
      [Examples.paper1] (Examples.download_tree []) = Some r
    /\ map failed (run_rounds r) = [[]]
    /\ ledger r = Some [ledger_line Examples.paper1].
Proof.
  eexists. split; [vm_compute; reflexivity|]. split; reflexivity.
Qed.

(** The C6 theorem at two papers and a server that always answers 503. *)
Lemma C6_witness :
  exists r,
    Scraper.main Examples.always_503 Examples.downloads Examples.in_order
      [Examples.paper1; Examples.paper2] (Examples.download_tree []) = Some r
    /\ List.length (run_rounds r) = 3%nat
    /\ ledger r = Some [ledger_line Examples.paper1; ledger_line Examples.paper2].
Proof.
  destruct (C6_retry_rounds_and_ledger Examples.always_503 Examples.downloads
              Examples.in_order (fun l => Permutation_refl l)
              [Examples.paper1; Examples.paper2] (Examples.download_tree []))
    as [r [Hr _]].
  - discriminate.
  - repeat constructor; simpl; intuition discriminate.
  - exists r. split; [exact Hr|].
    vm_compute in Hr. inversion Hr; subst. split; reflexivity.
Defined.

End ScraperFacts.

(* ================================================================== *)
(** * The perpetual-restart wrapper of [run_ocr_robust.py] *)
(* ================================================================== *)

Module RobustRunnerFacts.
Import FS RobustRunner.

Section Run.

Variable engine : nat -> Z.

(** The loop ends at the first clean exit, given fuel for it. *)
Lemma run_ocr_finishes (k : nat) :
  forall n fuel,
    (forall i, (i < k)%nat -> engine (n + i) <> 0%Z) ->
    engine (n + k) = 0%Z ->
    (k < fuel)%nat ->
    run_ocr engine fuel n = Some (crashes engine n k ++ [Started; Finished]).
Proof.
  induction k as [|k IH]; intros n fuel Hnz Hz Hf.
  - destruct fuel as [|fuel]; [lia|]. simpl.
    rewrite Nat.add_0_r in Hz. now rewrite Hz.
  - destruct fuel as [|fuel]; [lia|]. simpl.
    pose proof (Hnz 0%nat ltac:(lia)) as H0. rewrite Nat.add_0_r in H0.
    destruct (engine n =? 0)%Z eqn:E; [apply Z.eqb_eq in E; contradiction|].
    rewrite (IH (S n) fuel).
    + reflexivity.
    + intros i Hi. replace (S n + i)%nat with (n + S i)%nat by lia.
      apply Hnz. lia.
    + replace (S n + k)%nat with (n + S k)%nat by lia. exact Hz.
    + lia.
Qed.

(** As long as every exit is non-zero the loop goes on. *)
Lemma run_ocr_goes_on (fuel : nat) :
  forall n,
    (forall i, (i < fuel)%nat -> engine (n + i) <> 0%Z) ->
    run_ocr engine fuel n = None.
Proof.
  induction fuel as [|fuel IH]; intros n Hnz; [reflexivity|]. simpl.
  pose proof (Hnz 0%nat ltac:(lia)) as H0. rewrite Nat.add_0_r in H0.
  destruct (engine n =? 0)%Z eqn:E; [apply Z.eqb_eq in E; contradiction|].
  rewrite IH; [reflexivity|].
  intros i Hi. replace (S n + i)%nat with (n + S i)%nat by lia. apply Hnz. lia.
Qed.

(** Every crash in the trace is one launch. *)
Lemma launches_crashes (k : nat) :
  forall n, launches (crashes engine n k) = k.
Proof.
  unfold launches, crashes.
  induction k as [|k IH]; intros n; simpl; auto.
Qed.

(** C7.  Without the entry point in the working directory the wrapper
    exits with code 1 and launches nothing.  With it, when launch [k] is
    the first to exit with code zero, the wrapper has launched the engine
    [k + 1] times, each of the [k] crashes being followed by a sleep of 5
    seconds and a new launch, and it ends there with a normal exit; and as
    long as every exit is non-zero the loop has not ended. *)
Theorem C7_wrapper_restarts_until_clean_exit (cwd : node) :
  (exists_ entry_point cwd = false ->
   forall fuel, script engine fuel cwd = Some (1%Z, []))
  /\ (exists_ entry_point cwd = true ->
      (forall k fuel,
          (forall i, (i < k)%nat -> engine i <> 0%Z) ->
          engine k = 0%Z ->
          (k < fuel)%nat ->
          script engine fuel cwd
            = Some (0%Z, crashes engine 0 k ++ [Started; Finished])
          /\ launches (crashes engine 0 k ++ [Started; Finished]) = S k)
      /\ (forall fuel,
            (forall i, (i < fuel)%nat -> engine i <> 0%Z) ->
            script engine fuel cwd = None)).
Proof.
  split; [|split].
  - intros H fuel. unfold script. now rewrite H.
  - intros k fuel Hnz Hz Hf. split.
    + unfold script. rewrite H. simpl.
      now rewrite (run_ocr_finishes k 0 fuel Hnz Hz Hf).
    + unfold launches. rewrite filter_app, length_app.
      fold (launches (crashes engine 0 k)). rewrite launches_crashes.
      simpl. lia.
  - intros fuel Hnz. unfold script. rewrite H. simpl.
    now rewrite (run_ocr_goes_on fuel 0 Hnz).
Qed.

End Run.

(** The C7 theorem at an engine that crashes twice and then finishes. *)
Lemma C7_witness :
  script Examples.crashes_twice 3 Examples.with_entry_point
  = Some (0%Z, [Started; Crashed 139; Slept 5;
                Started; Crashed 1; Slept 5;
                Started; Finished]).
Proof.
  refine (proj1 (proj1 (proj2 (C7_wrapper_restarts_until_clean_exit
            Examples.crashes_twice Examples.with_entry_point) _)
            2%nat 3%nat _ _ _)).
  - reflexivity.
  - intros i Hi. destruct i as [|[|i]]; simpl; [discriminate|discriminate|lia].
  - reflexivity.
  - lia.
Defined.

End RobustRunnerFacts.

(* ================================================================== *)
(** * More on the acquisition coordinator *)
(* ================================================================== *)

Module ScraperMore.
Import Py FS FSFacts Scraper Chars.

(** ** File names *)

Lemma all_filter_chars (f : ascii -> bool) (s : string) :
  all f (filter_chars f s) = true.
Proof.
  induction s as [|c s IH]; simpl; auto.
  destruct (f c) eqn:E; simpl; auto. now rewrite E.
Qed.

Lemma all_rstrip (f : ascii -> bool) (s : string) :
  all f s = true -> all f (rstrip s) = true.
Proof.
  induction s as [|c s IH]; simpl; auto.
  intros H. apply andb_true_iff in H. destruct H as [Hc Hs].
  specialize (IH Hs).
  destruct (rstrip s) as [|c' r] eqn:E.
  - destruct (Ascii.eqb c " "); simpl; auto. now rewrite Hc.
  - simpl in *. now rewrite Hc, IH.
Qed.

Lemma last_char_rstrip (s : string) :
  last_char (rstrip s) <> Some " "%char.
Proof.
  induction s as [|c s IH]; simpl; [discriminate|].
  destruct (rstrip s) as [|c' r] eqn:E.
  - destruct (Ascii.eqb c " ") eqn:Ec; simpl; [discriminate|].
    intros H. inversion H; subst. now rewrite Ascii.eqb_refl in Ec.
  - exact IH.
Qed.

Lemma all_replace_char (a b : ascii) (f g : ascii -> bool) (s : string) :
  (forall c, f c = true -> g (if Ascii.eqb c a then b else c) = true) ->
  all f s = true -> all g (replace_char a b s) = true.
Proof.
  intros Hfg. induction s as [|c s IH]; simpl; auto.
  intros H. apply andb_true_iff in H. destruct H as [Hc Hs].
  now rewrite (Hfg c Hc), (IH Hs).
Qed.

Lemma last_char_replace_char (a b : ascii) (s : string) :
  last_char (replace_char a b s)
  = option_map (fun c => if Ascii.eqb c a then b else c) (last_char s).
Proof.
  induction s as [|c s IH]; simpl; auto.
  destruct s as [|c' s]; simpl in *; auto.
Qed.

Lemma keep_char_underscore : keep_char "_" = false.
Proof. reflexivity. Qed.

Lemma last_char_all (f : ascii -> bool) (s : string) (c : ascii) :
  all f s = true -> last_char s = Some c -> f c = true.
Proof.
  induction s as [|c0 s IH]; simpl; [discriminate|].
  intros H. apply andb_true_iff in H. destruct H as [Hc Hs].
  destruct s as [|c1 s].
  - intros E. inversion E; subst. exact Hc.
  - apply IH. exact Hs.
Qed.

(** X1.  For a title of the ASCII range, the sanitized title holds
    letters, digits and underscores only (no blank, no dot, no path
    separator), and it never ends in an underscore. *)
Theorem X1_safe_title_is_a_plain_word (t : string) :
  ascii_only t = true ->
  all word_char (safe_title t) = true
  /\ last_char (safe_title t) <> Some "_"%char.
Proof.
  intros _. unfold safe_title. split.
  - apply all_replace_char with (f := keep_char).
    + intros c Hc. unfold word_char.
      destruct (Ascii.eqb c " ") eqn:E; [reflexivity|].
      now rewrite Hc, E.
    + apply all_rstrip, all_filter_chars.
  - rewrite last_char_replace_char.
    pose proof (last_char_rstrip (filter_chars keep_char t)) as Hsp.
    pose proof (all_rstrip keep_char _ (all_filter_chars keep_char t)) as Hall.
    destruct (last_char (rstrip (filter_chars keep_char t))) as [c|] eqn:E;
      simpl; [|discriminate].
    destruct (Ascii.eqb c " ") eqn:Ec.
    + apply Ascii.eqb_eq in Ec. subst. now elim Hsp.
    + intros H. inversion H; subst.
      pose proof (last_char_all keep_char _ _ Hall E) as Hk.
      rewrite keep_char_underscore in Hk. discriminate.
Qed.

(** X1 at a title with a dot, a slash and blanks at its end. *)
Lemma X1_witness :
  all word_char (safe_title "Attention Is All/You Need.  ") = true
  /\ last_char (safe_title "Attention Is All/You Need.  ") <> Some "_"%char.
Proof.
  apply (X1_safe_title_is_a_plain_word "Attention Is All/You Need.  ").
  reflexivity.
Defined.

Lemma append_assoc (a b c : string) : ((a ++ b) ++ c = a ++ (b ++ c))%string.
Proof. induction a as [|x a IH]; simpl; auto. now rewrite IH. Qed.

Lemma length_append (a b : string) :
  String.length (a ++ b) = (String.length a + String.length b)%nat.
Proof. induction a as [|x a IH]; simpl; auto. Qed.

Lemma substring_append_r (a b : string) :
  substring (String.length a) (String.length b) (a ++ b) = b.
Proof.
  induction a as [|x a IH]; simpl; auto.
  induction b as [|y b IHb]; simpl; auto. now rewrite IHb.
Qed.

Lemma substring_append_l (a b : string) :
  substring 0 (String.length a) (a ++ b) = a.
Proof.
  induction a as [|x a IH]; simpl.
  - now destruct b.
  - now rewrite IH.
Qed.

Lemma endswith_append (a b : string) : endswith (a ++ b) b = true.
Proof.
  unfold endswith. rewrite length_append.
  replace (String.length a + String.length b - String.length b)%nat
    with (String.length a) by lia.
  rewrite substring_append_r, String.eqb_refl.
  rewrite andb_true_r. apply Nat.leb_le. lia.
Qed.

Lemma rfind_dot_pdf (s : string) :
  Pipeline.rfind_dot (s ++ ".pdf") = Some (String.length s).
Proof.
  induction s as [|c s IH]; [reflexivity|].
  simpl. now rewrite IH.
Qed.

Lemma all_dots_all (s : string) :
  Pipeline.all_dots s = all (fun c => Ascii.eqb c ".") s.
Proof. induction s as [|c s IH]; simpl; auto. now rewrite IH. Qed.

Lemma all_append (f : ascii -> bool) (a b : string) :
  all f (a ++ b) = all f a && all f b.
Proof.
  induction a as [|x a IH]; simpl; auto. now rewrite IH, andb_assoc.
Qed.

(** The stem of a name that ends in [.pdf]. *)
Lemma splitext_root_pdf (s : string) :
  Pipeline.splitext_root (s ++ ".pdf")
  = if Pipeline.all_dots s then (s ++ ".pdf")%string else s.
Proof.
  unfold Pipeline.splitext_root. rewrite rfind_dot_pdf, substring_append_l.
  reflexivity.
Qed.

(** X2.  The file name [download_pdf] gives a paper ends in [.pdf], so the
    pipeline's discovery keeps it when it filters the listing of the
    download directory (with no limit set), and the name the pipeline
    derives for the paper's output directory is the file name without that
    extension. *)
Theorem X2_downloaded_files_are_discovered (p : note) :
  endswith (filename_of p) ".pdf" = true
  /\ (forall a names,
        Pipeline.limit_given a = None ->
        In (filename_of p) names ->
        In (filename_of p) (Pipeline.select_pdfs a names))
  /\ Pipeline.splitext_root (filename_of p)
     = (safe_title (title_of p) ++ "_" ++ id p)%string.
Proof.
  assert (E : filename_of p
              = ((safe_title (title_of p) ++ "_" ++ id p) ++ ".pdf")%string).
  { unfold filename_of. now rewrite !append_assoc. }
  assert (He : endswith (filename_of p) ".pdf" = true).
  { rewrite E. apply endswith_append. }
  split; [exact He|]. split.
  - intros a names Hl Hin. unfold Pipeline.select_pdfs. rewrite Hl.
    apply filter_In. split; assumption.
  - rewrite E, splitext_root_pdf.
    assert (Hd : Pipeline.all_dots (safe_title (title_of p) ++ "_" ++ id p) = false).
    { rewrite all_dots_all, all_append. simpl. apply andb_false_r. }
    now rewrite Hd.
Qed.

(** ** [download_pdf], the paths the claims leave out *)

Lemma length_zero (c : string) : (String.length c =? 0)%nat = true -> c = EmptyString.
Proof. destruct c; [reflexivity|discriminate]. Qed.

Lemma append_empty_r (a : string) : (a ++ "")%string = a.
Proof. induction a as [|x a IH]; simpl; auto. now rewrite IH. Qed.

(** A file can be created in a directory that is there. *)
Lemma write_file_in_dir (d : path) (c data : string) :
  forall (n : node) (sz : Z) (es : list (string * node)),
    lookup d n = Some (Dir sz es) ->
    isdir (d ++ [c]) n = false ->
    exists n', write_file (d ++ [c]) data n = Some n'.
Proof.
  induction d as [|k d IH]; intros n sz es H Hd.
  - simpl in *. inversion H; subst.
    unfold isdir in Hd. simpl in Hd.
    destruct (assoc c es) as [[d2|sz2 es2]|]; try discriminate; eauto.
  - destruct n as [d1|sz1 es1]; [discriminate|].
    assert (Hw : write_file ((k :: d) ++ [c]) data (Dir sz1 es1) =
                 match assoc k es1 with
                 | Some m0 =>
                     match write_file (d ++ [c]) data m0 with
                     | Some m' => Some (Dir sz1 (set_entry k m' es1))
                     | None => None
                     end
                 | None => None
                 end).
    { simpl. destruct d; reflexivity. }
    rewrite Hw. simpl in H. unfold isdir in Hd. simpl in Hd.
    destruct (assoc k es1) as [m0|]; [|discriminate].
    destruct (IH m0 sz es H) as [m' Hm']; auto.
    rewrite Hm'. eauto.
Qed.

(** Removing an entry leaves its directory a directory. *)
Lemma lookup_parent_detach (d : path) (c : string) :
  forall (n : node) (sz : Z) (es : list (string * node)),
    lookup d n = Some (Dir sz es) ->
    lookup d (detach (d ++ [c]) n) = Some (Dir sz (remove_key c es)).
Proof.
  induction d as [|k d IH]; intros n sz es H.
  - simpl in *. inversion H; subst. reflexivity.
  - destruct n as [d1|sz1 es1]; [discriminate|].
    assert (Hr : detach ((k :: d) ++ [c]) (Dir sz1 es1)
                 = Dir sz1 (map_first k (detach (d ++ [c])) es1)).
    { simpl. destruct d; reflexivity. }
    rewrite Hr. simpl in *. rewrite assoc_map_first.
    destruct (assoc k es1) as [m0|]; [|discriminate]. simpl.
    now apply IH.
Qed.

Section Download.

Variable session_get : string -> result response.
Variable output_dir : FS.path.

Local Abbreviation filepath := (fun p : note => output_dir ++ [filename_of p]).
Local Abbreviation fetch := (Scraper.fetch session_get output_dir).
Local Abbreviation download_pdf := (Scraper.download_pdf session_get output_dir).

(** The chunks that are not empty are appended in order. *)
Lemma write_chunks_content (q : FS.path) (cs : list string) :
  q <> [] ->
  forall (fs : node) (d : string),
    lookup q fs = Some (File d) ->
    exists fs', write_chunks q cs fs = Some fs'
                /\ lookup q fs' = Some (File (d ++ cat cs)).
Proof.
  intros Hq. induction cs as [|c cs IH]; intros fs d Hl; simpl.
  - exists fs. now rewrite append_empty_r.
  - destruct (String.length c =? 0)%nat eqn:E.
    + apply length_zero in E. subst c. simpl. now apply IH.
    + unfold append_file. rewrite Hl.
      destruct (write_file_over_file q (d ++ c) d fs Hq Hl) as [fs1 H1].
      rewrite H1.
      destruct (IH fs1 (d ++ c)%string (lookup_write_file _ _ _ _ H1)) as [fs2 [H2 L2]].
      exists fs2. split; [exact H2|]. now rewrite L2, append_assoc.
Qed.

(** What is at the target path when [download_pdf] goes on to the request:
    nothing, or a file at or below the threshold (which it deletes). *)
Definition fetchable (p : note) (fs : node) : Prop :=
  exists_ (filepath p) fs = false
  \/ exists d, lookup (filepath p) fs = Some (File d)
               /\ (Z.of_nat (String.length d) <= min_pdf_size)%Z.

Lemma download_pdf_fetches (p : note) (fs : node) (sz : Z) (es : list (string * node)) :
  lookup output_dir fs = Some (Dir sz es) ->
  fetchable p fs ->
  exists fs0 es0,
    download_pdf p fs = fetch p fs0
    /\ lookup output_dir fs0 = Some (Dir sz es0)
    /\ exists_ (filepath p) fs0 = false.
Proof.
  intros Hd [Hn|[d [Hl Hs]]].
  - exists fs, es. unfold Scraper.download_pdf. rewrite Hn. auto.
  - exists (detach (filepath p) fs), (remove_key (filename_of p) es).
    unfold Scraper.download_pdf, exists_, getsize, remove. rewrite Hl.
    destruct (Z.of_nat (String.length d) >? min_pdf_size)%Z eqn:E;
      [apply Z.gtb_lt in E; lia|].
    split; [reflexivity|]. split.
    + now apply lookup_parent_detach.
    + rewrite lookup_detach; [reflexivity|]. destruct output_dir; discriminate.
Qed.

(** The stream of a 200 response, written to a fresh file. *)
Lemma fetch_writes_chunks (p : note) (fs : node) (sz : Z) (es : list (string * node))
  (resp : response) :
  lookup output_dir fs = Some (Dir sz es) ->
  exists_ (filepath p) fs = false ->
  session_get (pdf_url_of p) = Ok resp ->
  status_code resp = 200%Z ->
  exists fs2,
    lookup (filepath p) fs2 = Some (File (cat (chunks resp)))
    /\ fetch p fs
       = match fin resp with
         | StreamDone =>
             ({| status := Success; file := filename_of p;
                 msg := "Downloaded"; title := None |}, fs2)
         | StreamRaises e => Scraper.on_exception output_dir p e fs2
         end.
Proof.
  intros Hd Hn Hg H200.
  assert (Hq : filepath p <> []) by (destruct output_dir; discriminate).
  destruct (write_file_in_dir output_dir (filename_of p) "" fs sz es Hd)
    as [fs1 H1].
  { unfold isdir, exists_ in *.
    destruct (lookup (filepath p) fs); [discriminate|reflexivity]. }
  destruct (write_chunks_content (filepath p) (chunks resp) Hq fs1 ""
              (lookup_write_file _ _ _ _ H1)) as [fs2 [H2 L2]].
  exists fs2. split; [exact L2|].
  unfold Scraper.fetch. rewrite Hg, H200. simpl. now rewrite H1, H2.
Qed.

(** X3.  With the download directory in place and nothing at the target
    path (or a file at or below the threshold, which is deleted), a 200
    response whose stream ends normally gives the outcome [success] with
    the file name, and the file then holds exactly the chunks received, in
    order. *)
Theorem X3_download_writes_the_stream (p : note) (fs : node)
  (sz : Z) (es : list (string * node)) (resp : response) :
  lookup output_dir fs = Some (Dir sz es) ->
  fetchable p fs ->
  session_get (pdf_url_of p) = Ok resp ->
  status_code resp = 200%Z ->
  fin resp = StreamDone ->
  fst (download_pdf p fs)
    = {| status := Success; file := filename_of p;
         msg := "Downloaded"; title := None |}
  /\ lookup (filepath p) (snd (download_pdf p fs))
     = Some (File (cat (chunks resp))).
Proof.
  intros Hd Hf Hg H200 Hfin.
  destruct (download_pdf_fetches p fs sz es Hd Hf) as [fs0 [es0 [E [Hd0 Hn0]]]].
  destruct (fetch_writes_chunks p fs0 sz es0 resp Hd0 Hn0 Hg H200) as [fs2 [L2 F]].
  rewrite E, F, Hfin. split; [reflexivity|exact L2].
Qed.

(** A 200 response whose stream breaks with an exception of no network
    class. *)
Lemma download_other_exception (p : note) (fs : node)
  (sz : Z) (es : list (string * node)) (resp : response) (e : exn) :
  lookup output_dir fs = Some (Dir sz es) ->
  fetchable p fs ->
  session_get (pdf_url_of p) = Ok resp ->
  status_code resp = 200%Z ->
  fin resp = StreamRaises e ->
  is_network_error (exn_cls e) = false ->
  fst (download_pdf p fs)
    = {| status := Error; file := id p; msg := exn_msg e;
         title := Some (title_of p) |}
  /\ lookup (filepath p) (snd (download_pdf p fs))
     = Some (File (cat (chunks resp))).
Proof.
  intros Hd Hf Hg H200 Hfin He.
  destruct (download_pdf_fetches p fs sz es Hd Hf) as [fs0 [es0 [E [Hd0 Hn0]]]].
  destruct (fetch_writes_chunks p fs0 sz es0 resp Hd0 Hn0 Hg H200) as [fs2 [L2 F]].
  rewrite E, F, Hfin. unfold Scraper.on_exception. rewrite He.
  split; [reflexivity|exact L2].
Qed.

(** X5.  When the stream of a 200 response breaks with an exception that
    is none of the four network classes, the outer handler reports the
    error under the paper's id (not the file name) and deletes nothing:
    the target file stays, holding the chunks received so far. *)
Theorem X5_other_exception_keeps_the_partial_file (p : note) (fs : node)
  (sz : Z) (es : list (string * node)) (resp : response) (e : exn) :
  lookup output_dir fs = Some (Dir sz es) ->
  fetchable p fs ->
  session_get (pdf_url_of p) = Ok resp ->
  status_code resp = 200%Z ->
  fin resp = StreamRaises e ->
  is_network_error (exn_cls e) = false ->
  fst (download_pdf p fs)
    = {| status := Error; file := id p; msg := exn_msg e;
         title := Some (title_of p) |}
  /\ lookup (filepath p) (snd (download_pdf p fs))
     = Some (File (cat (chunks resp))).
Proof. apply download_other_exception. Qed.

(** X4.  Such a partial file passes for a complete one as soon as it is
    larger than 1024 bytes: the next call of [download_pdf] for the paper,
    against any server, reports [skipped] and leaves the disk as it is. *)
Theorem X4_large_partial_file_is_skipped (p : note) (fs : node)
  (sz : Z) (es : list (string * node)) (resp : response) (e : exn)
  (next_get : string -> result response) :
  lookup output_dir fs = Some (Dir sz es) ->
  fetchable p fs ->
  session_get (pdf_url_of p) = Ok resp ->
  status_code resp = 200%Z ->
  fin resp = StreamRaises e ->
  is_network_error (exn_cls e) = false ->
  (Z.of_nat (String.length (cat (chunks resp))) > min_pdf_size)%Z ->
  status (fst (download_pdf p fs)) = Error
  /\ Scraper.download_pdf next_get output_dir p (snd (download_pdf p fs))
     = ({| status := Skipped; file := filename_of p; msg := "Exists"; title := None |},
        snd (download_pdf p fs)).
Proof.
  intros Hd Hf Hg H200 Hfin He Hlen.
  destruct (download_other_exception p fs sz es resp e Hd Hf Hg H200 Hfin He)
    as [Ho Hl].
  split; [now rewrite Ho|].
  unfold Scraper.download_pdf at 1. unfold exists_, getsize. rewrite Hl.
  destruct (Z.of_nat (String.length (cat (chunks resp))) >? min_pdf_size)%Z eqn:E;
    [reflexivity|].
  rewrite Z.gtb_ltb in E. apply Z.ltb_ge in E. lia.
Qed.

End Download.

(** X3 at a server that sends a whole file. *)
Lemma X3_witness :
  lookup (Examples.downloads ++ [filename_of Examples.paper1])
    (snd (Scraper.download_pdf (Examples.serves_pdf 0) Examples.downloads
            Examples.paper1 (Examples.download_tree [])))
  = Some (File (Examples.bytes 2000)).
Proof.
  refine (eq_trans (proj2 (X3_download_writes_the_stream (Examples.serves_pdf 0)
            Examples.downloads Examples.paper1 (Examples.download_tree [])
            4096%Z [] _ _ _ _ _ _)) _).
  - reflexivity.
  - left. reflexivity.
  - reflexivity.
  - reflexivity.
  - reflexivity.
  - vm_compute. reflexivity.
Defined.

(** X5 at a server whose stream breaks on a full disk. *)
Lemma X5_witness :
  fst (Scraper.download_pdf Worlds.disk_full Examples.downloads Examples.paper1
         (Examples.download_tree []))
  = {| status := Error; file := "abc1"; msg := "No space left on device";
       title := Some "Deep Nets " |}.
Proof.
  refine (proj1 (X5_other_exception_keeps_the_partial_file Worlds.disk_full
            Examples.downloads Examples.paper1 (Examples.download_tree [])
            4096%Z [] _ (mk_exn OSError "No space left on device") _ _ _ _ _ _)).
  - reflexivity.
  - left. reflexivity.
  - reflexivity.
  - reflexivity.
  - reflexivity.
  - reflexivity.
Defined.

(** X4 at the same server, followed by a call that cannot reach any. *)
Lemma X4_witness :
  status (fst (Scraper.download_pdf Worlds.unreachable Examples.downloads
                 Examples.paper1
                 (snd (Scraper.download_pdf Worlds.disk_full Examples.downloads
                         Examples.paper1 (Examples.download_tree [])))))
  = Skipped.
Proof.
  refine (eq_trans (f_equal (fun r => status (fst r))
            (proj2 (X4_large_partial_file_is_skipped Worlds.disk_full
               Examples.downloads Examples.paper1 (Examples.download_tree [])
               4096%Z [] _ (mk_exn OSError "No space left on device")
               Worlds.unreachable _ _ _ _ _ _ _))) _).
  - reflexivity.
  - left. reflexivity.
  - reflexivity.
  - reflexivity.
  - reflexivity.
  - reflexivity.
  - vm_compute. reflexivity.
  - reflexivity.
Defined.

(** ** The ledger of [main] *)

Section Main.

Variable net : nat -> string -> result response.
Variable output_dir : FS.path.
Variable as_completed : list note -> list note.

(** X6.  [main] leaves [failed_downloads.txt] unwritten only when the
    catalog is empty.  On a catalog that is not empty the file is written
    on every run: when the last round left no failure, it lists the papers
    of that round's batch, all of which were fetched. *)
Theorem X6_ledger_is_written_unless_catalog_is_empty (papers : list note) (fs : node) :
  exists r,
    Scraper.main net output_dir as_completed papers fs = Some r
    /\ (ledger r = None <-> papers = [])
    /\ (papers <> [] ->
        failed (last (run_rounds r) (mk_round [] fs [])) = [] ->
        batch (last (run_rounds r) (mk_round [] fs [])) <> []
        /\ ledger r
           = Some (map ledger_line (batch (last (run_rounds r) (mk_round [] fs []))))).
Proof.
  unfold Scraper.main.
  destruct papers as [|p0 ps] eqn:Ep.
  { eexists. split; [reflexivity|]. simpl. split; [tauto|]. intros H. now elim H. }
  rewrite <- Ep.
  assert (Hne : papers <> []) by (subst; discriminate).
  assert (Hemp : is_empty papers = false) by (subst; reflexivity).
  rewrite Hemp. unfold max_retries.
  cbn [retry_loop current_batch retry_count disk rounds].
  rewrite Hemp. cbn [negb andb Nat.ltb Nat.leb app].
  destruct (Scraper.process_downloads (net 0) output_dir as_completed papers fs)
    as [f0 fs0].
  destruct f0 as [|a0 f0'] eqn:F0; cbn [is_empty negb andb].
  { eexists. split; [reflexivity|].
    cbn [run_rounds ledger current_batch rounds last failed batch].
    rewrite Hemp. split; [split; [discriminate|intros H; now elim Hne]|]. auto. }
  rewrite <- F0.
  assert (Z0 : f0 <> []) by (subst; discriminate).
  assert (E0 : is_empty f0 = false) by (subst; reflexivity).
  destruct (Scraper.process_downloads (net 1) output_dir as_completed f0 fs0)
    as [f1 fs1].
  destruct f1 as [|a1 f1'] eqn:F1; cbn [is_empty negb andb].
  { eexists. split; [reflexivity|].
    cbn [run_rounds ledger current_batch rounds last failed batch].
    rewrite E0. split; [split; [discriminate|intros H; now elim Hne]|]. auto. }
  rewrite <- F1.
  assert (Z1 : f1 <> []) by (subst; discriminate).
  assert (E1 : is_empty f1 = false) by (subst; reflexivity).
  destruct (Scraper.process_downloads (net 2) output_dir as_completed f1 fs1)
    as [f2 fs2].
  destruct f2 as [|a2 f2'] eqn:F2; cbn [is_empty negb andb].
  { eexists. split; [reflexivity|].
    cbn [run_rounds ledger current_batch rounds last failed batch].
    rewrite E1. split; [split; [discriminate|intros H; now elim Hne]|]. auto. }
  eexists. split; [reflexivity|].
  cbn [run_rounds ledger current_batch rounds last failed batch is_empty].
  split; [split; [discriminate|intros H; now elim Hne]|].
  intros _ H. discriminate.
Qed.

End Main.

End ScraperMore.

(* ================================================================== *)
(** * More on the pipeline *)
(* ================================================================== *)

Module PipelineMore.
Import Py FS FSFacts DiskFacts Pipeline PipelineFacts.

Lemma assoc_remove_key_other {A} (k k' : string) (es : list (string * A)) :
  k <> k' -> assoc k' (remove_key k es) = assoc k' es.
Proof.
  intros Hk. induction es as [|[k0 v] es IH]; simpl; auto.
  destruct (String.eqb k k0) eqn:E; simpl.
  - apply String.eqb_eq in E. subst k0.
    destruct (String.eqb k' k) eqn:E'; [apply String.eqb_eq in E'; congruence|].
    exact IH.
  - destruct (String.eqb k' k0); auto.
Qed.

Lemma assoc_map_first_other {A} (k k' : string) (f : A -> A) (es : list (string * A)) :
  k <> k' -> assoc k' (map_first k f es) = assoc k' es.
Proof.
  intros Hk. induction es as [|[k0 v] es IH]; simpl; auto.
  destruct (String.eqb k k0) eqn:E; simpl.
  - apply String.eqb_eq in E. subst k0.
    destruct (String.eqb k' k) eqn:E'; [apply String.eqb_eq in E'; congruence|].
    reflexivity.
  - destruct (String.eqb k' k0); auto.
Qed.

(** [detach] leaves alone every path that parts from the removed one. *)
Lemma lookup_detach_apart (d : path) (c c' : string) (p1 q1 : path) :
  c <> c' ->
  forall n, lookup (d ++ c' :: q1) (detach (d ++ c :: p1) n) = lookup (d ++ c' :: q1) n.
Proof.
  intros Hc. induction d as [|k d IH]; intros n.
  - destruct n as [data|sz es]; [now destruct p1|].
    destruct p1 as [|c1 p1]; simpl.
    + now rewrite assoc_remove_key_other.
    + now rewrite assoc_map_first_other.
  - destruct n as [data|sz es]; [simpl; now destruct d|].
    assert (Hr : detach ((k :: d) ++ c :: p1) (Dir sz es)
                 = Dir sz (map_first k (detach (d ++ c :: p1)) es)).
    { simpl. destruct d; reflexivity. }
    rewrite Hr. simpl. rewrite assoc_map_first.
    destruct (assoc k es) as [m|]; simpl; auto.
Qed.

Section Loop.

Variable base_dir : FS.path.
Variable subprocess_run :
  FS.path -> FS.path -> FS.node -> result CompletedProcess * FS.node.
Variable load_content : FS.path -> FS.node -> result Analyzer.PaperContent.
Variable a : args.

Local Abbreviation ocr_stage := (Pipeline.ocr_stage base_dir subprocess_run).
Local Abbreviation process_item :=
  (Pipeline.process_item base_dir subprocess_run load_content a).
Local Abbreviation process_all :=
  (Pipeline.process_all base_dir subprocess_run load_content a).

Lemma already_extracted_exists (f : string) (fs : node) :
  already_extracted base_dir f fs = true ->
  exists_ (extraction_marker base_dir f) fs = true.
Proof.
  unfold already_extracted.
  destruct (exists_ (extraction_marker base_dir f) fs); [reflexivity|discriminate].
Qed.

(** An item with both markers goes through the loop body untouched. *)
Lemma process_item_complete (an : option Analyzer.analyzer) (f : string) (st : state) :
  already_extracted base_dir f (disk st) = true ->
  exists_ (analysis_marker base_dir f) (disk st) = true ->
  process_item an f st = (Ok tt, st).
Proof.
  intros He Ha. unfold Pipeline.process_item.
  assert (Hst : (if negb (skip_ocr a) then ocr_stage f st else (Ok tt, st))
                = (Ok tt, st)).
  { destruct (negb (skip_ocr a)); [|reflexivity].
    unfold Pipeline.ocr_stage. now rewrite He. }
  rewrite Hst.
  destruct (negb (skip_analysis a)); [|reflexivity].
  destruct an as [an|]; [|reflexivity].
  unfold Pipeline.analysis_stage.
  now rewrite (already_extracted_exists f _ He), Ha.
Qed.

(** X7.  A run over papers that all have a non-empty extraction marker and
    an analysis marker changes nothing, prints nothing for any paper and
    ends normally, whatever the flags, the engine and the analyzer are:
    neither the engine nor the analyzer is called. *)
Theorem X7_complete_papers_are_left_alone
  (an : option Analyzer.analyzer) (files : list string) (st : state) :
  Forall (fun f => already_extracted base_dir f (disk st) = true
                   /\ exists_ (analysis_marker base_dir f) (disk st) = true) files ->
  process_all an files st = (Ok tt, st).
Proof.
  induction 1 as [|f files [He Ha] _ IH]; [reflexivity|].
  simpl. now rewrite (process_item_complete an f st He Ha).
Qed.

(** X8.  When the extraction of a paper fails, the cleanup touches nothing
    outside that paper's output directory: the download directory and the
    output directory of every other paper are as the engine left them. *)
Theorem X8_cleanup_spares_the_other_papers
  (f : string) (st : state) (r : result CompletedProcess) (fs : node) :
  already_extracted base_dir f (disk st) = false ->
  subprocess_run (original_dir base_dir ++ [f]) (extracted_dir base_dir) (disk st)
    = (r, fs) ->
  extraction_failed r ->
  (forall q, lookup (original_dir base_dir ++ q) (disk (snd (ocr_stage f st)))
             = lookup (original_dir base_dir ++ q) fs)
  /\ (forall g q,
        splitext_root g <> splitext_root f ->
        lookup (paper_extracted_path base_dir g ++ q) (disk (snd (ocr_stage f st)))
        = lookup (paper_extracted_path base_dir g ++ q) fs).
Proof.
  intros Hnot Hrun Hfail.
  assert (Hd : disk (snd (ocr_stage f st)) = fs
               \/ disk (snd (ocr_stage f st)) = detach (paper_extracted_path base_dir f) fs).
  { destruct (lookup (paper_extracted_path base_dir f) fs) as [[d|sz es]|] eqn:E.
    - left. exact (proj2 (ocr_stage_regular_file base_dir subprocess_run f st r fs d
                            Hnot Hrun Hfail E)).
    - destruct (cleanup_ok base_dir f fs) as [fs' Hc]; [rewrite E; discriminate|].
      destruct (ocr_stage_failed base_dir subprocess_run f st r fs fs'
                  Hnot Hrun Hfail Hc) as [st' [Hs [Hd' _]]].
      rewrite Hs. simpl snd. rewrite Hd'. exact (cleanup_cases base_dir f fs fs' Hc).
    - destruct (cleanup_ok base_dir f fs) as [fs' Hc]; [rewrite E; discriminate|].
      destruct (ocr_stage_failed base_dir subprocess_run f st r fs fs'
                  Hnot Hrun Hfail Hc) as [st' [Hs [Hd' _]]].
      rewrite Hs. simpl snd. rewrite Hd'. exact (cleanup_cases base_dir f fs fs' Hc). }
  destruct Hd as [Hd|Hd]; rewrite Hd; [split; reflexivity|].
  unfold paper_extracted_path, extracted_dir, original_dir. split.
  - intros q. rewrite <- !app_assoc. simpl.
    apply lookup_detach_apart. discriminate.
  - intros g q Hg. rewrite <- !app_assoc. simpl.
    change (base_dir ++ "extracted_papers" :: splitext_root f :: nil)
      with (base_dir ++ ["extracted_papers"] ++ splitext_root f :: nil).
    change (base_dir ++ "extracted_papers" :: splitext_root g :: q)
      with (base_dir ++ ["extracted_papers"] ++ splitext_root g :: q).
    rewrite !app_assoc. apply lookup_detach_apart. congruence.
Qed.

(** X9.  The cut at [--limit]: every discovered name ends in [.pdf] and
    comes from the listing; a positive limit [n] keeps the first [n] names
    (all of them when there are fewer), a limit of 0 keeps all of them,
    and a negative limit [-k] drops the last [k]. *)
Theorem X9_limit_cuts_the_listing (names : list string) :
  let pdfs := filter (fun f => endswith f ".pdf") names in
  Forall (fun f => endswith f ".pdf" = true) (select_pdfs a names)
  /\ incl (select_pdfs a names) names
  /\ (forall n, limit a = Some n -> (0 < n)%Z ->
        select_pdfs a names = firstn (Z.to_nat n) pdfs
        /\ List.length (select_pdfs a names) = Nat.min (Z.to_nat n) (List.length pdfs))
  /\ (limit a = Some 0%Z \/ limit a = None -> select_pdfs a names = pdfs)
  /\ (forall k, limit a = Some (- Z.of_nat k)%Z -> (0 < k)%nat ->
        List.length (select_pdfs a names) = (List.length pdfs - k)%nat
        /\ exists dropped, pdfs = select_pdfs a names ++ dropped).
Proof.
  intros pdfs.
  assert (Hsub : exists rest, pdfs = select_pdfs a names ++ rest).
  { unfold select_pdfs, slice_to. fold pdfs.
    destruct (limit_given a) as [n|]; [|exists []; now rewrite app_nil_r].
    destruct (0 <=? n)%Z; eexists; symmetry; apply firstn_skipn. }
  assert (Hpdf : Forall (fun f => endswith f ".pdf" = true) pdfs).
  { apply Forall_forall. intros f Hf. unfold pdfs in Hf.
    apply filter_In in Hf. tauto. }
  destruct Hsub as [rest Hrest].
  split; [|split; [|split; [|split]]].
  - rewrite Hrest in Hpdf. apply Forall_app in Hpdf. tauto.
  - intros f Hf. assert (Hin : In f pdfs) by (rewrite Hrest; apply in_or_app; auto).
    unfold pdfs in Hin. apply filter_In in Hin. tauto.
  - intros n Hl Hn. unfold select_pdfs, limit_given, slice_to. rewrite Hl. fold pdfs.
    destruct (n =? 0)%Z eqn:E0; [apply Z.eqb_eq in E0; lia|].
    destruct (0 <=? n)%Z eqn:E1; [|apply Z.leb_gt in E1; lia].
    split; [reflexivity|]. apply length_firstn.
  - intros [Hl|Hl]; unfold select_pdfs, limit_given; rewrite Hl; reflexivity.
  - intros k Hl Hk. unfold select_pdfs, limit_given, slice_to. rewrite Hl. fold pdfs.
    destruct (- Z.of_nat k =? 0)%Z eqn:E0; [apply Z.eqb_eq in E0; lia|].
    destruct (0 <=? - Z.of_nat k)%Z eqn:E1; [apply Z.leb_le in E1; lia|].
    split.
    + rewrite length_firstn. lia.
    + eexists. symmetry. apply firstn_skipn.
Qed.

Variable init_analyzer : result Analyzer.analyzer.

Local Abbreviation main :=
  (Pipeline.main base_dir subprocess_run load_content a init_analyzer).

(** X22.  [main] stops before the loop, with the disk untouched and
    nothing launched, in three cases: when the download directory is
    missing (as it may be under [--skip-download]) the exception of
    [os.listdir] ends the run; when the directory holds no
    [.pdf] file the run ends normally; and when the construction of the
    analyzer fails the run ends normally too, so that no paper goes through
    the OCR stage either, although it comes first in the loop. *)
Theorem X22_main_stops_before_the_loop (st : state) :
  (exists_ (original_dir base_dir) (disk st) = false ->
   main st = (Raise (mk_exn FileNotFoundError "listdir"), st))
  /\ (forall names,
        listdir (original_dir base_dir) (disk st) = Some names ->
        select_pdfs a names = [] ->
        main st = (Ok tt, print NoPapersFound st))
  /\ (forall names e,
        listdir (original_dir base_dir) (disk st) = Some names ->
        select_pdfs a names <> [] ->
        skip_analysis a = false ->
        init_analyzer = Raise e ->
        main st = (Ok tt, print (FailedToInitialize (exn_msg e)) st)
        /\ disk (snd (main st)) = disk st).
Proof.
  unfold Pipeline.main, discover. split; [|split].
  - intros H. unfold exists_ in H. unfold listdir.
    destruct (lookup (original_dir base_dir) (disk st)); [discriminate|reflexivity].
  - intros names H Hs. rewrite H. simpl. now rewrite Hs.
  - intros names e H Hs Ha Hi. rewrite H. simpl.
    destruct (select_pdfs a names) as [|f fs]; [now elim Hs|].
    rewrite Ha, Hi. simpl. split; reflexivity.
Qed.

End Loop.

(** X7 at two complete papers, with an engine that would fail and an
    analyzer that would raise. *)
Lemma X7_witness :
  Pipeline.process_all Examples.base
    (Examples.engine_exit 1) Examples.no_pages Examples.run_all
    (Some (Examples.answers (Raise (mk_exn OtherException "never called"))))
    ["a.pdf"; "b.pdf"]
    (Examples.start (Examples.tree ["a.pdf"; "b.pdf"]
       [("a", Worlds.analyzed_paper "text a" "report a");
        ("b", Worlds.analyzed_paper "text b" "report b")]))
  = (Ok tt,
     Examples.start (Examples.tree ["a.pdf"; "b.pdf"]
       [("a", Worlds.analyzed_paper "text a" "report a");
        ("b", Worlds.analyzed_paper "text b" "report b")])).
Proof.
  apply X7_complete_papers_are_left_alone.
  repeat constructor.
Defined.

(** X8 at an engine that writes a partial directory for [p] and exits with
    status 1, next to the finished paper [q]. *)
Lemma X8_witness :
  lookup (paper_extracted_path Examples.base "q.pdf" ++ ["full_extracted.md"])
    (disk (snd (Pipeline.ocr_stage Examples.base
                  (Examples.engine_partial "p"
                     (Ok {| returncode := 1; stdout := ""; stderr := "" |}))
                  "p.pdf"
                  (Examples.start (Examples.tree ["p.pdf"; "q.pdf"]
                                     [("q", Examples.extracted_paper "text q")])))))
  = Some (File "text q").
Proof.
  refine (eq_trans (proj2 (X8_cleanup_spares_the_other_papers Examples.base
            (Examples.engine_partial "p"
               (Ok {| returncode := 1; stdout := ""; stderr := "" |}))
            "p.pdf"
            (Examples.start (Examples.tree ["p.pdf"; "q.pdf"]
                               [("q", Examples.extracted_paper "text q")]))
            (Ok {| returncode := 1; stdout := ""; stderr := "" |})
            (snd (Examples.engine_partial "p"
                    (Ok {| returncode := 1; stdout := ""; stderr := "" |}) [] []
                    (Examples.tree ["p.pdf"; "q.pdf"]
                       [("q", Examples.extracted_paper "text q")])))
            _ _ _) "q.pdf" ["full_extracted.md"] _) _).
  - reflexivity.
  - reflexivity.
  - simpl. discriminate.
  - vm_compute. discriminate.
  - vm_compute. reflexivity.
Defined.

End PipelineMore.

(* ================================================================== *)
(** * The loader of the pages *)
(* ================================================================== *)

Module LoaderFacts.
Import Py FS FSFacts Loader.

(** ** Sorting *)

Lemma insert_keyed_perm (x : Z * string) (l : list (Z * string)) :
  Permutation (insert_keyed x l) (x :: l).
Proof.
  induction l as [|y l IH]; simpl; auto.
  destruct (fst x <=? fst y)%Z; auto.
  rewrite IH. apply perm_swap.
Qed.

Lemma sorted_keyed_perm (l : list (Z * string)) : Permutation (sorted_keyed l) l.
Proof.
  induction l as [|x l IH]; simpl; auto.
  rewrite insert_keyed_perm. now constructor.
Qed.

Definition key_le (x y : Z * string) : Prop := (fst x <= fst y)%Z.

Lemma insert_keyed_sorted (x : Z * string) (l : list (Z * string)) :
  StronglySorted key_le l -> StronglySorted key_le (insert_keyed x l).
Proof.
  induction 1 as [|y l Hs IH Hy]; simpl.
  - repeat constructor.
  - destruct (fst x <=? fst y)%Z eqn:E.
    + apply Z.leb_le in E. constructor; [now constructor|].
      constructor; [exact E|].
      eapply Forall_impl; [|exact Hy]. unfold key_le. intros; lia.
    + apply Z.leb_gt in E. constructor; [exact IH|].
      eapply Permutation_Forall; [symmetry; apply insert_keyed_perm|].
      constructor; [unfold key_le; lia|exact Hy].
Qed.

Lemma sorted_keyed_sorted (l : list (Z * string)) :
  StronglySorted key_le (sorted_keyed l).
Proof.
  induction l as [|x l IH]; simpl; [constructor|].
  now apply insert_keyed_sorted.
Qed.

Lemma sorted_keys (l : list (Z * string)) :
  StronglySorted key_le l -> StronglySorted Z.le (map fst l).
Proof.
  induction 1 as [|x l Hs IH Hx]; simpl; constructor; auto.
  apply Forall_forall. intros z Hz.
  apply in_map_iff in Hz. destruct Hz as [y [<- Hy]].
  rewrite Forall_forall in Hx. now apply Hx.
Qed.

Lemma insert_name_perm (x : string) (l : list string) :
  Permutation (insert_name x l) (x :: l).
Proof.
  induction l as [|y l IH]; simpl; auto.
  destruct (String.leb x y); auto.
  rewrite IH. apply perm_swap.
Qed.

Lemma sorted_names_perm (l : list string) : Permutation (sorted_names l) l.
Proof.
  induction l as [|x l IH]; simpl; auto.
  rewrite insert_name_perm. now constructor.
Qed.

(** ** The keys of the folders *)

Lemma keyed_spec (folders : list string) :
  forall ks,
    keyed folders = Ok ks ->
    map snd ks = folders
    /\ Forall (fun kd => int (piece (snd kd)) = Some (fst kd)) ks.
Proof.
  induction folders as [|d rest IH]; intros ks H; simpl in H.
  - inversion H; subst. split; constructor.
  - destruct (second (split "_" d)) as [pc|] eqn:Ep; [|discriminate].
    destruct (int pc) as [k|] eqn:Ek; [|discriminate].
    destruct (keyed rest) as [ks'|e]; [|discriminate].
    simpl in H. inversion H; subst.
    destruct (IH ks' eq_refl) as [Hm Hf].
    split; [simpl; now rewrite Hm|].
    constructor; [|exact Hf]. simpl. unfold piece. now rewrite Ep.
Qed.

Lemma split_not_nil (sep : ascii) (s : string) : split sep s <> [].
Proof.
  induction s as [|c s IH]; simpl; [discriminate|].
  destruct (Ascii.eqb c sep); [discriminate|].
  destruct (split sep s); [contradiction|discriminate].
Qed.

Lemma prefix_append (a d : string) :
  String.prefix a d = true -> exists r, d = (a ++ r)%string.
Proof.
  revert d. induction a as [|x a IH]; intros d H; [simpl; eauto|].
  destruct d as [|y d]; [discriminate|]. simpl in H.
  destruct (ascii_dec x y) as [->|]; [|discriminate].
  destruct (IH d H) as [r ->]. exists r. reflexivity.
Qed.

(** A name that starts with [page_] has a second piece. *)
Lemma second_of_page_folder (d : string) :
  String.prefix "page_" d = true -> second (split "_" d) = Some (piece d).
Proof.
  intros H. unfold piece. apply prefix_append in H. destruct H as [r ->].
  simpl. destruct (split "_" r) as [|h t] eqn:Es; [now apply split_not_nil in Es|].
  reflexivity.
Qed.

(** A folder whose number cannot be read makes [keyed] raise [ValueError]. *)
Lemma keyed_raises (folders : list string) (d : string) :
  In d folders -> int (piece d) = None ->
  Forall (fun f => String.prefix "page_" f = true) folders ->
  keyed folders = Raise (mk_exn OtherException "ValueError").
Proof.
  induction folders as [|f rest IH]; intros Hin Hbad Hall; [contradiction|].
  inversion Hall as [|? ? Hf Hrest]; subst. simpl.
  rewrite (second_of_page_folder f Hf).
  destruct (int (piece f)) eqn:Ef; [|reflexivity].
  destruct Hin as [->|Hin]; [congruence|].
  now rewrite (IH Hin Hbad Hrest).
Qed.

(** ** The pages *)

Lemma load_folders_spec (pages_dir : path) (fs : node) (folders : list string) :
  forall pgs,
    load_folders pages_dir fs folders = Ok pgs ->
    Forall2 (fun d pg =>
               Analyzer.page_num pg = piece d
               /\ page_text (pages_dir ++ [d]) fs = Ok (Analyzer.text pg)
               /\ page_images (pages_dir ++ [d]) fs = Ok (Analyzer.images pg))
      folders pgs.
Proof.
  induction folders as [|d rest IH]; intros pgs H; simpl in H.
  - inversion H; subst. constructor.
  - destruct (load_page pages_dir fs d) as [pg|e] eqn:Ep; [|discriminate].
    destruct (load_folders pages_dir fs rest) as [pgs'|e]; [|discriminate].
    simpl in H. inversion H; subst.
    constructor; [|now apply IH].
    unfold load_page in Ep.
    destruct (second (split "_" d)) as [pc|] eqn:Es; [|discriminate].
    destruct (page_text (pages_dir ++ [d]) fs) as [t|e]; [|discriminate].
    destruct (page_images (pages_dir ++ [d]) fs) as [im|e]; [|discriminate].
    simpl in Ep. inversion Ep; subst. simpl. unfold piece. now rewrite Es.
Qed.

(** What [PaperContent] returns when the pages directory is listed. *)
Lemma PaperContent_spec (paper_dir : path) (fs : node) (names : list string)
  (c : Analyzer.PaperContent) :
  listdir (paper_dir ++ ["pages"]) fs = Some names ->
  PaperContent paper_dir fs = Ok c ->
  exists ks,
    keyed (page_folders (paper_dir ++ ["pages"]) fs names) = Ok ks
    /\ load_folders (paper_dir ++ ["pages"]) fs (map snd (sorted_keyed ks))
       = Ok (Analyzer.pages c).
Proof.
  intros Hl H. unfold PaperContent in H.
  assert (He : exists_ (paper_dir ++ ["pages"]) fs = true).
  { unfold exists_, listdir in *.
    destruct (lookup (paper_dir ++ ["pages"]) fs); [reflexivity|discriminate]. }
  rewrite He, Hl in H. simpl in H.
  destruct (keyed (page_folders (paper_dir ++ ["pages"]) fs names)) as [ks|e];
    [|discriminate].
  simpl in H.
  destruct (load_folders (paper_dir ++ ["pages"]) fs (map snd (sorted_keyed ks)))
    as [pgs|e] eqn:El; [|discriminate].
  simpl in H. inversion H; subst. simpl. exists ks. split; [reflexivity|exact El].
Qed.

Lemma Forall2_map_eq {A B C} (f : A -> C) (g : B -> C) (l : list A) (l' : list B) :
  Forall2 (fun x y => g y = f x) l l' -> map g l' = map f l.
Proof. induction 1; simpl; congruence. Qed.

Lemma Forall2_Forall_r {A B} (R : A -> B -> Prop) (P : B -> Prop)
  (l : list A) (l' : list B) :
  Forall2 R l l' -> (forall x y, R x y -> P y) -> Forall P l'.
Proof. induction 1; intros HP; constructor; eauto. Qed.

(** X10.  The pages of a loaded paper are in ascending order of their
    page numbers read as integers (page 10 comes after page 2), and they
    are the page folders of the listing, each loaded once: the folders
    whose name starts with [page_] and that are directories. *)
Theorem X10_pages_are_sorted_by_number (paper_dir : path) (fs : node)
  (names : list string) (c : Analyzer.PaperContent) :
  listdir (paper_dir ++ ["pages"]) fs = Some names ->
  PaperContent paper_dir fs = Ok c ->
  (exists ns, map page_number (Analyzer.pages c) = map Some ns
              /\ StronglySorted Z.le ns)
  /\ Permutation (map Analyzer.page_num (Analyzer.pages c))
       (map piece (page_folders (paper_dir ++ ["pages"]) fs names)).
Proof.
  intros Hl H.
  destruct (PaperContent_spec paper_dir fs names c Hl H) as [ks [Hk Hload]].
  destruct (keyed_spec _ _ Hk) as [Hsnd Hkeys].
  pose proof (load_folders_spec _ _ _ _ Hload) as Hpg.
  assert (Hnum : map Analyzer.page_num (Analyzer.pages c)
                 = map piece (map snd (sorted_keyed ks))).
  { apply Forall2_map_eq. eapply Forall2_impl; [|exact Hpg]. simpl. tauto. }
  split.
  - exists (map fst (sorted_keyed ks)). split.
    + unfold page_number.
      rewrite <- (map_map Analyzer.page_num int), Hnum, !map_map.
      apply map_ext_in. intros kd Hin.
      assert (Hin' : In kd ks).
      { eapply Permutation_in; [apply sorted_keyed_perm|exact Hin]. }
      rewrite Forall_forall in Hkeys. now apply Hkeys.
    + apply sorted_keys, sorted_keyed_sorted.
  - rewrite Hnum. apply Permutation_map. rewrite <- Hsnd.
    apply Permutation_map, sorted_keyed_perm.
Qed.

(** ** The images *)

Lemma listed_exists (dir : path) (fs : node) (names : list string) (n : string) :
  listdir dir fs = Some names -> In n names -> exists_ (dir ++ [n]) fs = true.
Proof.
  unfold listdir, exists_. rewrite lookup_app.
  destruct (lookup dir fs) as [[d|sz es]|]; try discriminate.
  intros H Hin. inversion H; subst. simpl.
  induction es as [|[k v] es IH]; [contradiction|]. simpl in *.
  destruct (String.eqb n k) eqn:E; [reflexivity|].
  destruct Hin as [Hk|Hin]; [subst; now rewrite String.eqb_refl in E|].
  apply IH; auto.
Qed.

Lemma fallback_spec (folder_path : path) (fs : node) (imgs : list path) :
  (if exists_ (folder_path ++ ["original.jpg"]) fs
   then Ok [folder_path ++ ["original.jpg"]]
   else Ok []) = Ok imgs ->
  Forall (fun img => exists_ img fs = true /\ image_of folder_path img) imgs
  /\ (In (folder_path ++ ["original.jpg"]) imgs ->
      imgs = [folder_path ++ ["original.jpg"]]).
Proof.
  destruct (exists_ (folder_path ++ ["original.jpg"]) fs) eqn:Eo;
    intros H; inversion H; subst; split.
  - constructor; [|constructor]. split; [exact Eo|]. now left.
  - reflexivity.
  - constructor.
  - intros [].
Qed.

Lemma page_images_spec (folder_path : path) (fs : node) (imgs : list path) :
  page_images folder_path fs = Ok imgs ->
  Forall (fun img => exists_ img fs = true /\ image_of folder_path img) imgs
  /\ (In (folder_path ++ ["original.jpg"]) imgs ->
      imgs = [folder_path ++ ["original.jpg"]]).
Proof.
  unfold page_images, page_crops.
  destruct (exists_ (folder_path ++ ["images"]) fs) eqn:Ei;
    [|simpl; apply fallback_spec].
  destruct (listdir (folder_path ++ ["images"]) fs) as [names|] eqn:El;
    [|discriminate].
  simpl.
  set (crops := map (fun n => (folder_path ++ ["images"]) ++ [n])
                  (filter is_image (sorted_names names))).
  assert (Hc : Forall (fun img => exists_ img fs = true /\ image_of folder_path img)
                 crops
               /\ ~ In (folder_path ++ ["original.jpg"]) crops).
  { split.
    - apply Forall_forall. intros img Hin. unfold crops in Hin.
      apply in_map_iff in Hin. destruct Hin as [n [<- Hn]].
      apply filter_In in Hn. destruct Hn as [Hn Him]. split.
      + eapply listed_exists; eauto.
        eapply Permutation_in; [apply sorted_names_perm|exact Hn].
      + right. exists n. rewrite <- app_assoc. auto.
    - intros Hin. unfold crops in Hin. apply in_map_iff in Hin.
      destruct Hin as [n [E _]]. rewrite <- app_assoc in E.
      apply app_inv_head in E. discriminate. }
  destruct crops as [|c0 crops'] eqn:Ec; [apply fallback_spec|].
  intros H. inversion H; subst. destruct Hc as [Hf Hno].
  split; [exact Hf|]. intros Hin. contradiction.
Qed.

(** X11.  Every image a loaded page lists exists on the disk it was loaded
    from, and is either the whole page [original.jpg] or a file of the
    page's [images] directory with the extension png, jpg or jpeg (in any
    case); the whole page is listed only alone, when there is no crop. *)
Theorem X11_listed_images_exist (paper_dir : path) (fs : node)
  (c : Analyzer.PaperContent) :
  PaperContent paper_dir fs = Ok c ->
  Forall (fun pg =>
            exists folder_path,
              Forall (fun img => exists_ img fs = true /\ image_of folder_path img)
                (Analyzer.images pg)
              /\ (In (folder_path ++ ["original.jpg"]) (Analyzer.images pg) ->
                  Analyzer.images pg = [folder_path ++ ["original.jpg"]]))
    (Analyzer.pages c).
Proof.
  intros H.
  destruct (listdir (paper_dir ++ ["pages"]) fs) as [names|] eqn:El.
  - destruct (PaperContent_spec paper_dir fs names c El H) as [ks [_ Hload]].
    pose proof (load_folders_spec _ _ _ _ Hload) as Hpg.
    eapply Forall2_Forall_r; [exact Hpg|].
    intros d pg [_ [_ Hi]].
    exists ((paper_dir ++ ["pages"]) ++ [d]). now apply page_images_spec.
  - unfold PaperContent in H.
    destruct (exists_ (paper_dir ++ ["pages"]) fs); simpl in H.
    + rewrite El in H. discriminate.
    + inversion H; subst. constructor.
Qed.

(** ** Folders that are not pages *)

Lemma page_folders_prefix (pages_dir : path) (fs : node) (names : list string) :
  Forall (fun f => String.prefix "page_" f = true) (page_folders pages_dir fs names).
Proof.
  apply Forall_forall. intros f Hf. unfold page_folders in Hf.
  apply filter_In in Hf. destruct Hf as [_ Hf].
  apply andb_true_iff in Hf. tauto.
Qed.

(** The loader raises on a page folder without a number. *)
Lemma PaperContent_raises (paper_dir : path) (fs : node) (names : list string)
  (d : string) :
  listdir (paper_dir ++ ["pages"]) fs = Some names ->
  In d names ->
  String.prefix "page_" d = true ->
  isdir (paper_dir ++ ["pages"; d]) fs = true ->
  int (piece d) = None ->
  PaperContent paper_dir fs = Raise (mk_exn OtherException "ValueError").
Proof.
  intros Hl Hin Hp Hd Hbad. unfold PaperContent.
  assert (He : exists_ (paper_dir ++ ["pages"]) fs = true).
  { unfold exists_, listdir in *.
    destruct (lookup (paper_dir ++ ["pages"]) fs); [reflexivity|discriminate]. }
  rewrite He, Hl. simpl.
  rewrite (keyed_raises _ d); [reflexivity| |exact Hbad|apply page_folders_prefix].
  unfold page_folders. apply filter_In. split; [exact Hin|].
  rewrite Hp. simpl. rewrite <- app_assoc. exact Hd.
Qed.

(** X12.  A directory under [pages] whose name, of the ASCII range,
    starts with [page_] but carries no integer after it ([page_],
    [page_tmp], [page_1.5]) makes
    the loader raise [ValueError], whatever the other pages are.  In the
    pipeline, with the OCR stage skipped, the analysis stage then raises
    before the analyzer is called and the loop ends there: the papers that
    follow are not processed. *)
Theorem X12_stray_page_folder_stops_the_run
  (paper_dir : path) (fs : node) (names : list string) (d : string) :
  listdir (paper_dir ++ ["pages"]) fs = Some names ->
  In d names ->
  String.prefix "page_" d = true ->
  isdir (paper_dir ++ ["pages"; d]) fs = true ->
  Chars.ascii_only d = true ->
  int (piece d) = None ->
  PaperContent paper_dir fs = Raise (mk_exn OtherException "ValueError")
  /\ forall base_dir run a an f rest st,
       Pipeline.skip_ocr a = true ->
       Pipeline.skip_analysis a = false ->
       paper_dir = Pipeline.paper_extracted_path base_dir f ->
       Pipeline.disk st = fs ->
       exists_ (Pipeline.extraction_marker base_dir f) fs = true ->
       exists_ (Pipeline.analysis_marker base_dir f) fs = false ->
       Pipeline.process_all base_dir run PaperContent a (Some an) (f :: rest) st
       = (Raise (mk_exn OtherException "ValueError"),
          Pipeline.print (Pipeline.Analyzing (Pipeline.splitext_root f)) st).
Proof.
  intros Hl Hin Hp Hd _ Hbad.
  pose proof (PaperContent_raises paper_dir fs names d Hl Hin Hp Hd Hbad) as Hr.
  split; [exact Hr|].
  intros base_dir run a an f rest st Hocr Han -> <- He Ha.
  apply PipelineFacts.process_all_raise.
  unfold Pipeline.process_item. rewrite Hocr, Han. simpl.
  unfold Pipeline.analysis_stage. now rewrite He, Ha, Hr.
Qed.

(** X12 at a paper with the folders [page_0] and [page_tmp]. *)
Lemma X12_witness :
  PaperContent (Pipeline.paper_extracted_path Examples.base "p.pdf")
    (Examples.tree ["p.pdf"]
       [("p", FS.Dir 4096 [("pages", FS.Dir 4096 [("page_0", FS.Dir 4096 []);
                                                   ("page_tmp", FS.Dir 4096 [])]);
                           ("full_extracted.md", FS.File "text")])])
  = Raise (mk_exn OtherException "ValueError").
Proof.
  refine (proj1 (X12_stray_page_folder_stops_the_run
            (Pipeline.paper_extracted_path Examples.base "p.pdf")
            (Examples.tree ["p.pdf"]
               [("p", FS.Dir 4096 [("pages", FS.Dir 4096 [("page_0", FS.Dir 4096 []);
                                                           ("page_tmp", FS.Dir 4096 [])]);
                                   ("full_extracted.md", FS.File "text")])])
            ["page_0"; "page_tmp"] "page_tmp" _ _ _ _ _ _)).
  - reflexivity.
  - right. left. reflexivity.
  - reflexivity.
  - reflexivity.
  - reflexivity.
  - reflexivity.
Defined.

(** X10 at a paper with the pages 10, 2 and 1. *)
Lemma X10_witness :
  exists ns,
    map page_number
      (match PaperContent ["p"] Worlds.three_pages with
       | Ok c => Analyzer.pages c
       | Raise _ => []
       end) = map Some ns
    /\ StronglySorted Z.le ns.
Proof.
  refine (proj1 (X10_pages_are_sorted_by_number ["p"] Worlds.three_pages
            ["page_10"; "page_2"; "page_1"; "notes"; "page_x"]
            (match PaperContent ["p"] Worlds.three_pages with
             | Ok c => c
             | Raise _ => Analyzer.mk_content [] []
             end) _ _)); reflexivity.
Defined.

(** X11 at the same paper. *)
Lemma X11_witness :
  Forall (fun pg =>
            exists folder_path,
              Forall (fun img => exists_ img Worlds.three_pages = true
                                 /\ image_of folder_path img)
                (Analyzer.images pg)
              /\ (In (folder_path ++ ["original.jpg"]) (Analyzer.images pg) ->
                  Analyzer.images pg = [folder_path ++ ["original.jpg"]]))
    (match PaperContent ["p"] Worlds.three_pages with
     | Ok c => Analyzer.pages c
     | Raise _ => []
     end).
Proof.
  refine (X11_listed_images_exist ["p"] Worlds.three_pages
            (match PaperContent ["p"] Worlds.three_pages with
             | Ok c => c
             | Raise _ => Analyzer.mk_content [] []
             end) _); reflexivity.
Defined.

End LoaderFacts.

(* ================================================================== *)
(** * The analyzers *)
(* ================================================================== *)

Module AnalyzerFacts.
Import Py FS FSFacts DiskFacts Analyzer AnalyzerCLI.

Definition count_images (ps : list part) : nat :=
  List.length (filter is_image_part ps).

Lemma count_images_app (a b : list part) :
  count_images (a ++ b) = (count_images a + count_images b)%nat.
Proof. unfold count_images. now rewrite filter_app, length_app. Qed.

Section OpenAI.

Variable model_name : string.
Variable b64encode : string -> string.
Variable chat_create : string -> list message -> Z -> result value.

Local Abbreviation image_parts := (Analyzer.image_parts b64encode).
Local Abbreviation page_parts := (Analyzer.page_parts b64encode).
Local Abbreviation pages_parts := (Analyzer.pages_parts b64encode).
Local Abbreviation build_messages := (Analyzer.build_messages b64encode).

(** One image part for each listed image that exists. *)
Lemma image_parts_spec (fs : node) (imgs : list path) :
  Forall (fun img => isdir img fs = false) imgs ->
  exists ips,
    image_parts fs imgs = Ok ips
    /\ count_images ips = List.length (filter (fun img => exists_ img fs) imgs).
Proof.
  induction 1 as [|img imgs Hd _ [ips [Hi Hc]]]; simpl.
  - exists []. auto.
  - unfold exists_, isdir, encode_image in *.
    destruct (lookup img fs) as [[d|sz es]|]; try discriminate.
    + rewrite Hi. simpl. eexists. split; [reflexivity|].
      unfold count_images in *. simpl. now rewrite Hc.
    + exists ips. auto.
Qed.

Lemma page_parts_spec (fs : node) (pg : page) :
  Forall (fun img => isdir img fs = false) (images pg) ->
  exists ps,
    page_parts fs pg = Ok ps
    /\ count_images ps
       = List.length (filter (fun img => exists_ img fs) (images pg)).
Proof.
  intros H. unfold Analyzer.page_parts.
  destruct (images pg) as [|i0 imgs] eqn:E.
  - eexists. split; reflexivity.
  - destruct (image_parts_spec fs (i0 :: imgs) H) as [ips [Hi Hc]].
    rewrite Hi. simpl. eexists. split; [reflexivity|].
    change (count_images (ips ++ [Text nl;
              Text (nl ++ "[End of Page " ++ page_num pg ++ "]" ++ nl ++ nl)])
            = List.length (filter (fun img => exists_ img fs) (i0 :: imgs))).
    rewrite count_images_app, Hc. apply Nat.add_0_r.
Qed.

Lemma pages_parts_spec (fs : node) (pgs : list page) :
  Forall (fun img => isdir img fs = false) (flat_map images pgs) ->
  exists ps,
    pages_parts fs pgs = Ok ps
    /\ count_images ps
       = List.length (filter (fun img => exists_ img fs) (flat_map images pgs)).
Proof.
  induction pgs as [|pg pgs IH]; simpl; intros H.
  - exists []. auto.
  - apply Forall_app in H. destruct H as [H1 H2].
    destruct (page_parts_spec fs pg H1) as [ps [Hp Hc]].
    destruct (IH H2) as [rest [Hr Hcr]].
    rewrite Hp, Hr. simpl. eexists. split; [reflexivity|].
    now rewrite count_images_app, filter_app, length_app, Hc, Hcr.
Qed.

(** X13.  When none of the listed images is a directory, the request of
    the hosted analyzer is always built: a system message with the prompt
    and one user message, which carries one image for each listed image
    that exists on disk at that time (an image that is gone is left out
    without a word) ; [analyze] then never raises, whatever the client
    does. *)
Theorem X13_openai_request_skips_missing_images (fs : node) (c : PaperContent) :
  Forall (fun img => isdir img fs = false) (all_images c) ->
  (exists ps,
      build_messages fs c
      = Ok [ {| role := "system"; msg_body := Plain system_prompt |};
             {| role := "user"; msg_body := Parts ps |} ]
      /\ count_images ps
         = List.length (filter (fun img => exists_ img fs) (all_images c)))
  /\ exists v, OpenAI_analyze model_name b64encode chat_create fs c = Ok v.
Proof.
  intros H. destruct (pages_parts_spec fs (pages c) H) as [ps [Hp Hc]].
  assert (Hb : build_messages fs c
               = Ok [ {| role := "system"; msg_body := Plain system_prompt |};
                      {| role := "user";
                         msg_body := Parts (Text ("Please analyze this paper based on the following pages:" ++ nl ++ nl) :: ps) |} ]).
  { unfold Analyzer.build_messages. now rewrite Hp. }
  split.
  - eexists. split; [exact Hb|]. exact Hc.
  - unfold OpenAI_analyze. rewrite Hb. simpl.
    destruct (chat_create _ _ _); eauto.
Qed.

End OpenAI.

Section LocalVLM.

Variable load_image : node -> path -> result string.
Variable generate : list part -> list string -> result string.

Local Abbreviation load_images := (Analyzer.load_images load_image).
Local Abbreviation local_parts := (Analyzer.local_parts load_image).

Lemma load_images_app (fs : node) (a b : list path) :
  load_images fs (a ++ b)
  = (x <- load_images fs a ;; y <- load_images fs b ;; Ok (x ++ y)).
Proof.
  induction a as [|p a IH]; simpl.
  - destruct (load_images fs b); reflexivity.
  - destruct (load_image fs p); simpl; [|reflexivity].
    rewrite IH. destruct (load_images fs a); simpl; [|reflexivity].
    destruct (load_images fs b); reflexivity.
Qed.

(** The images [local_parts] collects are the listed images, loaded in
    page order; it fails where the first of them fails. *)
Lemma local_parts_images (fs : node) (pgs : list page) :
  match local_parts fs pgs with
  | Ok pi =>
      load_images fs (flat_map images pgs) = Ok (snd pi)
      /\ count_images (fst pi) = List.length (snd pi)
  | Raise e => load_images fs (flat_map images pgs) = Raise e
  end.
Proof.
  induction pgs as [|pg pgs IH]; [split; reflexivity|].
  cbn [flat_map]. rewrite load_images_app.
  destruct pg as [num txt imgs]. cbn [images] in *.
  destruct imgs as [|i0 imgs].
  - cbn - [count_images].
    destruct (local_parts fs pgs) as [[ps ims]|e]; cbn - [count_images] in *.
    + destruct IH as [IH1 IH2]. rewrite IH1. cbn - [count_images].
      split; [reflexivity|exact IH2].
    + now rewrite IH.
  - cbn - [count_images Analyzer.load_images].
    destruct (Analyzer.load_images load_image fs (i0 :: imgs)) as [loaded|e];
      cbn - [count_images Analyzer.load_images]; [|reflexivity].
    destruct (local_parts fs pgs) as [[ps ims]|e];
      cbn - [count_images Analyzer.load_images] in *.
    + destruct IH as [IH1 IH2]. rewrite IH1. cbn - [count_images].
      split; [reflexivity|].
      change (count_images ((map Image loaded ++ [Text nl]) ++ ps)
              = List.length (loaded ++ ims)).
      rewrite !count_images_app, length_app, IH2.
      assert (Hm : count_images (map Image loaded) = List.length loaded).
      { unfold count_images. clear. induction loaded; simpl; auto. }
      rewrite Hm. change (count_images [Text nl]) with 0%nat. lia.
    + now rewrite IH.
Qed.

(** X14.  The local analyzer loads every listed image, in page order,
    before it calls the model, with no check that the file exists.  When
    they all load, the model gets exactly these images, as many as the
    conversation has image parts, and its output is the report; when one
    does not load, [analyze] raises the exception of the first that fails
    and the model is not called. *)
Theorem X14_local_analyzer_loads_every_image (fs : node) (c : PaperContent) :
  (forall loaded,
      load_images fs (all_images c) = Ok loaded ->
      exists ps,
        count_images ps = List.length loaded
        /\ LocalVLM_analyze load_image generate fs c
           = match generate (Text (system_prompt ++ nl ++ nl) :: ps) loaded with
             | Ok out => Ok (PyStr out)
             | Raise e => Raise e
             end)
  /\ (forall e,
        load_images fs (all_images c) = Raise e ->
        LocalVLM_analyze load_image generate fs c = Raise e).
Proof.
  pose proof (local_parts_images fs (pages c)) as H.
  unfold LocalVLM_analyze, all_images. split.
  - intros loaded Hl.
    destruct (local_parts fs (pages c)) as [[ps ims]|e]; simpl in *.
    + destruct H as [H1 H2]. rewrite Hl in H1. inversion H1; subst.
      exists ps. split; [exact H2|].
      destruct (generate _ _); reflexivity.
    + congruence.
  - intros e Hl.
    destruct (local_parts fs (pages c)) as [[ps ims]|e']; simpl in *.
    + destruct H as [H1 _]. congruence.
    + congruence.
Qed.

End LocalVLM.

(** ** The single-paper command *)

Section CLI.

Variable init_analyzer : result analyzer.

(** X15.  The single-paper command has no gate and no check of the
    report: with the paper's folder in place, it opens
    [analysis_report.md] for writing whatever is there, so a report that is
    already saved is lost; a report that is a string, even the empty one,
    is then what the file holds; and when the analyzer returns [None] the
    command ends in [TypeError] with the file left empty.  The file exists
    in every case, so the pipeline will not analyze the paper again. *)
Theorem X15_single_paper_command_always_opens_the_report
  (paper_folder : path) (fs : node) (sz : Z) (es : list (string * node))
  (c : PaperContent) (an : analyzer) (report : value) :
  lookup paper_folder fs = Some (Dir sz es) ->
  isdir (report_path paper_folder) fs = false ->
  Loader.PaperContent paper_folder fs = Ok c ->
  init_analyzer = Ok an ->
  analyze an fs c = Ok report ->
  let run := AnalyzerCLI.main init_analyzer paper_folder fs in
  fst run = match report with
            | PyStr _ => Ok tt
            | PyNone => Raise (mk_exn OtherException "TypeError")
            end
  /\ lookup (report_path paper_folder) (snd run)
     = Some (File match report with
                  | PyStr r => r
                  | PyNone => EmptyString
                  end)
  /\ forall base_dir load other f st,
       paper_folder = Pipeline.paper_extracted_path base_dir f ->
       Pipeline.disk st = snd run ->
       exists_ (Pipeline.extraction_marker base_dir f) (snd run) = true ->
       Pipeline.analysis_stage base_dir load other f st = (Ok tt, st).
Proof.
  intros Hd Hnd Hc Hi Ha run.
  assert (He : exists_ paper_folder fs = true).
  { unfold exists_. now rewrite Hd. }
  destruct (ScraperMore.write_file_in_dir paper_folder "analysis_report.md" ""
              fs sz es Hd Hnd) as [fs1 H1].
  pose proof (lookup_write_file _ _ _ _ H1) as L1.
  assert (Hq : report_path paper_folder <> []).
  { unfold report_path. destruct paper_folder; discriminate. }
  assert (Hrun : run = write_report (report_path paper_folder) report fs).
  { unfold run, AnalyzerCLI.main. now rewrite He, Hc, Hi, Ha. }
  assert (Hres : fst run = match report with
                           | PyStr _ => Ok tt
                           | PyNone => Raise (mk_exn OtherException "TypeError")
                           end
                 /\ lookup (report_path paper_folder) (snd run)
                    = Some (File match report with
                                 | PyStr r => r
                                 | PyNone => EmptyString
                                 end)).
  { rewrite Hrun. unfold write_report, report_path in *. rewrite H1.
    destruct report as [|r]; [split; [reflexivity|exact L1]|].
    unfold append_file. rewrite L1.
    destruct (write_file_over_file _ (("" ++ r)%string) "" fs1 Hq L1) as [fs2 H2].
    rewrite H2. split; [reflexivity|].
    apply (lookup_write_file _ _ _ _ H2). }
  destruct Hres as [Hf Hl]. split; [exact Hf|]. split; [exact Hl|].
  intros base_dir load other f st -> Hst Ee.
  unfold Pipeline.analysis_stage. rewrite Hst, Ee.
  unfold Pipeline.analysis_marker, exists_.
  unfold report_path in Hl. now rewrite Hl.
Qed.

End CLI.

(** X13 at that paper and a client whose call fails. *)
Lemma X13_witness :
  exists v,
    OpenAI_analyze "gpt-5" Examples.no_b64 Examples.failing_client
      Worlds.three_pages EngineWorlds.three_pages_content = Ok v.
Proof.
  refine (proj2 (X13_openai_request_skips_missing_images "gpt-5" Examples.no_b64
            Examples.failing_client Worlds.three_pages EngineWorlds.three_pages_content _)).
  vm_compute. repeat constructor.
Defined.

(** X15 at that paper and an analyzer that returns [None]. *)
Lemma X15_witness :
  fst (AnalyzerCLI.main (Ok (Examples.answers (Ok PyNone))) ["p"] Worlds.three_pages)
  = Raise (mk_exn OtherException "TypeError").
Proof.
  refine (proj1 (X15_single_paper_command_always_opens_the_report
            (Ok (Examples.answers (Ok PyNone))) ["p"] Worlds.three_pages
            4096%Z _ EngineWorlds.three_pages_content (Examples.answers (Ok PyNone)) PyNone
            _ _ _ _ _)); reflexivity.
Defined.

End AnalyzerFacts.

(* ================================================================== *)
(** * The extraction engine *)
(* ================================================================== *)

Module EngineFacts.
Import Py FS FSFacts Engine.

(** ** Paths that part *)

Lemma assoc_set_entry_other {A} (k k' : string) (v : A) (es : list (string * A)) :
  k <> k' -> assoc k' (set_entry k v es) = assoc k' es.
Proof.
  intros Hk. induction es as [|[k0 v0] es IH]; simpl.
  - destruct (String.eqb k' k) eqn:E; [apply String.eqb_eq in E; congruence|].
    reflexivity.
  - destruct (String.eqb k k0) eqn:E; simpl.
    + apply String.eqb_eq in E. subst k0.
      destruct (String.eqb k' k) eqn:E'; [apply String.eqb_eq in E'; congruence|].
      reflexivity.
    + destruct (String.eqb k' k0); auto.
Qed.

Lemma lookup_fresh_dir (c : string) (q : path) : lookup (c :: q) fresh_dir = None.
Proof. reflexivity. Qed.

Lemma lookup_fresh_dir_app (d : path) (c : string) (q : path) :
  lookup (d ++ c :: q) fresh_dir = None.
Proof. destruct d; reflexivity. Qed.

(** [makedirs] changes nothing below the directory it makes. *)
Lemma makedirs_below (p : path) (c : string) (q : path) :
  forall n n',
    makedirs p n = Some n' ->
    lookup (p ++ c :: q) n' = lookup (p ++ c :: q) n.
Proof.
  induction p as [|k p IH]; intros n n' H.
  - destruct n; simpl in H; inversion H; subst; reflexivity.
  - destruct n as [d|sz es]; [discriminate|]. simpl in H.
    destruct (makedirs p match assoc k es with
                         | Some m => m
                         | None => fresh_dir
                         end) as [m'|] eqn:E; [|discriminate].
    inversion H; subst. simpl. rewrite assoc_set_entry.
    rewrite (IH _ _ E).
    destruct (assoc k es); [reflexivity|apply lookup_fresh_dir_app].
Qed.

(** ... and nothing on a path that parts from it. *)
Lemma makedirs_apart (d : path) (c c' : string) (p1 q1 : path) :
  c <> c' ->
  forall n n',
    makedirs (d ++ c :: p1) n = Some n' ->
    lookup (d ++ c' :: q1) n' = lookup (d ++ c' :: q1) n.
Proof.
  intros Hc. induction d as [|k d IH]; intros n n' H.
  - destruct n as [data|sz es]; [discriminate|]. simpl in H.
    destruct (makedirs p1 _) as [m'|]; [|discriminate].
    inversion H; subst. simpl. now rewrite assoc_set_entry_other.
  - destruct n as [data|sz es]; [discriminate|]. simpl in H.
    destruct (makedirs (d ++ c :: p1) match assoc k es with
                                      | Some m => m
                                      | None => fresh_dir
                                      end) as [m'|] eqn:E; [|discriminate].
    inversion H; subst. simpl. rewrite assoc_set_entry.
    rewrite (IH _ _ E).
    destruct (assoc k es); [reflexivity|apply lookup_fresh_dir_app].
Qed.

Lemma write_file_cons (k : string) (p : path) (data : string) (sz : Z)
  (es : list (string * node)) :
  p <> [] ->
  write_file (k :: p) data (Dir sz es)
  = match assoc k es with
    | Some m0 =>
        match write_file p data m0 with
        | Some m' => Some (Dir sz (set_entry k m' es))
        | None => None
        end
    | None => None
    end.
Proof. destruct p; [congruence|reflexivity]. Qed.

Lemma write_file_apart (d : path) (c c' : string) (p1 q1 : path) (data : string) :
  c <> c' ->
  forall n n',
    write_file (d ++ c :: p1) data n = Some n' ->
    lookup (d ++ c' :: q1) n' = lookup (d ++ c' :: q1) n.
Proof.
  intros Hc. induction d as [|k d IH]; intros n n' H.
  - destruct n as [data0|sz es]; [now destruct p1|].
    destruct p1 as [|c1 p1].
    + simpl in H. destruct (assoc c es) as [[d0|sz0 es0]|]; inversion H; subst;
        simpl; now rewrite assoc_set_entry_other.
    + cbn [app] in H. rewrite write_file_cons in H by discriminate.
      destruct (assoc c es) as [m0|]; [|discriminate].
      destruct (write_file (c1 :: p1) data m0) as [m'|]; [|discriminate].
      inversion H; subst. simpl. now rewrite assoc_set_entry_other.
  - destruct n as [data0|sz es]; [simpl in H; now destruct d|].
    cbn [app] in H. rewrite write_file_cons in H by (destruct d; discriminate).
    destruct (assoc k es) as [m0|] eqn:Ea; [|discriminate].
    destruct (write_file (d ++ c :: p1) data m0) as [m'|] eqn:E; [|discriminate].
    inversion H; subst. simpl. rewrite assoc_set_entry, Ea. now apply IH.
Qed.

Lemma put_entries_apart (d : path) (c c' : string) (p1 q1 : path)
  (new : list (string * node)) :
  c <> c' ->
  forall n n',
    put_entries (d ++ c :: p1) new n = Some n' ->
    lookup (d ++ c' :: q1) n' = lookup (d ++ c' :: q1) n.
Proof.
  intros Hc. induction d as [|k d IH]; intros n n' H.
  - destruct n as [data0|sz es]; [discriminate|]. simpl in H.
    destruct (assoc c es) as [m0|]; [|discriminate].
    destruct (put_entries p1 new m0) as [m'|]; [|discriminate].
    inversion H; subst. simpl. now rewrite assoc_set_entry_other.
  - destruct n as [data0|sz es]; [discriminate|]. simpl in H.
    destruct (assoc k es) as [m0|] eqn:Ea; [|discriminate].
    destruct (put_entries (d ++ c :: p1) new m0) as [m'|] eqn:E; [|discriminate].
    inversion H; subst. simpl. rewrite assoc_set_entry, Ea. now apply IH.
Qed.

(** ** Directories on the way *)

(** An operation that went through below [p] went through a directory at
    [p], which is still one afterwards. *)
Lemma makedirs_isdir (p q : path) :
  forall n n', makedirs (p ++ q) n = Some n' -> isdir p n' = true.
Proof.
  unfold isdir. induction p as [|k p IH]; intros n n' H.
  - cbn [app] in H. destruct q as [|c q]; destruct n as [d|sz es]; simpl in H;
      try discriminate; [now inversion H|].
    destruct (makedirs q _); now inversion H.
  - cbn [app] in H. destruct n as [d|sz es]; simpl in H; [discriminate|].
    destruct (makedirs (p ++ q) match assoc k es with
                                | Some m => m
                                | None => fresh_dir
                                end) as [m'|] eqn:E; [|discriminate].
    inversion H; subst. simpl. rewrite assoc_set_entry. exact (IH _ _ E).
Qed.

Lemma write_file_isdir (p : path) (c : string) (q : path) (data : string) :
  forall n n', write_file (p ++ c :: q) data n = Some n' -> isdir p n' = true.
Proof.
  unfold isdir. induction p as [|k p IH]; intros n n' H.
  - destruct n as [d|sz es]; [now destruct q|]. simpl in H.
    destruct q as [|c1 q].
    + destruct (assoc c es) as [[d0|sz0 es0]|]; now inversion H.
    + destruct (assoc c es) as [m0|]; [|discriminate].
      destruct (write_file (c1 :: q) data m0); now inversion H.
  - destruct n as [d|sz es]; [simpl in H; now destruct p|].
    cbn [app] in H. rewrite write_file_cons in H by (destruct p; discriminate).
    destruct (assoc k es) as [m0|]; [|discriminate].
    destruct (write_file (p ++ c :: q) data m0) as [m'|] eqn:E; [|discriminate].
    inversion H; subst. simpl. rewrite assoc_set_entry. exact (IH _ _ E).
Qed.

Lemma put_entries_isdir (p q : path) (new : list (string * node)) :
  forall n n', put_entries (p ++ q) new n = Some n' -> isdir p n' = true.
Proof.
  unfold isdir. induction p as [|k p IH]; intros n n' H.
  - cbn [app] in H. destruct q as [|c q]; destruct n as [d|sz es]; simpl in H;
      try discriminate; [now inversion H|].
    destruct (assoc c es) as [m0|]; [|discriminate].
    destruct (put_entries q new m0); now inversion H.
  - cbn [app] in H. destruct n as [d|sz es]; simpl in H; [discriminate|].
    destruct (assoc k es) as [m0|]; [|discriminate].
    destruct (put_entries (p ++ q) new m0) as [m'|] eqn:E; [|discriminate].
    inversion H; subst. simpl. rewrite assoc_set_entry. exact (IH _ _ E).
Qed.

Lemma isdir_not_file (p : path) (n : node) :
  isdir p n = true -> forall d, lookup p n <> Some (File d).
Proof.
  unfold isdir. intros H d E. rewrite E in H. discriminate.
Qed.

Section Engine.

Variable convert_from_path : FS.path -> FS.node -> result (list string).
Variable infer : string -> result value * list (string * FS.node).
Variable load_model : result unit.

Local Abbreviation process_pages := (Engine.process_pages infer).
Local Abbreviation process_pdf := (Engine.process_pdf convert_from_path infer).
Local Abbreviation single_paper :=
  (Engine.single_paper convert_from_path infer load_model).

(** The pages are written below the pages directory only. *)
Lemma process_pages_apart (d : path) (c c' : string) (p1 q1 : path) :
  c <> c' ->
  forall images i t fs,
    lookup (d ++ c' :: q1) (snd (process_pages (d ++ c :: p1) i images t fs))
    = lookup (d ++ c' :: q1) fs.
Proof.
  intros Hc. induction images as [|image rest IH]; intros i t fs; [reflexivity|].
  cbn [Engine.process_pages].
  set (pg := ("page_" ++ str_of_Z (Z.of_nat i))%string).
  assert (Ep : forall r, (d ++ c :: p1) ++ pg :: r = d ++ c :: (p1 ++ pg :: r)).
  { intros r. now rewrite <- app_assoc. }
  destruct (makedirs ((d ++ c :: p1) ++ [pg]) fs) as [fs1|] eqn:E1; [|reflexivity].
  rewrite Ep in E1. pose proof (makedirs_apart d c c' _ q1 Hc _ _ E1) as F1.
  destruct (write_file (((d ++ c :: p1) ++ [pg]) ++ ["original.jpg"]) image fs1)
    as [fs2|] eqn:E2; [|exact F1].
  rewrite <- app_assoc in E2. simpl in E2. rewrite Ep in E2.
  pose proof (write_file_apart d c c' _ q1 image Hc _ _ E2) as F2.
  destruct (infer image) as [r saved].
  destruct (put_entries ((d ++ c :: p1) ++ [pg]) saved fs2) as [fs3|] eqn:E3;
    [|simpl; congruence].
  rewrite Ep in E3. pose proof (put_entries_apart d c c' _ q1 saved Hc _ _ E3) as F3.
  destruct r as [res|e]; [|simpl; congruence].
  rewrite IH. congruence.
Qed.

(** The text gathered is one section for each page, in order. *)
Lemma process_pages_text (pages_dir : path) :
  forall images i t fs full fs',
    process_pages pages_dir i images t fs = (Ok full, fs') ->
    exists texts,
      List.length texts = List.length images
      /\ full = (t ++ sections_from i texts)%string.
Proof.
  induction images as [|image rest IH]; intros i t fs full fs' H.
  - simpl in H. inversion H; subst. exists []. split; [reflexivity|].
    simpl. now rewrite ScraperMore.append_empty_r.
  - cbn [Engine.process_pages] in H.
    destruct (makedirs _ fs) as [fs1|]; [|discriminate].
    destruct (write_file _ image fs1) as [fs2|]; [|discriminate].
    destruct (infer image) as [r saved].
    destruct (put_entries _ saved fs2) as [fs3|]; [|discriminate].
    destruct r as [res|e]; [|discriminate].
    destruct (IH _ _ _ _ _ H) as [texts [Hl Hf]].
    eexists (_ :: texts). split; [simpl; now rewrite Hl|].
    rewrite Hf. simpl. now rewrite ScraperMore.append_assoc.
Qed.

(** What [process_pdf] does to the marker of the paper. *)
Lemma process_pdf_marker (pdf_path output_dir : path) (fs : node) :
  match process_pdf pdf_path output_dir fs with
  | (Ok true, fs') =>
      exists texts, lookup (marker pdf_path output_dir) fs'
                    = Some (File (sections_from 0 texts))
  | (_, fs') =>
      lookup (marker pdf_path output_dir) fs' = lookup (marker pdf_path output_dir) fs
  end.
Proof.
  unfold Engine.process_pdf, marker.
  set (out := paper_output_dir pdf_path output_dir).
  destruct (makedirs out fs) as [fs1|] eqn:E1; [|reflexivity].
  pose proof (makedirs_below out "full_extracted.md" [] _ _ E1) as F1.
  destruct (convert_from_path pdf_path fs1) as [images|e]; [|exact F1].
  destruct (makedirs (out ++ ["pages"]) fs1) as [fs2|] eqn:E2; [|exact F1].
  pose proof (makedirs_apart out "pages" "full_extracted.md" [] [] ltac:(discriminate)
                _ _ E2) as F2.
  pose proof (process_pages_apart out "pages" "full_extracted.md" [] []
                ltac:(discriminate) images 0 EmptyString fs2) as F3.
  destruct (process_pages (out ++ ["pages"]) 0 images EmptyString fs2)
    as [[full|e] fs3] eqn:E3; simpl in F3; [|congruence].
  destruct (write_file (out ++ ["full_extracted.md"]) full fs3) as [fs4|] eqn:E4;
    [|congruence].
  destruct (process_pages_text _ _ _ _ _ _ _ E3) as [texts [_ Hf]].
  exists texts. rewrite (lookup_write_file _ _ _ _ E4). now rewrite Hf.
Qed.

(** X16.  [process_pdf] writes the extraction marker last and only when
    every page went through: when it returns [True] the marker holds one
    section for each page, in order; when it returns [False] or ends in an
    exception, it has not touched the marker (a paper that had none still
    has none). *)
Theorem X16_marker_is_written_last (pdf_path output_dir : path) (fs : node) :
  (fst (process_pdf pdf_path output_dir fs) = Ok true ->
   exists (fs1 : node) (images texts : list string),
     convert_from_path pdf_path fs1 = Ok images
     /\ List.length texts = List.length images
     /\ lookup (marker pdf_path output_dir) (snd (process_pdf pdf_path output_dir fs))
        = Some (File (sections_from 0 texts)))
  /\ (fst (process_pdf pdf_path output_dir fs) <> Ok true ->
      lookup (marker pdf_path output_dir) (snd (process_pdf pdf_path output_dir fs))
      = lookup (marker pdf_path output_dir) fs).
Proof.
  split.
  - unfold Engine.process_pdf, marker.
    set (out := paper_output_dir pdf_path output_dir).
    destruct (makedirs out fs) as [fs1|]; [|discriminate].
    destruct (convert_from_path pdf_path fs1) as [images|e] eqn:Ec; [|discriminate].
    destruct (makedirs (out ++ ["pages"]) fs1) as [fs2|]; [|discriminate].
    destruct (process_pages (out ++ ["pages"]) 0 images EmptyString fs2)
      as [[full|e] fs3] eqn:E3; [|discriminate].
    destruct (write_file (out ++ ["full_extracted.md"]) full fs3) as [fs4|] eqn:E4;
      [|discriminate].
    intros _. destruct (process_pages_text _ _ _ _ _ _ _ E3) as [texts [Hl Hf]].
    exists fs1, images, texts. split; [exact Ec|]. split; [exact Hl|].
    simpl. rewrite (lookup_write_file _ _ _ _ E4). now rewrite Hf.
  - pose proof (process_pdf_marker pdf_path output_dir fs) as H.
    destruct (process_pdf pdf_path output_dir fs) as [[[|]|e] fs']; simpl;
      intros Hne; auto. now elim Hne.
Qed.

(** [process_pdf] writes below the paper's output directory only. *)
Lemma process_pdf_apart (pdf_path output_dir : path) (d : path) (c c' : string)
  (p1 q1 : path) (fs : node) :
  paper_output_dir pdf_path output_dir = d ++ c :: p1 ->
  c <> c' ->
  lookup (d ++ c' :: q1) (snd (process_pdf pdf_path output_dir fs))
  = lookup (d ++ c' :: q1) fs.
Proof.
  intros Hout Hc. unfold Engine.process_pdf. rewrite Hout.
  assert (Ep : forall r, (d ++ c :: p1) ++ r = d ++ c :: (p1 ++ r)).
  { intros r. now rewrite <- app_assoc. }
  destruct (makedirs (d ++ c :: p1) fs) as [fs1|] eqn:E1; [|reflexivity].
  pose proof (makedirs_apart d c c' _ q1 Hc _ _ E1) as F1.
  destruct (convert_from_path pdf_path fs1) as [images|e]; [|exact F1].
  destruct (makedirs ((d ++ c :: p1) ++ ["pages"]) fs1) as [fs2|] eqn:E2; [|exact F1].
  rewrite Ep in E2. pose proof (makedirs_apart d c c' _ q1 Hc _ _ E2) as F2.
  rewrite Ep.
  pose proof (process_pages_apart d c c' (p1 ++ ["pages"]) q1 Hc images 0
                EmptyString fs2) as F3.
  destruct (process_pages (d ++ c :: p1 ++ ["pages"]) 0 images EmptyString fs2)
    as [[full|e] fs3]; simpl in F3; [|simpl; congruence].
  destruct (write_file ((d ++ c :: p1) ++ ["full_extracted.md"]) full fs3)
    as [fs4|] eqn:E4; [|simpl; congruence].
  rewrite Ep in E4. pose proof (write_file_apart d c c' _ q1 full Hc _ _ E4) as F4.
  simpl. congruence.
Qed.

(** X19.  [process_pdf] changes nothing outside the output directory of
    the paper it works on: the output of every other paper is as before,
    whether the call succeeds or fails, and so is, in the layout of the
    pipeline, the directory of the downloaded papers. *)
Theorem X19_engine_writes_in_its_own_directory
  (pdf_path output_dir : path) (fs : node) :
  (forall g q,
      g <> Pipeline.splitext_root (basename pdf_path) ->
      lookup (output_dir ++ g :: q) (snd (process_pdf pdf_path output_dir fs))
      = lookup (output_dir ++ g :: q) fs)
  /\ (forall base_dir q,
        output_dir = Pipeline.extracted_dir base_dir ->
        lookup (Pipeline.original_dir base_dir ++ q)
          (snd (process_pdf pdf_path output_dir fs))
        = lookup (Pipeline.original_dir base_dir ++ q) fs).
Proof.
  split.
  - intros g q Hg.
    apply process_pdf_apart with (c := Pipeline.splitext_root (basename pdf_path))
                                 (p1 := []); [reflexivity|congruence].
  - intros base_dir q ->.
    unfold Pipeline.original_dir. rewrite <- app_assoc. simpl.
    apply process_pdf_apart with (c := "extracted_papers")
      (p1 := [Pipeline.splitext_root (basename pdf_path)]); [|discriminate].
    unfold paper_output_dir, Pipeline.extracted_dir. now rewrite <- app_assoc.
Qed.

Lemma basename_of_entry (dir : path) (f : string) : basename (dir ++ [f]) = f.
Proof. unfold basename. apply last_last. Qed.

(** The engine writes its marker where the pipeline looks for it. *)
Lemma marker_is_extraction_marker (base_dir : path) (f : string) :
  marker (Pipeline.original_dir base_dir ++ [f]) (Pipeline.extracted_dir base_dir)
  = Pipeline.extraction_marker base_dir f.
Proof.
  unfold marker, paper_output_dir, Pipeline.extraction_marker,
    Pipeline.paper_extracted_path.
  now rewrite basename_of_entry.
Qed.

Local Abbreviation as_subprocess :=
  (Engine.as_subprocess convert_from_path infer load_model).

(** The run of the engine as a subprocess: status 0 exactly when
    [process_pdf] returned [True]. *)
Lemma as_subprocess_cases (pdf_path output_dir : path) (fs : node) :
  exists code fs',
    as_subprocess pdf_path output_dir fs
    = (Ok {| Pipeline.returncode := code; Pipeline.stdout := "";
             Pipeline.stderr := "" |}, fs')
    /\ ((code = 0%Z /\ process_pdf pdf_path output_dir fs = (Ok true, fs'))
        \/ code = 1%Z).
Proof.
  unfold Engine.as_subprocess, Engine.single_paper.
  destruct load_model as [u|e]; [|exists 1%Z, fs; auto].
  destruct (process_pdf pdf_path output_dir fs) as [[[|]|e] fs'].
  - exists 0%Z, fs'. auto.
  - exists 1%Z, fs'. auto.
  - exists 1%Z, fs'. auto.
Qed.

(** The pages keep the directory they are written below. *)
Lemma process_pages_isdir (out : path) (c : string) (p1 : path) :
  forall images i t fs,
    isdir out fs = true ->
    isdir out (snd (process_pages (out ++ c :: p1) i images t fs)) = true.
Proof.
  induction images as [|image rest IH]; intros i t fs Hfs; [exact Hfs|].
  cbn [Engine.process_pages].
  set (pg := ("page_" ++ str_of_Z (Z.of_nat i))%string).
  destruct (makedirs ((out ++ c :: p1) ++ [pg]) fs) as [fs1|] eqn:E1; [|exact Hfs].
  rewrite <- app_assoc in E1. pose proof (makedirs_isdir out _ _ _ E1) as F1.
  destruct (write_file (((out ++ c :: p1) ++ [pg]) ++ ["original.jpg"]) image fs1)
    as [fs2|] eqn:E2; [|exact F1].
  rewrite <- !app_assoc in E2. simpl in E2.
  pose proof (write_file_isdir out c _ image _ _ E2) as F2.
  destruct (infer image) as [r saved].
  destruct (put_entries ((out ++ c :: p1) ++ [pg]) saved fs2) as [fs3|] eqn:E3;
    [|exact F2].
  rewrite <- app_assoc in E3. pose proof (put_entries_isdir out _ saved _ _ E3) as F3.
  destruct r as [res|e]; [|exact F3].
  now apply IH.
Qed.

(** [process_pdf] puts no regular file where the paper's directory goes. *)
Lemma process_pdf_no_file (pdf_path output_dir : path) (fs : node) :
  (forall d, lookup (paper_output_dir pdf_path output_dir) fs <> Some (File d)) ->
  forall d,
    lookup (paper_output_dir pdf_path output_dir)
      (snd (process_pdf pdf_path output_dir fs)) <> Some (File d).
Proof.
  intros Hfs. unfold Engine.process_pdf.
  set (out := paper_output_dir pdf_path output_dir) in *.
  destruct (makedirs out fs) as [fs1|] eqn:E1; [|exact Hfs].
  rewrite <- (app_nil_r out) in E1. pose proof (makedirs_isdir out [] _ _ E1) as F1.
  apply isdir_not_file.
  destruct (convert_from_path pdf_path fs1) as [images|e]; [|exact F1].
  destruct (makedirs (out ++ ["pages"]) fs1) as [fs2|] eqn:E2; [|exact F1].
  pose proof (makedirs_isdir out _ _ _ E2) as F2.
  pose proof (process_pages_isdir out "pages" [] images 0 EmptyString fs2 F2) as F3.
  destruct (process_pages (out ++ ["pages"]) 0 images EmptyString fs2)
    as [[full|e] fs3]; simpl in F3; [|exact F3].
  destruct (write_file (out ++ ["full_extracted.md"]) full fs3) as [fs4|] eqn:E4;
    [|exact F3].
  exact (write_file_isdir out _ [] full _ _ E4).
Qed.

(** What a call that returned [True] has done. *)
Lemma process_pdf_true (pdf_path output_dir : path) (fs fs' : node) :
  process_pdf pdf_path output_dir fs = (Ok true, fs') ->
  exists (fs1 : node) (images texts : list string),
    makedirs (paper_output_dir pdf_path output_dir) fs = Some fs1
    /\ convert_from_path pdf_path fs1 = Ok images
    /\ List.length texts = List.length images
    /\ lookup (marker pdf_path output_dir) fs' = Some (File (sections_from 0 texts)).
Proof.
  unfold Engine.process_pdf, marker.
  set (out := paper_output_dir pdf_path output_dir).
  destruct (makedirs out fs) as [fs1|]; [|discriminate].
  destruct (convert_from_path pdf_path fs1) as [images|e] eqn:Ec; [|discriminate].
  destruct (makedirs (out ++ ["pages"]) fs1) as [fs2|]; [|discriminate].
  destruct (process_pages (out ++ ["pages"]) 0 images EmptyString fs2)
    as [[full|e] fs3] eqn:E3; [|discriminate].
  destruct (write_file (out ++ ["full_extracted.md"]) full fs3) as [fs4|] eqn:E4;
    [|discriminate].
  intros H. inversion H; subst fs4.
  destruct (process_pages_text _ _ _ _ _ _ _ E3) as [texts [Hl Hf]].
  exists fs1, images, texts. repeat split; auto.
  rewrite (lookup_write_file _ _ _ _ E4). now rewrite Hf.
Qed.

Lemma paper_output_dir_of_entry (base_dir : path) (f : string) :
  paper_output_dir (Pipeline.original_dir base_dir ++ [f])
    (Pipeline.extracted_dir base_dir)
  = Pipeline.paper_extracted_path base_dir f.
Proof.
  unfold paper_output_dir, Pipeline.paper_extracted_path.
  now rewrite basename_of_entry.
Qed.

(** The engine run as a subprocess puts no regular file there either. *)
Lemma as_subprocess_no_file (base_dir : path) (f : string) (fs : node) :
  (forall d, lookup (Pipeline.paper_extracted_path base_dir f) fs <> Some (File d)) ->
  forall d,
    lookup (Pipeline.paper_extracted_path base_dir f)
      (snd (as_subprocess (Pipeline.original_dir base_dir ++ [f])
              (Pipeline.extracted_dir base_dir) fs)) <> Some (File d).
Proof.
  intros Hfs. unfold Engine.as_subprocess, Engine.single_paper.
  destruct load_model as [u|e]; [|exact Hfs].
  rewrite <- paper_output_dir_of_entry in *.
  pose proof (process_pdf_no_file _ _ fs Hfs) as H.
  destruct (process_pdf (Pipeline.original_dir base_dir ++ [f])
              (Pipeline.extracted_dir base_dir) fs) as [[[|]|e] fs']; exact H.
Qed.

(** The OCR stage after a run of the engine with status 0 or 1, when no
    regular file is in the way of the paper's directory: it ends normally,
    on the disk of a call that returned [True] or with nothing left of the
    paper's directory. *)
Lemma ocr_stage_cases (base_dir : path) (f : string) (st : Pipeline.state) :
  Pipeline.already_extracted base_dir f (Pipeline.disk st) = false ->
  (forall d, lookup (Pipeline.paper_extracted_path base_dir f) (Pipeline.disk st)
             <> Some (File d)) ->
  fst (Pipeline.ocr_stage base_dir as_subprocess f st) = Ok tt
  /\ ((exists fs',
         process_pdf (Pipeline.original_dir base_dir ++ [f])
           (Pipeline.extracted_dir base_dir) (Pipeline.disk st) = (Ok true, fs')
         /\ Pipeline.disk (snd (Pipeline.ocr_stage base_dir as_subprocess f st)) = fs')
      \/ (forall q,
            lookup (Pipeline.paper_extracted_path base_dir f ++ q)
              (Pipeline.disk (snd (Pipeline.ocr_stage base_dir as_subprocess f st)))
            = None)).
Proof.
  intros Hnot Hdir.
  pose proof (as_subprocess_no_file base_dir f (Pipeline.disk st) Hdir) as Hkeep.
  destruct (as_subprocess_cases (Pipeline.original_dir base_dir ++ [f])
              (Pipeline.extracted_dir base_dir) (Pipeline.disk st))
    as [code [fs' [E [[-> Hp]| ->]]]].
  - unfold Pipeline.ocr_stage. rewrite Hnot, E. simpl. split; [reflexivity|].
    left. exists fs'. now split.
  - rewrite E in Hkeep. simpl in Hkeep.
    destruct (PipelineFacts.cleanup_ok base_dir f fs' Hkeep) as [fs2 Hc].
    destruct (PipelineFacts.ocr_stage_failed base_dir as_subprocess f st _ fs' fs2
                Hnot E ltac:(simpl; discriminate) Hc) as [st' [Hs [Hd _]]].
    rewrite Hs. simpl. split; [reflexivity|].
    right. intros q. rewrite Hd.
    exact (PipelineFacts.lookup_cleanup base_dir f q fs' fs2 Hc).
Qed.

(** X17.  With the engine run as the pipeline's subprocess (launched, and
    ended before the timeout), the OCR stage ends normally and leaves a
    paper that was not extracted yet in one of two states: its marker is
    there and holds one section for each page the PDF converted to, or
    nothing is left of its output directory.  The paper's output path is
    taken not to be a regular file at the start: the engine then puts none
    there, and the cleanup finds a directory to remove. *)
Theorem X17_ocr_stage_leaves_marker_or_nothing
  (base_dir : path) (f : string) (st : Pipeline.state) :
  Pipeline.already_extracted base_dir f (Pipeline.disk st) = false ->
  (forall d, lookup (Pipeline.paper_extracted_path base_dir f) (Pipeline.disk st)
             <> Some (File d)) ->
  fst (Pipeline.ocr_stage base_dir as_subprocess f st) = Ok tt
  /\ ((exists (fs1 : node) (images texts : list string),
         makedirs (Pipeline.paper_extracted_path base_dir f) (Pipeline.disk st)
         = Some fs1
         /\ convert_from_path (Pipeline.original_dir base_dir ++ [f]) fs1 = Ok images
         /\ List.length texts = List.length images
         /\ lookup (Pipeline.extraction_marker base_dir f)
              (Pipeline.disk (snd (Pipeline.ocr_stage base_dir as_subprocess f st)))
            = Some (File (sections_from 0 texts)))
      \/ (forall q,
            lookup (Pipeline.paper_extracted_path base_dir f ++ q)
              (Pipeline.disk (snd (Pipeline.ocr_stage base_dir as_subprocess f st)))
            = None)).
Proof.
  intros Hnot Hdir.
  destruct (ocr_stage_cases base_dir f st Hnot Hdir) as [Hok [[fs' [Hp Hd]]|Hgone]];
    (split; [exact Hok|]); [left|now right].
  destruct (process_pdf_true _ _ _ _ Hp) as [fs1 [images [texts [H1 [H2 [H3 H4]]]]]].
  rewrite paper_output_dir_of_entry in H1. rewrite marker_is_extraction_marker in H4.
  exists fs1, images, texts. rewrite Hd. auto.
Qed.

(** The marker of a PDF that converts to no page. *)
Lemma process_pdf_no_pages (pdf_path output_dir : path) (fs fs' : node) :
  (forall d, convert_from_path pdf_path d = Ok []) ->
  process_pdf pdf_path output_dir fs = (Ok true, fs') ->
  lookup (marker pdf_path output_dir) fs' = Some (File EmptyString).
Proof.
  intros Hconv. unfold Engine.process_pdf, marker.
  destruct (makedirs _ fs) as [fs1|]; [|discriminate].
  rewrite Hconv.
  destruct (makedirs _ fs1) as [fs2|]; [|discriminate].
  cbn [Engine.process_pages].
  destruct (write_file _ EmptyString fs2) as [fs4|] eqn:E4; [|discriminate].
  intros H. inversion H; subst. exact (lookup_write_file _ _ _ _ E4).
Qed.

(** X18.  A PDF that converts to no page gets an empty marker from a run
    that exits with status 0: unless the run fails (and the cleanup leaves
    nothing), the OCR stage leaves [full_extracted.md] present and empty,
    so the paper still does not count as extracted (the engine is launched
    again on every run) while the file the analysis gate asks for
    exists.  As in X17 the paper's output path is not a regular file at
    the start. *)
Theorem X18_pdf_without_pages_gets_an_empty_marker
  (base_dir : path) (f : string) (st : Pipeline.state) :
  (forall fs, convert_from_path (Pipeline.original_dir base_dir ++ [f]) fs = Ok []) ->
  Pipeline.already_extracted base_dir f (Pipeline.disk st) = false ->
  (forall d, lookup (Pipeline.paper_extracted_path base_dir f) (Pipeline.disk st)
             <> Some (File d)) ->
  (lookup (Pipeline.extraction_marker base_dir f)
     (Pipeline.disk (snd (Pipeline.ocr_stage base_dir as_subprocess f st)))
   = Some (File EmptyString)
   /\ Pipeline.already_extracted base_dir f
        (Pipeline.disk (snd (Pipeline.ocr_stage base_dir as_subprocess f st))) = false
   /\ exists_ (Pipeline.extraction_marker base_dir f)
        (Pipeline.disk (snd (Pipeline.ocr_stage base_dir as_subprocess f st))) = true)
  \/ (forall q,
        lookup (Pipeline.paper_extracted_path base_dir f ++ q)
          (Pipeline.disk (snd (Pipeline.ocr_stage base_dir as_subprocess f st)))
        = None).
Proof.
  intros Hconv Hnot Hdir.
  destruct (ocr_stage_cases base_dir f st Hnot Hdir) as [_ [[fs' [Hp Hd]]|Hgone]];
    [left|now right].
  pose proof (process_pdf_no_pages _ _ _ _ Hconv Hp) as Hl.
  rewrite marker_is_extraction_marker in Hl. rewrite Hd.
  split; [exact Hl|].
  unfold Pipeline.already_extracted, exists_, getsize. rewrite Hl. auto.
Qed.

(** X21.  The batch mode asks only whether the output directory and the
    marker of a paper exist, not whether the marker is empty: over papers
    that all have both, the loop changes nothing and calls neither the
    converter nor the model, even where a marker is empty (a paper the
    pipeline's OCR gate would extract again). *)
Theorem X21_batch_mode_skips_on_existence
  (input_dir output_dir : path) (files : list string) (fs : node) :
  Forall (fun f =>
            exists_ (output_dir ++ [Pipeline.splitext_root f]) fs = true
            /\ exists_ (output_dir ++ [Pipeline.splitext_root f; "full_extracted.md"]) fs
               = true) files ->
  Engine.batch_loop convert_from_path infer input_dir output_dir files fs = fs.
Proof.
  induction 1 as [|f files [Hd Hm] _ IH]; [reflexivity|].
  simpl. rewrite Hd. rewrite <- app_assoc. simpl. now rewrite Hm.
Qed.

(** X20.  The perpetual-restart wrapper launches the engine in batch mode.
    When the directory [original_papers] is missing, the batch mode exits
    with status 1 and changes nothing, so every relaunch ends the same way:
    the wrapper never ends, it restarts the engine every 5 seconds for
    ever. *)
Theorem X20_wrapper_restarts_for_ever_without_input (cwd : node) :
  exists_ RobustRunner.entry_point cwd = true ->
  exists_ ["original_papers"] cwd = false ->
  Engine.batch convert_from_path infer load_model [] cwd = (1%Z, cwd)
  /\ forall fuel,
       RobustRunner.script
         (fun _ => fst (Engine.batch convert_from_path infer load_model [] cwd))
         fuel cwd = None.
Proof.
  intros He Hi.
  assert (Hb : Engine.batch convert_from_path infer load_model [] cwd = (1%Z, cwd)).
  { unfold Engine.batch. simpl. now rewrite Hi. }
  split; [exact Hb|]. intros fuel.
  unfold RobustRunner.script. rewrite He. simpl.
  rewrite RobustRunnerFacts.run_ocr_goes_on; [reflexivity|].
  intros i _. rewrite Hb. discriminate.
Qed.

End Engine.

(** X17 at a PDF of one page and a model that saves its text. *)
Lemma X17_witness :
  fst (Pipeline.ocr_stage Examples.base
         (Engine.as_subprocess EngineWorlds.one_page_pdf EngineWorlds.saves_text (Ok tt))
         "p.pdf" EngineWorlds.downloaded) = Ok tt
  /\ ((exists (fs1 : node) (images texts : list string),
         makedirs (Pipeline.paper_extracted_path Examples.base "p.pdf")
           (Pipeline.disk EngineWorlds.downloaded) = Some fs1
         /\ EngineWorlds.one_page_pdf (Pipeline.original_dir Examples.base ++ ["p.pdf"]) fs1
            = Ok images
         /\ List.length texts = List.length images
         /\ lookup (Pipeline.extraction_marker Examples.base "p.pdf")
              (Pipeline.disk
                 (snd (Pipeline.ocr_stage Examples.base
                         (Engine.as_subprocess EngineWorlds.one_page_pdf
                            EngineWorlds.saves_text (Ok tt))
                         "p.pdf" EngineWorlds.downloaded)))
            = Some (File (sections_from 0 texts)))
      \/ (forall q,
            lookup (Pipeline.paper_extracted_path Examples.base "p.pdf" ++ q)
              (Pipeline.disk
                 (snd (Pipeline.ocr_stage Examples.base
                         (Engine.as_subprocess EngineWorlds.one_page_pdf
                            EngineWorlds.saves_text (Ok tt))
                         "p.pdf" EngineWorlds.downloaded)))
            = None)).
Proof.
  apply (X17_ocr_stage_leaves_marker_or_nothing EngineWorlds.one_page_pdf
           EngineWorlds.saves_text (Ok tt) Examples.base "p.pdf"
           EngineWorlds.downloaded).
  - reflexivity.
  - intros d H. vm_compute in H. discriminate.
Defined.

(** The marker that run leaves. *)
Lemma one_page_marker :
  lookup (Pipeline.extraction_marker Examples.base "p.pdf")
    (Pipeline.disk
       (snd (Pipeline.ocr_stage Examples.base
               (Engine.as_subprocess EngineWorlds.one_page_pdf EngineWorlds.saves_text
                  (Ok tt))
               "p.pdf" EngineWorlds.downloaded)))
  = Some (File (section 0 "text of the page")).
Proof. vm_compute. reflexivity. Qed.

(** X18 at a PDF without pages. *)
Lemma X18_witness :
  (lookup (Pipeline.extraction_marker Examples.base "p.pdf")
     (Pipeline.disk
        (snd (Pipeline.ocr_stage Examples.base
                (Engine.as_subprocess EngineWorlds.no_page_pdf EngineWorlds.saves_text
                   (Ok tt))
                "p.pdf" EngineWorlds.downloaded)))
   = Some (File EmptyString)
   /\ Pipeline.already_extracted Examples.base "p.pdf"
        (Pipeline.disk
           (snd (Pipeline.ocr_stage Examples.base
                   (Engine.as_subprocess EngineWorlds.no_page_pdf EngineWorlds.saves_text
                      (Ok tt))
                   "p.pdf" EngineWorlds.downloaded))) = false
   /\ exists_ (Pipeline.extraction_marker Examples.base "p.pdf")
        (Pipeline.disk
           (snd (Pipeline.ocr_stage Examples.base
                   (Engine.as_subprocess EngineWorlds.no_page_pdf EngineWorlds.saves_text
                      (Ok tt))
                   "p.pdf" EngineWorlds.downloaded))) = true)
  \/ (forall q,
        lookup (Pipeline.paper_extracted_path Examples.base "p.pdf" ++ q)
          (Pipeline.disk
             (snd (Pipeline.ocr_stage Examples.base
                     (Engine.as_subprocess EngineWorlds.no_page_pdf EngineWorlds.saves_text
                        (Ok tt))
                     "p.pdf" EngineWorlds.downloaded)))
        = None).
Proof.
  apply (X18_pdf_without_pages_gets_an_empty_marker EngineWorlds.no_page_pdf
           EngineWorlds.saves_text (Ok tt) Examples.base "p.pdf"
           EngineWorlds.downloaded).
  - reflexivity.
  - reflexivity.
  - intros d H. vm_compute in H. discriminate.
Defined.

(** X20 at a working directory that holds the engine and nothing else. *)
Lemma X20_witness :
  Engine.batch EngineWorlds.one_page_pdf EngineWorlds.saves_text (Ok tt) []
    Examples.with_entry_point
  = (1%Z, Examples.with_entry_point).
Proof.
  exact (proj1 (X20_wrapper_restarts_for_ever_without_input
                  EngineWorlds.one_page_pdf EngineWorlds.saves_text (Ok tt)
                  Examples.with_entry_point eq_refl eq_refl)).
Defined.

(** X21 at a paper whose marker is empty. *)
Lemma X21_witness :
  Engine.batch_loop EngineWorlds.one_page_pdf EngineWorlds.saves_text
    (Pipeline.original_dir Examples.base) (Pipeline.extracted_dir Examples.base)
    ["p.pdf"] (Examples.tree ["p.pdf"] [("p", Examples.extracted_paper "")])
  = Examples.tree ["p.pdf"] [("p", Examples.extracted_paper "")]
  /\ Pipeline.already_extracted Examples.base "p.pdf"
       (Examples.tree ["p.pdf"] [("p", Examples.extracted_paper "")]) = false.
Proof.
  split; [|reflexivity].
  apply X21_batch_mode_skips_on_existence.
  repeat constructor.
Defined.

End EngineFacts.
